(** * Clavix Intelligence: the universal optimizer and its conversational /
      PRD patterns, embedded from the TypeScript sources

    Sources embedded here:
    - [src/core/intelligence/universal-optimizer.ts]
    - [src/core/intelligence/patterns/conversation-summarizer.ts]
      (which also carries [RequirementPrioritizer])
    - [src/core/intelligence/patterns/user-persona-enricher.ts]
    - [src/core/intelligence/patterns/implicit-requirement-extractor.ts]
    - the [TopicCoherenceAnalyzer] pattern
    - [src/core/conversation-quality-tracker.ts]
    - [src/core/adapters/vibe-adapter.ts], [src/core/adapters/universal-adapter.ts]
      (the file names of commands) and [escapeRegex]

    Conventions.  A text is a [string]: the sequence of its UTF-16 code
    units, as JavaScript has it.  [length], [substring], the dot and the
    [\s] class of regular expressions and [trim] count and classify code
    units, with the line terminators and the white space of ECMAScript.
    Every keyword and every expression of the sources is ASCII:
    [toLowerCase] is exact on the ASCII letters of its result, and the [i]
    flag folds A-Z, as the canonicalisation of ECMAScript does for
    expressions without the [u] flag.  Scores and confidences are
    integers ([Z]), as the data model has them (0-100 integers);
    [Math.round] of a quotient is written out on integers. *)

From Stdlib Require Import ZArith NArith List Bool Lia Arith.
From Stdlib.Strings Require Byte.
From Stdlib Require QArith Qminmax.
From Stdlib Require Import Sorted Permutation.
Import ListNotations.

Set Implicit Arguments.

(* ================================================================== *)
(** * Code units and strings                                            *)
(* ================================================================== *)

(** A UTF-16 code unit, given by its number (0 - 65535; a larger number
    stands for no code unit, and nothing below depends on the bound). *)
Inductive char : Set := Unit16 (code : N).

(** A JavaScript string: the sequence of its UTF-16 code units. *)
Inductive string : Set :=
| EmptyString
| String (c : char) (s : string).

Module Char.

Definition code (c : char) : N := match c with Unit16 n => n end.

Definition eqb (a b : char) : bool := (code a =? code b)%N.

End Char.

Module String.

(** [s.length]: the number of code units. *)
Fixpoint length (s : string) : nat :=
  match s with
  | EmptyString => O
  | String _ s' => S (length s')
  end.

(** [a + b] *)
Fixpoint append (a b : string) : string :=
  match a with
  | EmptyString => b
  | String c a' => String c (append a' b)
  end.

(** [a === b] *)
Fixpoint eqb (a b : string) : bool :=
  match a, b with
  | EmptyString, EmptyString => true
  | String x a', String y b' => Char.eqb x y && eqb a' b'
  | _, _ => false
  end.

(** The code units of a string, as a list. *)
Fixpoint units (s : string) : list char :=
  match s with
  | EmptyString => []
  | String c s' => c :: units s'
  end.

End String.

(** ** Literals

    A literal of this file is UTF-8 text; it denotes the string of the
    UTF-16 code units of that text (a character outside the basic plane
    gives a surrogate pair). *)
Module Literal.

(** The payload of a continuation byte [10xxxxxx]. *)
Definition continuation (b : N) : option N :=
  if ((128 <=? b) && (b <? 192))%N then Some (b - 128)%N else None.

Fixpoint utf16 (bytes : list N) : option (list N) :=
  match bytes with
  | [] => Some []
  | b :: rest =>
      if (b <? 128)%N then option_map (cons b) (utf16 rest)
      else if (b <? 192)%N then None
      else if (b <? 224)%N then
        match rest with
        | b1 :: rest1 =>
            match continuation b1, utf16 rest1 with
            | Some x1, Some us => Some (((b - 192) * 64 + x1)%N :: us)
            | _, _ => None
            end
        | _ => None
        end
      else if (b <? 240)%N then
        match rest with
        | b1 :: b2 :: rest2 =>
            match continuation b1, continuation b2, utf16 rest2 with
            | Some x1, Some x2, Some us =>
                Some (((b - 224) * 4096 + x1 * 64 + x2)%N :: us)
            | _, _, _ => None
            end
        | _ => None
        end
      else
        match rest with
        | b1 :: b2 :: b3 :: rest3 =>
            match continuation b1, continuation b2, continuation b3, utf16 rest3 with
            | Some x1, Some x2, Some x3, Some us =>
                let v := ((b - 240) * 262144 + x1 * 4096 + x2 * 64 + x3 - 65536)%N in
                Some ((55296 + v / 1024)%N :: (56320 + v mod 1024)%N :: us)
            | _, _, _, _ => None
            end
        | _ => None
        end
  end.

Fixpoint ofUnits (us : list N) : string :=
  match us with
  | [] => EmptyString
  | u :: rest => String (Unit16 u) (ofUnits rest)
  end.

Definition parse (bytes : list Byte.byte) : option string :=
  option_map ofUnits (utf16 (map Byte.to_N bytes)).

Definition parseChar (bytes : list Byte.byte) : option char :=
  match utf16 (map Byte.to_N bytes) with
  | Some [u] => Some (Unit16 u)
  | _ => None
  end.

(** Only texts of ASCII units are shown as literals. *)
Fixpoint print (s : string) : option (list Byte.byte) :=
  match s with
  | EmptyString => Some []
  | String (Unit16 u) s' =>
      if (u <? 128)%N then
        match Byte.of_N u, print s' with
        | Some b, Some bs => Some (b :: bs)
        | _, _ => None
        end
      else None
  end.

Definition printChar (c : char) : option (list Byte.byte) :=
  print (String c EmptyString).

End Literal.

Declare Scope char_scope.
Delimit Scope char_scope with char.
Bind Scope char_scope with char.
Declare Scope string_scope.
Delimit Scope string_scope with string.
Bind Scope string_scope with string.
String Notation char Literal.parseChar Literal.printChar : char_scope.
String Notation string Literal.parse Literal.print : string_scope.
Notation "x ++ y" := (String.append x y) (right associativity, at level 60) : string_scope.

Local Open Scope string_scope.
Local Open Scope bool_scope.

(* ================================================================== *)
(** * JavaScript strings                                                *)
(* ================================================================== *)

Module Js.

(** [c] lies in the closed character range [lo-hi]. *)
Definition inRange (lo hi c : char) : bool :=
  (Char.code lo <=? Char.code c)%N && (Char.code c <=? Char.code hi)%N.

Definition lowerChar (c : char) : char :=
  if inRange "A" "Z" c then Unit16 (Char.code c + 32) else c.

(** The lower-case form of one code unit, as far as the letters of ASCII
    are concerned.  A-Z are folded; two units outside ASCII have a
    lower-case form that contains an ASCII letter: LATIN CAPITAL LETTER I
    WITH DOT ABOVE (U+0130) becomes [i] followed by COMBINING DOT ABOVE
    (U+0307), and KELVIN SIGN (U+212A) becomes [k].  Every other unit
    outside ASCII is kept: the Unicode tables give it a form outside ASCII
    of the same length, and the lowered texts of the sources are only
    searched for ASCII keywords. *)
Definition lowerUnits (c : char) : string :=
  if (Char.code c =? 304)%N then String "i" (String (Unit16 775) EmptyString)
  else if (Char.code c =? 8490)%N then String "k" EmptyString
  else String (lowerChar c) EmptyString.

(** [String.prototype.toLowerCase] *)
Fixpoint toLowerCase (s : string) : string :=
  match s with
  | EmptyString => EmptyString
  | String c s' => lowerUnits c ++ toLowerCase s'
  end.

(** [sub] is an initial segment of [s] ([String.prototype.startsWith]). *)
Fixpoint startsWith (s sub : string) {struct sub} : bool :=
  match sub, s with
  | EmptyString, _ => true
  | String _ _, EmptyString => false
  | String a sub', String b s' => Char.eqb a b && startsWith s' sub'
  end.

(** [String.prototype.includes] *)
Fixpoint includes (s sub : string) : bool :=
  startsWith s sub ||
  match s with
  | EmptyString => false
  | String _ s' => includes s' sub
  end.

(** Line terminators, which the regular-expression dot does not match:
    LF, CR, LINE SEPARATOR (U+2028) and PARAGRAPH SEPARATOR (U+2029). *)
Definition isLineTerminator (c : char) : bool :=
  let n := Char.code c in
  ((n =? 10) || (n =? 13) || (n =? 8232) || (n =? 8233))%N.

(** White space of the regular-expression class [\s] and of [trim]: the
    line terminators and the ECMAScript white space, which is TAB, VT, FF,
    the byte order mark (U+FEFF) and the space separators of Unicode: SPACE,
    NO-BREAK SPACE (U+00A0), U+1680, U+2000 - U+200A, U+202F, U+205F and
    U+3000. *)
Definition isSpace (c : char) : bool :=
  let n := Char.code c in
  isLineTerminator c
  || ((n =? 9) || (n =? 11) || (n =? 12) || (n =? 32) || (n =? 160) || (n =? 5760)
      || ((8192 <=? n) && (n <=? 8202)) || (n =? 8239) || (n =? 8287)
      || (n =? 12288) || (n =? 65279))%N.

Fixpoint trimStart (s : string) : string :=
  match s with
  | EmptyString => EmptyString
  | String c s' => if isSpace c then trimStart s' else s
  end.

(** Drops the longest final run of characters satisfying [p]. *)
Fixpoint dropEndWhile (p : char -> bool) (s : string) : string :=
  match s with
  | EmptyString => EmptyString
  | String c s' =>
      match dropEndWhile p s' with
      | EmptyString => if p c then EmptyString else String c EmptyString
      | r => String c r
      end
  end.

Definition trimEnd (s : string) : string := dropEndWhile isSpace s.

(** [String.prototype.trim] *)
Definition trim (s : string) : string := trimEnd (trimStart s).

(** [s.substring(0, n)] *)
Fixpoint take (n : nat) (s : string) : string :=
  match n, s with
  | O, _ => EmptyString
  | _, EmptyString => EmptyString
  | S n', String c s' => String c (take n' s')
  end.

(** [s.replace(/\s+/g, ' ')]: every maximal run of white space becomes
    one space. *)
Fixpoint collapseSpaces (s : string) : string :=
  match s with
  | EmptyString => EmptyString
  | String c s' =>
      if isSpace c then
        match s' with
        | String d _ => if isSpace d then collapseSpaces s'
                        else String " " (collapseSpaces s')
        | EmptyString => String " " EmptyString
        end
      else String c (collapseSpaces s')
  end.

(** [xs.join(sep)] *)
Fixpoint join (sep : string) (xs : list string) : string :=
  match xs with
  | [] => EmptyString
  | [x] => x
  | x :: rest => x ++ sep ++ join sep rest
  end.

(** [xs.includes(x)] on an array of strings *)
Definition arrayIncludes (xs : list string) (x : string) : bool :=
  existsb (String.eqb x) xs.

(** Truthiness of a string: the empty string is the only falsy one. *)
Definition truthy (s : string) : bool :=
  match s with EmptyString => false | _ => true end.

(** Decimal rendering of a natural number in a template literal. *)
Definition digit (n : nat) : char := Unit16 (N.of_nat (48 + n)).

Fixpoint showNatFuel (fuel n : nat) (acc : string) : string :=
  match fuel with
  | O => acc
  | S fuel' =>
      let acc' := String (digit (n mod 10)) acc in
      if (n <? 10)%nat then acc' else showNatFuel fuel' (n / 10) acc'
  end.

Definition showNat (n : nat) : string := showNatFuel (S n) n EmptyString.

End Js.

(* ================================================================== *)
(** * Regular expressions                                               *)
(* ================================================================== *)

(** The fragment of ECMAScript regular expressions that the patterns use,
    with the backtracking semantics of the language: alternatives are tried
    left to right, greedy quantifiers try the longest repetition first and
    lazy ones the shortest, an iteration that consumes nothing is rejected.
    Every expression of the sources has at most one capture group that is
    read ([match[1]]).  Matching is by code unit, as it is for expressions
    without the [u] flag.  Under the [i] flag two units match when they
    have the same canonical form; the canonical form of a unit outside
    ASCII is never an ASCII letter, and the expressions of the sources name
    ASCII characters, ranges of them, and the classes [\s], [.] and
    [[\s\S]] only, so the
    canonical form is the upper-case letter for a-z and the unit itself
    otherwise. *)

Module RegExp.

Inductive re : Type :=
| Eps                                  (* the empty pattern *)
| Lit (c : char)                      (* a literal character *)
| Class (f : char -> bool)            (* [...], \s, and the dot *)
| NotClass (f : char -> bool)         (* [^...] *)
| Seq (a b : re)
| Alt (a b : re)
| Star (greedy : bool) (a : re)        (* a* and a*? *)
| Group (a : re)                       (* ( a ), the group read as match[1] *)
| Look (a : re)                        (* (?= a ) *)
| End.                                 (* $ without the m flag *)

Definition upperChar (c : char) : char :=
  if Js.inRange "a" "z" c then Unit16 (Char.code c - 32) else c.

(** Character comparison, canonicalised under the [i] flag. *)
Definition eqChar (ignoreCase : bool) (a b : char) : bool :=
  if ignoreCase then Char.eqb (upperChar a) (upperChar b) else Char.eqb a b.

(** Membership in a class: under the [i] flag a character belongs to
    the class when one of its case variants does. *)
Definition inClass (ignoreCase : bool) (f : char -> bool) (c : char) : bool :=
  if ignoreCase then f c || f (upperChar c) || f (Js.lowerChar c) else f c.

Definition orElse {R} (x : option R) (y : option R) : option R :=
  match x with
  | Some _ => x
  | None => y
  end.

(** [run i r s cap k]: match [r] at the start of [s], then continue with
    [k] on what is left; [cap] is the capture so far. *)
Fixpoint run (ignoreCase : bool) (r : re) (R : Type) (s : string)
    (cap : option string) (k : string -> option string -> option R)
    {struct r} : option R :=
  match r with
  | Eps => k s cap
  | Lit a =>
      match s with
      | String b s' => if eqChar ignoreCase a b then k s' cap else None
      | EmptyString => None
      end
  | Class f =>
      match s with
      | String b s' => if inClass ignoreCase f b then k s' cap else None
      | EmptyString => None
      end
  | NotClass f =>
      match s with
      | String b s' => if inClass ignoreCase f b then None else k s' cap
      | EmptyString => None
      end
  | Seq a b => run ignoreCase a s cap (fun s' cap' => run ignoreCase b s' cap' k)
  | Alt a b => orElse (run ignoreCase a s cap k) (run ignoreCase b s cap k)
  | Star greedy a =>
      (fix loop (n : nat) (s : string) (cap : option string) {struct n} : option R :=
         match n with
         | O => k s cap
         | S n' =>
             let again :=
               run ignoreCase a s cap
                 (fun s' cap' =>
                    if (String.length s' <? String.length s)%nat
                    then loop n' s' cap' else None) in
             if greedy then orElse again (k s cap) else orElse (k s cap) again
         end) (String.length s) s cap
  | Group a =>
      run ignoreCase a s cap
        (fun s' _ => k s' (Some (Js.take (String.length s - String.length s') s)))
  | Look a =>
      match run ignoreCase a s cap (fun _ cap' => Some cap') with
      | Some cap' => k s cap'
      | None => None
      end
  | End =>
      match s with
      | EmptyString => k s cap
      | String _ _ => None
      end
  end.

(** One match: the input from where the match starts, the input after
    it, and the text of the capture group. *)
Record Match : Type := mkMatch {
  fromStart : string;
  afterEnd : string;
  group1 : option string
}.

Definition matchHere (ignoreCase : bool) (r : re) (s : string) : option Match :=
  run ignoreCase r s None (fun s' cap => Some (mkMatch s s' cap)).

(** [RegExp.prototype.exec] from the start of [s]: the leftmost match. *)
Fixpoint exec (ignoreCase : bool) (r : re) (s : string) : option Match :=
  match matchHere ignoreCase r s with
  | Some m => Some m
  | None =>
      match s with
      | EmptyString => None
      | String _ s' => exec ignoreCase r s'
      end
  end.

(** [RegExp.prototype.test] of an expression without the [g] flag. *)
Definition test (ignoreCase : bool) (r : re) (s : string) : bool :=
  match exec ignoreCase r s with Some _ => true | None => false end.

(** [s.match(r)[1]] for an expression without the [g] flag; [None] when
    there is no match. *)
Definition match1 (ignoreCase : bool) (r : re) (s : string) : option string :=
  match exec ignoreCase r s with
  | Some m => Some (match group1 m with Some g => g | None => EmptyString end)
  | None => None
  end.

(** [s.matchAll(r)] for an expression with the [g] flag: the successive
    matches, each search resuming where the previous match ended (one
    character further after an empty match). *)
Fixpoint matchAllFuel (fuel : nat) (ignoreCase : bool) (r : re) (s : string)
    : list Match :=
  match fuel with
  | O => []
  | S fuel' =>
      match exec ignoreCase r s with
      | None => []
      | Some m =>
          m :: (if (String.length (afterEnd m) <? String.length (fromStart m))%nat
                then matchAllFuel fuel' ignoreCase r (afterEnd m)
                else match afterEnd m with
                     | EmptyString => []
                     | String _ rest => matchAllFuel fuel' ignoreCase r rest
                     end)
      end
  end.

Definition matchAll (ignoreCase : bool) (r : re) (s : string) : list Match :=
  matchAllFuel (S (String.length s)) ignoreCase r s.

(** The first capture group of every match. *)
Definition captures (ms : list Match) : list string :=
  map (fun m => match group1 m with Some g => g | None => EmptyString end) ms.

(** ** Building expressions *)

Fixpoint word (w : string) : re :=
  match w with
  | EmptyString => Eps
  | String c EmptyString => Lit c
  | String c w' => Seq (Lit c) (word w')
  end.

Fixpoint alts (ws : list string) : re :=
  match ws with
  | [] => Class (fun _ => false)
  | [w] => word w
  | w :: ws' => Alt (word w) (alts ws')
  end.

Definition plus (a : re) : re := Seq a (Star true a).
Definition star (a : re) : re := Star true a.
Definition lazyStar (a : re) : re := Star false a.
Definition opt (a : re) : re := Alt a Eps.
Definition space : re := Class Js.isSpace.
Definition dot : re := NotClass Js.isLineTerminator.
Definition anyChar : re := Class (fun _ => true).          (* [\s\S] *)
Definition oneOf (cs : string) : char -> bool :=
  fun c => Js.includes cs (String c EmptyString).

Fixpoint seqs (rs : list re) : re :=
  match rs with
  | [] => Eps
  | [r] => r
  | r :: rs' => Seq r (seqs rs')
  end.

End RegExp.

(* ================================================================== *)
(** * Data model                                                        *)
(* ================================================================== *)

(** A line feed and a double quote, for the string templates. *)
Definition LF : string := String (Unit16 10) EmptyString.
Definition DQ : string := String (Unit16 34) EmptyString.

(** The types below are declared in [types.ts], which the sources above
    import; each is given with the fields and tags that the sources read and
    write and that the specification's data model lists. *)

(** Modelled from the spec: the [PromptIntent] union of [types.ts].  It is
    a union of string literals; at run time an intent is the string of its
    tag, and the optimizer compares it as such. *)
Definition PromptIntent : Type := string.

(** Modelled from the spec: the [OptimizationMode] union of [types.ts]. *)
Inductive OptimizationMode : Type := fast | deep | prd | conversational.

(** The [mode] of a pattern, as the pattern classes declare it:
    [OptimizationMode | 'both']. *)
Inductive PatternMode : Type := OnlyIn (m : OptimizationMode) | both.

(** Modelled from the spec: the [QualityDimension] union of [types.ts]. *)
Inductive QualityDimension : Type :=
| dim_clarity | dim_efficiency | dim_structure
| dim_completeness | dim_actionability | dim_specificity.

(** Modelled from the spec: the impact tier of an improvement. *)
Inductive Impact : Type := low | medium | high.

(** Modelled from the spec: the [Improvement] of [types.ts], with the
    fields every pattern fills in. *)
Record Improvement : Type := mkImprovement {
  dimension : QualityDimension;
  description : string;
  impact : Impact
}.

(** Modelled from the spec: the [PatternResult] of [types.ts], with the
    fields every pattern returns. *)
Record PatternResult : Type := mkPatternResult {
  enhancedPrompt : string;
  improvement : Improvement;
  applied : bool
}.

(** Modelled from the spec: the characteristics of an intent analysis;
    the two flags are the ones [analyzeEscalation] reads. *)
Record IntentCharacteristics : Type := mkCharacteristics {
  isOpenEnded : bool;
  needsStructure : bool
}.

(** Modelled from the spec: the [IntentAnalysis] of [types.ts]; the
    confidence is an integer from 0 to 100. *)
Record IntentAnalysis : Type := mkIntent {
  primaryIntent : PromptIntent;
  confidence : Z;
  characteristics : IntentCharacteristics
}.

(** Modelled from the spec: the [QualityScore] of [types.ts]: the six
    dimensions and the overall score, integers from 0 to 100. *)
Record QualityScore : Type := mkQuality {
  clarity : Z;
  efficiency : Z;
  structure : Z;
  completeness : Z;
  actionability : Z;
  specificity : Z;
  overall : Z
}.

(** Modelled from the spec: the [PatternContext] of [types.ts], with the
    fields [optimize] fills in. *)
Record PatternContext : Type := mkContext {
  ctx_intent : IntentAnalysis;
  ctx_mode : OptimizationMode;
  originalPrompt : string;
  ctx_phase : option string;
  ctx_documentType : option string;
  ctx_questionId : option string
}.

(** What a call completes with: a value, or a thrown exception. *)
Inductive completion (A : Type) : Type :=
| Normal (a : A)
| Throw (e : string).

Arguments Normal {A} a.
Arguments Throw {A} e.

(** A registered pattern, as the optimizer's loop sees it: the members
    every pattern class declares.  [apply] may throw. *)
Record Pattern : Type := mkPattern {
  id : string;
  name : string;
  pattern_description : string;
  applicableIntents : list PromptIntent;
  mode : PatternMode;
  priority : Z;
  apply : string -> PatternContext -> completion PatternResult
}.

(** The helpers the patterns inherit from [BasePattern]
    ([base-pattern.ts]).  The patterns are written against this interface,
    and what is proved of them holds for every implementation of it. *)
Class BasePattern : Type := {
  hasSection : string -> list string -> bool;
  extractSentences : string -> list string
}.

(** [xs.slice(0, n)] *)
Definition slice0 {A} (n : nat) (xs : list A) : list A := firstn n xs.

(** Number of elements [xs.filter(p)] keeps. *)
Definition countWhere {A} (p : A -> bool) (xs : list A) : nat := List.length (filter p xs).

(** [ws.some(w => s.includes(w))] *)
Definition includesAny (s : string) (ws : list string) : bool :=
  existsb (fun w => Js.includes s w) ws.

(** The bullet list [xs.map(x => `- ${x}`).join('\n')]. *)
Definition bullets (xs : list string) : string :=
  Js.join LF (map (fun x => "- " ++ x) xs).

(* ================================================================== *)
(** * ConversationSummarizer                                            *)
(* ================================================================== *)

Module ConversationSummarizer.
Import RegExp.

Definition structureIndicators : list string :=
  ["##"; "###"; "**Requirements:**"; "**Features:**"; "- [ ]"; "1."; "2."; "3."].

Definition isAlreadyStructured (prompt : string) : bool :=
  (3 <=? countWhere (fun indicator => Js.includes prompt indicator) structureIndicators)%nat.

Definition conversationalMarkers : list string :=
  ["i want"; "i need"; "we need"; "should be able to"; "would like";
   "thinking about"; "maybe we could"; "what if"; "how about"; "let me";
   "let's"; "also"; "and then"; "basically"; "so basically"].

Definition isConversationalContent `{BasePattern} (prompt : string) : bool :=
  let lowerPrompt := Js.toLowerCase prompt in
  let matches := countWhere (fun marker => Js.includes lowerPrompt marker) conversationalMarkers in
  let sentences := extractSentences prompt in
  let hasBulletPoints := Js.includes prompt "- " || Js.includes prompt "* " in
  (2 <=? matches)%nat || ((3 <? List.length sentences)%nat && negb hasBulletPoints).

(** [text.trim().replace(/[.!?,;:]+$/, '').replace(/\s+/g, ' ').substring(0, 200)] *)
Definition cleanRequirement (text : string) : string :=
  Js.take 200
    (Js.collapseSpaces
       (Js.dropEndWhile (oneOf ".!?,;:") (Js.trim text))).

(** The body shared by the three extraction loops:
    [if (m[1]) { const x = clean(m[1]); if (x && !acc.includes(x)) acc.push(x) }] *)
Definition pushClean (acc : list string) (captured : string) : list string :=
  if Js.truthy captured then
    let item := cleanRequirement captured in
    if Js.truthy item && negb (Js.arrayIncludes acc item)
    then acc ++ [item] else acc
  else acc.

Definition requirementPatterns : list re :=
  [ seqs [alts ["need"; "want"; "should"; "must"; "require"]; plus space;
          opt (Seq (word "to") (plus space)); Group (plus dot)];
    seqs [alts ["should be able to"; "needs to"]; plus space; Group (plus dot)];
    seqs [alts ["feature"; "functionality"]; Lit ":"; star space; Group (plus dot)] ].

Definition extractRequirements `{BasePattern} (prompt : string) : list string :=
  let sentences := extractSentences prompt in
  let requirements :=
    fold_left
      (fun reqs sentence =>
         fold_left
           (fun reqs pattern =>
              match match1 true pattern sentence with
              | Some captured => pushClean reqs captured
              | None => reqs
              end)
           requirementPatterns reqs)
      sentences [] in
  slice0 10 requirements.

Definition constraintPatterns : list re :=
  [ seqs [alts ["can't"; "cannot"; "shouldn't"; "must not"]; plus space; Group (plus dot)];
    seqs [alts ["limited to"; "restricted to"; "only"]; plus space; Group (plus dot)];
    seqs [alts ["within"; "budget"; "deadline"; "timeline"]; Lit ":"; star space;
          Group (plus dot)];
    seqs [alts ["no more than"; "at most"; "maximum"]; plus space; Group (plus dot)] ].

(** The [for pattern / for match of prompt.matchAll(pattern)] loops. *)
Definition collectAll (patterns : list re) (prompt : string) : list string :=
  fold_left
    (fun acc pattern => fold_left pushClean (captures (matchAll true pattern prompt)) acc)
    patterns [].

Definition pushIf (b : bool) (x : string) (acc : list string) : list string :=
  if b then acc ++ [x] else acc.

Definition extractConstraints (prompt : string) : list string :=
  let lowerPrompt := Js.toLowerCase prompt in
  let constraints := collectAll constraintPatterns prompt in
  let constraints :=
    pushIf (Js.includes lowerPrompt "performance")
      "Performance requirements to be defined" constraints in
  let constraints :=
    pushIf (Js.includes lowerPrompt "security")
      "Security requirements to be defined" constraints in
  let constraints :=
    pushIf (Js.includes lowerPrompt "mobile" && Js.includes lowerPrompt "desktop")
      "Must work on both mobile and desktop" constraints in
  slice0 5 constraints.

Definition goalPatterns : list re :=
  [ seqs [alts ["goal is to"; "aim to"; "objective is to"]; plus space; Group (plus dot)];
    seqs [alts ["trying to"; "looking to"; "hoping to"]; plus space; Group (plus dot)];
    seqs [alts ["so that"; "in order to"]; plus space; Group (plus dot)] ].

Definition extractGoals (prompt : string) : list string :=
  slice0 3 (collectAll goalPatterns prompt).

(** One titled bullet list of the document, left out when the list is empty. *)
Definition listSection (title : string) (items : list string) : string :=
  match items with
  | [] => EmptyString
  | _ => title ++ LF ++ bullets items ++ LF ++ LF
  end.

(** The structured document for given lists. *)
Definition render (goals requirements constraints : list string) (prompt : string)
    : string :=
  ("### Extracted Requirements" ++ LF ++ LF)
  ++ listSection "**Goals:**" goals
  ++ listSection "**Requirements:**" requirements
  ++ listSection "**Constraints:**" constraints
  ++ ("---" ++ LF ++ LF) ++ ("**Original Context:**" ++ LF ++ prompt).

Definition extractAndStructure `{BasePattern} (prompt : string) : string :=
  let requirements := extractRequirements prompt in
  let constraints := extractConstraints prompt in
  let goals := extractGoals prompt in
  render goals requirements constraints prompt.

Definition apply `{BasePattern} (prompt : string) (_context : PatternContext)
    : PatternResult :=
  if isAlreadyStructured prompt then
    mkPatternResult prompt
      (mkImprovement dim_structure "Content already well-structured" low) false
  else if negb (isConversationalContent prompt) then
    mkPatternResult prompt
      (mkImprovement dim_structure "Not conversational content" low) false
  else
    let enhanced := extractAndStructure prompt in
    mkPatternResult enhanced
      (mkImprovement dim_structure
         "Extracted structured requirements from conversation" high) true.

Definition pattern `{BasePattern} : Pattern :=
  mkPattern "conversation-summarizer" "ConversationSummarizer"
    "Extracts structured requirements from messages"
    ["summarization"; "planning"; "prd-generation"] (OnlyIn deep) 8
    (fun prompt context => Normal (apply prompt context)).

End ConversationSummarizer.

(* ================================================================== *)
(** * RequirementPrioritizer                                            *)
(* ================================================================== *)

Module RequirementPrioritizer.
Import RegExp.

Definition featureKeywords : list string :=
  ["feature"; "requirement"; "functionality"; "capability"; "should"; "must";
   "need"; "want"; "implement"].

Definition hasFeatureContent `{BasePattern} (prompt : string) : bool :=
  hasSection prompt featureKeywords.

Definition priorityKeywords : list string :=
  ["must-have"; "must have"; "nice-to-have"; "nice to have"; "p0"; "p1"; "p2";
   "priority:"; "mvp"; "phase 1"; "phase 2"; "critical"; "optional"].

Definition hasPrioritization `{BasePattern} (prompt : string) : bool :=
  hasSection prompt priorityKeywords.

(** The common tail [:?\s*\n([\s\S]*?)(?=\n##|\n\*\*[A-Z]|$)]. *)
Definition sectionBody : re :=
  seqs [opt (Lit ":"); star space; word LF; Group (lazyStar anyChar);
        Look (Alt (word (LF ++ "##"))
             (Alt (Seq (word (LF ++ "**")) (Class (Js.inRange "A" "Z"))) End))].

Definition featurePatterns : list re :=
  [ seqs [word "feature"; opt (Lit "s"); sectionBody];
    seqs [word "requirement"; opt (Lit "s"); sectionBody];
    seqs [word "what we"; Alt (word "'re") (word " are"); word " building"; sectionBody] ].

(** The first expression that matches gives the section; [None] is [null]. *)
Fixpoint firstMatch (patterns : list re) (prompt : string) : option string :=
  match patterns with
  | [] => None
  | pattern :: rest =>
      match match1 true pattern prompt with
      | Some section => Some section
      | None => firstMatch rest prompt
      end
  end.

Definition extractFeatureSection (prompt : string) : option string :=
  firstMatch featurePatterns prompt.

Definition priorityTemplate : string :=
  LF ++ LF ++ "### Requirement Priorities" ++ LF
  ++ "**Must-Have (MVP):**" ++ LF ++ "- [Core features required for launch]" ++ LF ++ LF
  ++ "**Nice-to-Have (Post-MVP):**" ++ LF ++ "- [Features to add after initial release]".

Definition priorityNote : string :=
  LF ++ LF ++ "> **Priority Framework:** Consider categorizing features as:" ++ LF
  ++ "> - **Must-Have (P0):** Required for MVP, blocking issues" ++ LF
  ++ "> - **Should-Have (P1):** Important but not blocking" ++ LF
  ++ "> - **Nice-to-Have (P2):** Enhancements for future iterations".

(** [!featureSection] holds for [null] and for the empty section. *)
Definition addPrioritization (prompt : string) : string :=
  match extractFeatureSection prompt with
  | Some (String _ _) => prompt ++ priorityNote
  | _ => prompt ++ priorityTemplate
  end.

Definition apply `{BasePattern} (prompt : string) (_context : PatternContext)
    : PatternResult :=
  if negb (hasFeatureContent prompt) then
    mkPatternResult prompt
      (mkImprovement dim_structure "No feature content to prioritize" low) false
  else if hasPrioritization prompt then
    mkPatternResult prompt
      (mkImprovement dim_structure "Requirements already prioritized" low) false
  else
    let enhanced := addPrioritization prompt in
    mkPatternResult enhanced
      (mkImprovement dim_structure
         "Added requirement prioritization (must-have vs nice-to-have)" high) true.

Definition pattern `{BasePattern} : Pattern :=
  mkPattern "requirement-prioritizer" "RequirementPrioritizer"
    "Separates must-have from nice-to-have requirements"
    ["prd-generation"; "planning"] (OnlyIn deep) 7
    (fun prompt context => Normal (apply prompt context)).

End RequirementPrioritizer.

(* ================================================================== *)
(** * UserPersonaEnricher                                               *)
(* ================================================================== *)

Module UserPersonaEnricher.

Definition userKeywords : list string :=
  ["user persona"; "target user"; "end user"; "user profile"; "audience";
   "stakeholder"; "as a user"; "users can"; "users will"; "for users";
   "customer"; "developer"; "admin"; "target audience"].

Definition hasUserContext `{BasePattern} (prompt : string) : bool :=
  hasSection prompt userKeywords.

Definition featureKeywords : list string :=
  ["feature"; "build"; "create"; "implement"; "functionality"; "should"; "must";
   "requirement"].

Definition needsUserContext `{BasePattern} (prompt : string) : bool :=
  hasSection prompt featureKeywords.

Definition inferUserType (prompt : string) : string :=
  let lowerPrompt := Js.toLowerCase prompt in
  if Js.includes lowerPrompt "api" || Js.includes lowerPrompt "sdk"
     || Js.includes lowerPrompt "library"
  then "Developers integrating with the system"
  else if Js.includes lowerPrompt "admin" || Js.includes lowerPrompt "manage"
          || Js.includes lowerPrompt "dashboard"
  then "Administrators managing the system"
  else if Js.includes lowerPrompt "e-commerce" || Js.includes lowerPrompt "shop"
          || Js.includes lowerPrompt "buy"
  then "Customers making purchases"
  else if Js.includes lowerPrompt "content" || Js.includes lowerPrompt "blog"
          || Js.includes lowerPrompt "cms"
  then "Content creators and editors"
  else if Js.includes lowerPrompt "mobile" || Js.includes lowerPrompt "app"
  then "Mobile app users"
  else "[Define primary user type]".

Definition personaSection (userType : string) : string :=
  LF ++ LF ++ "### Target Users" ++ LF
  ++ "**Primary User:** " ++ userType ++ LF
  ++ "- Goals: [What they want to achieve]" ++ LF
  ++ "- Pain Points: [Current frustrations]" ++ LF
  ++ "- Context: [When and how they'll use this]".

Definition addUserPersona (prompt : string) : string :=
  let userType := inferUserType prompt in
  prompt ++ personaSection userType.

Definition apply `{BasePattern} (prompt : string) (_context : PatternContext)
    : PatternResult :=
  if hasUserContext prompt then
    mkPatternResult prompt
      (mkImprovement dim_completeness "User context already present" low) false
  else if negb (needsUserContext prompt) then
    mkPatternResult prompt
      (mkImprovement dim_completeness "Content does not require user persona" low) false
  else
    let enhanced := addUserPersona prompt in
    mkPatternResult enhanced
      (mkImprovement dim_completeness
         "Added user persona context (who will use this)" medium) true.

Definition pattern `{BasePattern} : Pattern :=
  mkPattern "user-persona-enricher" "UserPersonaEnricher"
    "Adds missing user context and personas"
    ["prd-generation"; "planning"] (OnlyIn deep) 6
    (fun prompt context => Normal (apply prompt context)).

End UserPersonaEnricher.

(* ================================================================== *)
(** * ImplicitRequirementExtractor                                      *)
(* ================================================================== *)

Module ImplicitRequirementExtractor.
Import RegExp.

(** [/(?:like|similar to|same as)\s+([A-Za-z0-9\s]+)/gi] *)
Definition likePattern : re :=
  seqs [alts ["like"; "similar to"; "same as"]; plus space;
        Group (plus (Class (fun c =>
          Js.inRange "A" "Z" c || Js.inRange "a" "z" c || Js.inRange "0" "9" c
          || Js.isSpace c)))].

(** [/(?:always|never|must always|must never)\s+([^.!?]+)/gi] *)
Definition alwaysNeverPattern : re :=
  seqs [alts ["always"; "never"; "must always"; "must never"]; plus space;
        Group (plus (NotClass (oneOf ".!?")))].

(** [for (const m of ms) if (m[1]) reqs.push(template(m[1].trim()))] *)
Definition pushEach (template : string -> string) (captured : list string)
    (reqs : list string) : list string :=
  fold_left
    (fun (reqs : list string) c =>
       if Js.truthy c then (reqs ++ [template (Js.trim c)])%list else reqs)
    captured reqs.

(** [[...new Set(xs)]]: first occurrences, in order. *)
Fixpoint dedupeFrom (seen xs : list string) : list string :=
  match xs with
  | [] => []
  | x :: rest =>
      if Js.arrayIncludes seen x then dedupeFrom seen rest
      else x :: dedupeFrom (x :: seen) rest
  end.

Definition dedupe (xs : list string) : list string := dedupeFrom [] xs.

Definition extractImplicitRequirements (prompt : string) : list string :=
  let lowerPrompt := Js.toLowerCase prompt in
  let has := Js.includes lowerPrompt in
  let push := ConversationSummarizer.pushIf in
  let reqs := [] in
  let reqs :=
    pushEach (fun x => "Feature parity with " ++ DQ ++ x ++ DQ ++ " (implied)")
      (captures (matchAll true likePattern prompt)) reqs in
  let reqs := push (has "mobile") "Mobile-responsive design required" reqs in
  let reqs := push (has "real-time" || has "realtime")
                "Real-time updates infrastructure needed" reqs in
  let reqs := push (has "scale" || has "thousands" || has "millions")
                "Scalability architecture required" reqs in
  let reqs := push (has "secure" || has "security")
                "Security audit and compliance requirements" reqs in
  let reqs := push (has "fast" || has "quick")
                "Performance optimization requirements" reqs in
  let reqs := push ((has "user" || has "admin") && negb (has "authentication"))
                "User authentication system (implied by user roles)" reqs in
  let reqs := push ((has "save" || has "store" || has "data") && negb (has "database"))
                "Data persistence/storage (implied by data operations)" reqs in
  let reqs := push (has "easy" || has "simple" || has "intuitive")
                "User experience priority (simplicity mentioned)" reqs in
  let reqs := push (has "notify" || has "alert" || has "email" || has "notification")
                "Notification system infrastructure" reqs in
  let reqs := push (has "search" || has "find")
                "Search functionality and indexing" reqs in
  let reqs := push (has "report" || has "analytics" || has "dashboard")
                "Analytics and reporting infrastructure" reqs in
  let reqs := push (has "integrate" || has "connect" || has "sync")
                "Integration APIs and webhooks" reqs in
  let reqs :=
    pushEach (fun x => "Business rule: " ++ DQ ++ x ++ DQ ++ " (implied constraint)")
      (captures (matchAll true alwaysNeverPattern prompt)) reqs in
  slice0 8 (dedupe reqs).

Definition addImplicitRequirements (prompt : string) (implicitReqs : list string)
    : string :=
  let section := LF ++ LF ++ "### Implicit Requirements (Inferred)" ++ LF in
  let section :=
    section ++ "*The following requirements are implied by the discussion:*" ++ LF ++ LF in
  let section := section ++ bullets implicitReqs in
  let section :=
    section ++ LF ++ LF
    ++ "> **Note:** Please verify these inferred requirements are accurate." in
  prompt ++ section.

Definition apply (prompt : string) (_context : PatternContext) : PatternResult :=
  let implicitReqs := extractImplicitRequirements prompt in
  if (List.length implicitReqs =? 0)%nat then
    mkPatternResult prompt
      (mkImprovement dim_completeness "No implicit requirements detected" low) false
  else
    let enhanced := addImplicitRequirements prompt implicitReqs in
    mkPatternResult enhanced
      (mkImprovement dim_completeness
         ("Surfaced " ++ Js.showNat (List.length implicitReqs) ++ " implicit requirements")
         medium) true.

Definition pattern : Pattern :=
  mkPattern "implicit-requirement-extractor" "ImplicitRequirementExtractor"
    "Surfaces requirements mentioned indirectly"
    ["summarization"; "planning"; "prd-generation"] (OnlyIn deep) 7
    (fun prompt context => Normal (apply prompt context)).

End ImplicitRequirementExtractor.

(* ================================================================== *)
(** * TopicCoherenceAnalyzer                                            *)
(* ================================================================== *)

Module TopicCoherenceAnalyzer.
Import RegExp.

(** [topicIndicators], in the order [Object.entries] lists the keys. *)
Definition topicIndicators : list (string * list string) :=
  [ ("User Interface",
     ["ui"; "interface"; "design"; "layout"; "button"; "form"; "page"; "screen"]);
    ("Backend/API", ["api"; "backend"; "server"; "endpoint"; "route"; "controller"]);
    ("Database", ["database"; "db"; "schema"; "table"; "query"; "migration"]);
    ("Authentication", ["auth"; "login"; "password"; "session"; "token"; "permission"]);
    ("Performance", ["performance"; "speed"; "cache"; "optimize"; "latency"]);
    ("Testing", ["test"; "spec"; "coverage"; "qa"; "validation"]);
    ("Deployment", ["deploy"; "ci/cd"; "pipeline"; "release"; "environment"]);
    ("User Experience", ["ux"; "usability"; "accessibility"; "user flow"; "journey"]);
    ("Business Logic", ["business"; "workflow"; "process"; "rule"; "logic"]);
    ("Integration", ["integration"; "third-party"; "external"; "webhook"; "sync"]) ].

Definition detectTopics (prompt : string) : list string :=
  let lowerPrompt := Js.toLowerCase prompt in
  map fst (filter (fun entry => includesAny lowerPrompt (snd entry)) topicIndicators).

(** [/##\s*(user interface|backend|database|auth|performance|testing|deploy)/i] *)
Definition topicHeaders : re :=
  seqs [word "##"; star space;
        Group (alts ["user interface"; "backend"; "database"; "auth"; "performance";
                     "testing"; "deploy"])].

Definition hasTopicOrganization (prompt : string) : bool :=
  test true topicHeaders prompt.

Definition topicKeywords : list (string * list string) :=
  [ ("User Interface",
     ["ui"; "interface"; "design"; "layout"; "button"; "form"; "page"; "screen";
      "component"]);
    ("Backend/API",
     ["api"; "backend"; "server"; "endpoint"; "route"; "controller"; "service"]);
    ("Database", ["database"; "db"; "schema"; "table"; "query"; "migration"; "model"]);
    ("Authentication",
     ["auth"; "login"; "password"; "session"; "token"; "permission"; "user"]);
    ("Performance",
     ["performance"; "speed"; "cache"; "optimize"; "latency"; "fast"; "slow"]);
    ("Testing", ["test"; "spec"; "coverage"; "qa"; "validation"; "verify"]);
    ("Deployment",
     ["deploy"; "ci/cd"; "pipeline"; "release"; "environment"; "production"]);
    ("User Experience",
     ["ux"; "usability"; "accessibility"; "user flow"; "journey"; "experience"]);
    ("Business Logic",
     ["business"; "workflow"; "process"; "rule"; "logic"; "requirement"]);
    ("Integration",
     ["integration"; "third-party"; "external"; "webhook"; "sync"; "connect"]) ].

(** [topicKeywords[topic] || []], for the topics [detectTopics] yields. *)
Fixpoint keywordsOf (table : list (string * list string)) (topic : string)
    : list string :=
  match table with
  | [] => []
  | (t, kws) :: rest => if String.eqb t topic then kws else keywordsOf rest topic
  end.

Definition extractTopicContent `{BasePattern} (prompt topic : string) : string :=
  let keywords := keywordsOf topicKeywords topic in
  let sentences := extractSentences prompt in
  let relevantSentences :=
    filter (fun sentence => includesAny (Js.toLowerCase sentence) keywords) sentences in
  if (List.length relevantSentences =? 0)%nat then
    "- Discussion related to " ++ topic
  else
    Js.join LF (map (fun s => "- " ++ Js.trim s) (slice0 3 relevantSentences)).

(** [topics.map((t, i) => `${i + 1}. **${t}**`)], numbering from [i]. *)
Fixpoint numbered (i : nat) (topics : list string) : list string :=
  match topics with
  | [] => []
  | t :: rest => (Js.showNat (i + 1) ++ ". **" ++ t ++ "**") :: numbered (S i) rest
  end.

Definition organizeByTopic `{BasePattern} (prompt : string) (topics : list string)
    : string :=
  let organized := "### Topics Covered" ++ LF in
  let organized := organized ++ "This conversation touches on multiple areas:" ++ LF in
  let organized := organized ++ Js.join LF (numbered 0 topics) in
  let organized := organized ++ LF ++ LF ++ "---" ++ LF ++ LF in
  let organized := organized ++ "### Discussion by Topic" ++ LF ++ LF in
  let organized :=
    fold_left
      (fun organized topic =>
         let relevantContent := extractTopicContent prompt topic in
         if Js.truthy relevantContent
         then organized ++ ("#### " ++ topic ++ LF) ++ (relevantContent ++ LF ++ LF)
         else organized)
      topics organized in
  organized ++ ("---" ++ LF ++ LF) ++ ("**Full Context:**" ++ LF ++ prompt).

Definition apply `{BasePattern} (prompt : string) (_context : PatternContext)
    : PatternResult :=
  let topics := detectTopics prompt in
  if (List.length topics <=? 1)%nat then
    mkPatternResult prompt
      (mkImprovement dim_structure "Single coherent topic detected" low) false
  else if hasTopicOrganization prompt then
    mkPatternResult prompt
      (mkImprovement dim_structure "Topics already organized" low) false
  else
    let enhanced := organizeByTopic prompt topics in
    mkPatternResult enhanced
      (mkImprovement dim_structure
         ("Organized " ++ Js.showNat (List.length topics) ++ " distinct topics for clarity")
         medium) true.

Definition pattern `{BasePattern} : Pattern :=
  mkPattern "topic-coherence-analyzer" "TopicCoherenceAnalyzer"
    "Detects topic shifts and multi-topic conversations"
    ["summarization"; "planning"] (OnlyIn deep) 6
    (fun prompt context => Normal (apply prompt context)).

End TopicCoherenceAnalyzer.

(** The five patterns, as one family. *)
Inductive PatternKind : Type :=
| ConversationSummarizerK
| RequirementPrioritizerK
| UserPersonaEnricherK
| ImplicitRequirementExtractorK
| TopicCoherenceAnalyzerK.

Definition patternOf `{BasePattern} (k : PatternKind) : Pattern :=
  match k with
  | ConversationSummarizerK => ConversationSummarizer.pattern
  | RequirementPrioritizerK => RequirementPrioritizer.pattern
  | UserPersonaEnricherK => UserPersonaEnricher.pattern
  | ImplicitRequirementExtractorK => ImplicitRequirementExtractor.pattern
  | TopicCoherenceAnalyzerK => TopicCoherenceAnalyzer.pattern
  end.

(** [P.apply(T, ctx)] of one of the five patterns; none of them throws. *)
Definition applyKind `{BasePattern} (k : PatternKind) (prompt : string)
    (context : PatternContext) : PatternResult :=
  match k with
  | ConversationSummarizerK => ConversationSummarizer.apply prompt context
  | RequirementPrioritizerK => RequirementPrioritizer.apply prompt context
  | UserPersonaEnricherK => UserPersonaEnricher.apply prompt context
  | ImplicitRequirementExtractorK => ImplicitRequirementExtractor.apply prompt context
  | TopicCoherenceAnalyzerK => TopicCoherenceAnalyzer.apply prompt context
  end.

(** The applicability check of each pattern: the conjunction of the guards
    that stand before its transformation. *)
Definition applicable `{BasePattern} (k : PatternKind) (prompt : string) : bool :=
  match k with
  | ConversationSummarizerK =>
      negb (ConversationSummarizer.isAlreadyStructured prompt)
      && ConversationSummarizer.isConversationalContent prompt
  | RequirementPrioritizerK =>
      RequirementPrioritizer.hasFeatureContent prompt
      && negb (RequirementPrioritizer.hasPrioritization prompt)
  | UserPersonaEnricherK =>
      negb (UserPersonaEnricher.hasUserContext prompt)
      && UserPersonaEnricher.needsUserContext prompt
  | ImplicitRequirementExtractorK =>
      negb (List.length (ImplicitRequirementExtractor.extractImplicitRequirements prompt) =? 0)%nat
  | TopicCoherenceAnalyzerK =>
      negb (List.length (TopicCoherenceAnalyzer.detectTopics prompt) <=? 1)%nat
      && negb (TopicCoherenceAnalyzer.hasTopicOrganization prompt)
  end.

(** A [BasePattern] to run the patterns with: a section is present when a
    keyword occurs in the lower-cased text, and sentences are the trimmed,
    non-empty pieces between runs of [.], [!] and [?]. *)
Module KeywordBase.

Fixpoint splitSentences (cur : string) (s : string) : list string :=
  match s with
  | EmptyString => [cur]
  | String c s' =>
      if RegExp.oneOf ".!?" c then cur :: splitSentences EmptyString s'
      else splitSentences (cur ++ String c EmptyString) s'
  end.

Definition base : BasePattern := {|
  hasSection prompt keywords :=
    includesAny (Js.toLowerCase prompt) (map Js.toLowerCase keywords);
  extractSentences prompt :=
    filter Js.truthy (map Js.trim (splitSentences EmptyString prompt))
|}.

End KeywordBase.

(* ================================================================== *)
(** * The optimizer's effects                                           *)
(* ================================================================== *)

(** [optimize] reads the clock twice and may write to the console; nothing
    else outside its arguments is touched.  The world is the supply of
    clock readings, how many were taken, and the console's error lines. *)
Record World : Type := mkWorld {
  clock : nat -> Z;
  reads : nat;
  console : list string
}.

(** A computation: from a world to a completion and the world after it. *)
Definition M (A : Type) : Type := World -> completion A * World.

Definition ret {A} (a : A) : M A := fun w => (Normal a, w).

Definition bind {A B} (m : M A) (f : A -> M B) : M B :=
  fun w =>
    match m w with
    | (Normal a, w') => f a w'
    | (Throw e, w') => (Throw e, w')
    end.

Notation "x <- m ;; f" := (bind m (fun x => f))
  (at level 61, m at next level, right associativity).

(** A call that completes without touching the world. *)
Definition call {A} (c : completion A) : M A := fun w => (c, w).

(** [try { body } catch (error) { handler(error) }] *)
Definition tryCatch {A} (body : M A) (handler : string -> M A) : M A :=
  fun w =>
    match body w with
    | (Normal a, w') => (Normal a, w')
    | (Throw e, w') => handler e w'
    end.

(** [Date.now()] *)
Definition dateNow : M Z :=
  fun w => (Normal (clock w (reads w)), mkWorld (clock w) (S (reads w)) (console w)).

(** [console.error(label, error)] *)
Definition consoleError (label error : string) : M unit :=
  fun w => (Normal tt, mkWorld (clock w) (reads w) (console w ++ [label ++ " " ++ error])).

(* ================================================================== *)
(** * UniversalOptimizer                                                *)
(* ================================================================== *)

(** The collaborators the constructor receives ([intent-detector.ts],
    [pattern-library.ts], [quality-assessor.ts]).  The optimizer is
    parametric in them; by their contracts they are total and stateless: a
    detector maps a prompt to its analysis, a library selects patterns, an
    assessor scores texts. *)
Record IntentDetector : Type := mkDetector {
  analyze : string -> IntentAnalysis
}.

Record PatternLibrary : Type := mkLibrary {
  selectPatterns : IntentAnalysis -> OptimizationMode -> list Pattern;
  selectPatternsForMode : OptimizationMode -> IntentAnalysis -> option string -> list Pattern
}.

Record QualityAssessor : Type := mkAssessor {
  assess : string -> string -> IntentAnalysis -> QualityScore;
  assessQuality : string -> PromptIntent -> QualityScore
}.

Record UniversalOptimizer : Type := mkOptimizer {
  intentDetector : IntentDetector;
  patternLibrary : PatternLibrary;
  qualityAssessor : QualityAssessor
}.

(** [OptimizationContextOverride]; phases and document types are the
    strings of their tags. *)
Record OptimizationContextOverride : Type := mkOverride {
  phase : option string;
  documentType : option string;
  questionId : option string;
  intent : option string
}.

(** Modelled from the spec: the [PatternSummary] of [types.ts], with the
    fields [optimize] fills in. *)
Record PatternSummary : Type := mkSummary {
  summary_name : string;
  summary_description : string;
  summary_impact : Impact
}.

(** Modelled from the spec: the [OptimizationResult] of [types.ts], with
    the fields [optimize] returns. *)
Record OptimizationResult : Type := mkResult {
  original : string;
  enhanced : string;
  result_intent : IntentAnalysis;
  quality : QualityScore;
  improvements : list Improvement;
  appliedPatterns : list PatternSummary;
  result_mode : OptimizationMode;
  processingTimeMs : Z
}.

(** [o?.f] for an optional field of an optional object. *)
Definition optField {O A} (o : option O) (f : O -> option A) : option A :=
  match o with
  | Some x => f x
  | None => None
  end.

(** [if (contextOverride?.intent)]: the override counts when it is a
    non-empty string. *)
Definition overrideIntent (contextOverride : option OptimizationContextOverride)
    : option string :=
  match optField contextOverride intent with
  | Some s => if Js.truthy s then Some s else None
  | None => None
  end.

(** [{ ...intent, primaryIntent: tag }] *)
Definition withPrimaryIntent (i : IntentAnalysis) (tag : string) : IntentAnalysis :=
  mkIntent tag (confidence i) (characteristics i).

(** The variables the pattern loop updates. *)
Record LoopState : Type := mkLoop {
  loop_enhanced : string;
  loop_improvements : list Improvement;
  loop_appliedPatterns : list PatternSummary
}.

(** The body of the [try] block for one pattern. *)
Definition tryPattern (context : PatternContext) (pattern : Pattern) (st : LoopState)
    : M LoopState :=
  result <- call (apply pattern (loop_enhanced st) context) ;;
  if applied result then
    ret (mkLoop (enhancedPrompt result)
           (loop_improvements st ++ [improvement result])
           (loop_appliedPatterns st
              ++ [mkSummary (name pattern) (pattern_description pattern)
                    (impact (improvement result))]))
  else ret st.

(** One iteration: the [try] block and its [catch]. *)
Definition stepPattern (context : PatternContext) (pattern : Pattern) (st : LoopState)
    : M LoopState :=
  tryCatch (tryPattern context pattern st)
    (fun error =>
       _ <- consoleError ("Error applying pattern " ++ id pattern ++ ":") error ;;
       ret st).

(** [for (const pattern of patterns) { ... }] *)
Fixpoint applyPatterns (context : PatternContext) (patterns : list Pattern)
    (st : LoopState) : M LoopState :=
  match patterns with
  | [] => ret st
  | pattern :: rest =>
      st' <- stepPattern context pattern st ;;
      applyPatterns context rest st'
  end.

(** Step 1 of [optimize]: the detected intent, or the override. *)
Definition resolveIntent (o : UniversalOptimizer) (prompt : string)
    (contextOverride : option OptimizationContextOverride) : IntentAnalysis :=
  let intent := analyze (intentDetector o) prompt in
  match overrideIntent contextOverride with
  | Some tag => withPrimaryIntent intent tag
  | None => intent
  end.

(** Step 2 of [optimize]: the patterns selected for the mode. *)
Definition selectFor (o : UniversalOptimizer) (mode : OptimizationMode)
    (intent : IntentAnalysis) (contextOverride : option OptimizationContextOverride)
    : list Pattern :=
  match mode with
  | prd | conversational =>
      selectPatternsForMode (patternLibrary o) mode intent (optField contextOverride phase)
  | fast | deep => selectPatterns (patternLibrary o) intent mode
  end.

Definition contextFor (prompt : string) (mode : OptimizationMode) (intent : IntentAnalysis)
    (contextOverride : option OptimizationContextOverride) : PatternContext :=
  mkContext intent mode prompt
    (optField contextOverride phase)
    (optField contextOverride documentType)
    (optField contextOverride questionId).

Definition optimize (o : UniversalOptimizer) (prompt : string) (mode : OptimizationMode)
    (contextOverride : option OptimizationContextOverride) : M OptimizationResult :=
  startTime <- dateNow ;;
  let intent := resolveIntent o prompt contextOverride in
  let patterns := selectFor o mode intent contextOverride in
  let context := contextFor prompt mode intent contextOverride in
  st <- applyPatterns context patterns (mkLoop prompt [] []) ;;
  let quality := assess (qualityAssessor o) prompt (loop_enhanced st) intent in
  endTime <- dateNow ;;
  let processingTimeMs := (endTime - startTime)%Z in
  ret (mkResult prompt (loop_enhanced st) intent quality
         (loop_improvements st) (loop_appliedPatterns st) mode processingTimeMs).

(** ** validatePRDAnswer *)

(** The values a property read on the [suggestions] object can yield: an
    own property is an array of phrases; a name that the object literal
    does not define is looked up on [Object.prototype], whose properties
    are functions (with their [length]) and, for [__proto__], the
    prototype object itself; anything else is [undefined]. *)
Inductive Looked : Type :=
| Phrases (xs : list string)
| BuiltinFunction (arity : nat)
| PrototypeObject
| Undefined.

Definition suggestionsOwn : list (string * list string) :=
  [ ("q1", ["the problem you're solving"; "why this matters"; "who benefits"]);
    ("q2", ["specific features"; "user actions"; "key functionality"]);
    ("q3", ["technologies"; "frameworks"; "constraints"]);
    ("q4", ["what's explicitly out of scope"; "features to avoid"; "limitations"]);
    ("q5", ["additional context"; "constraints"; "timeline considerations"]) ].

(** The properties every object literal inherits, with the [length] of
    each method. *)
Definition objectPrototype : list (string * Looked) :=
  [ ("constructor", BuiltinFunction 1);
    ("hasOwnProperty", BuiltinFunction 1);
    ("isPrototypeOf", BuiltinFunction 1);
    ("propertyIsEnumerable", BuiltinFunction 1);
    ("toLocaleString", BuiltinFunction 0);
    ("toString", BuiltinFunction 0);
    ("valueOf", BuiltinFunction 0);
    ("__defineGetter__", BuiltinFunction 2);
    ("__defineSetter__", BuiltinFunction 2);
    ("__lookupGetter__", BuiltinFunction 1);
    ("__lookupSetter__", BuiltinFunction 1);
    ("__proto__", PrototypeObject) ].

Fixpoint assoc {A} (key : string) (table : list (string * A)) : option A :=
  match table with
  | [] => None
  | (k, v) :: rest => if String.eqb k key then Some v else assoc key rest
  end.

(** [suggestions[key]] *)
Definition getProperty (key : string) : Looked :=
  match assoc key suggestionsOwn with
  | Some xs => Phrases xs
  | None =>
      match assoc key objectPrototype with
      | Some v => v
      | None => Undefined
      end
  end.

(** [suggestions[questionId] || suggestions.q5]: [undefined] is the only
    falsy value a lookup yields. *)
Definition questionSuggestionsFor (questionId : string) : Looked :=
  match getProperty questionId with
  | Undefined => getProperty "q5"
  | v => v
  end.

(** [v.length]; [None] is [undefined]. *)
Definition lengthOf (v : Looked) : option Z :=
  match v with
  | Phrases xs => Some (Z.of_nat (List.length xs))
  | BuiltinFunction arity => Some (Z.of_nat arity)
  | PrototypeObject | Undefined => None
  end.

(** [Math.min(n, v.length - 1)]; [None] is [NaN]. *)
Definition minIndex (n : Z) (v : Looked) : option Z :=
  match lengthOf v with
  | Some len => Some (Z.min n (len - 1))
  | None => None
  end.

(** [v[i]]; [None] is [undefined]. *)
Definition elementAt (v : Looked) (i : option Z) : option string :=
  match v, i with
  | Phrases xs, Some i => if (0 <=? i)%Z then nth_error xs (Z.to_nat i) else None
  | _, _ => None
  end.

(** [`${detail}`] *)
Definition showDetail (detail : option string) : string :=
  match detail with
  | Some s => s
  | None => "undefined"
  end.

Definition generateFriendlySuggestion (result : OptimizationResult) (questionId : string)
    : string :=
  let questionSuggestions := questionSuggestionsFor questionId in
  let detail := elementAt questionSuggestions (Some 0%Z) in
  let detail :=
    if (completeness (quality result) <? 40)%Z
    then elementAt questionSuggestions (minIndex 1 questionSuggestions)
    else detail in
  let detail :=
    if (specificity (quality result) <? 40)%Z
    then elementAt questionSuggestions (minIndex 2 questionSuggestions)
    else detail in
  "adding " ++ showDetail detail ++ " would help".

Record PRDValidation : Type := mkValidation {
  needsClarification : bool;
  suggestion : option string;
  validation_quality : Z
}.

Definition validatePRDAnswer (o : UniversalOptimizer) (answer questionId : string)
    : M PRDValidation :=
  result <- optimize o answer prd
              (Some (mkOverride (Some "question-validation") None (Some questionId)
                       (Some "prd-generation"))) ;;
  if (overall (quality result) <? 50)%Z then
    ret (mkValidation true (Some (generateFriendlySuggestion result questionId))
           (overall (quality result)))
  else
    ret (mkValidation false None (overall (quality result))).

(** ** analyzeEscalation *)

(** The [escalationConfidence] of an analysis: ['high' | 'medium' | 'low']. *)
Inductive EscalationConfidence : Type := conf_high | conf_medium | conf_low.

(** Modelled from the spec: the [EscalationReason] of [types.ts], with the
    fields [analyzeEscalation] fills in. *)
Record EscalationReason : Type := mkReason {
  factor : string;
  contribution : Z;
  reason_description : string
}.

(** Modelled from the spec: the [EscalationAnalysis] of [types.ts], with
    the fields [analyzeEscalation] returns. *)
Record EscalationAnalysis : Type := mkEscalation {
  shouldEscalate : bool;
  escalationScore : Z;
  escalationConfidence : EscalationConfidence;
  reasons : list EscalationReason;
  deepModeValue : string
}.

(** [Math.round(num / den)] for integers [num] and [den > 0]: the quotient
    rounded to the nearest integer, halves upwards. *)
Definition roundDiv (num den : Z) : Z := ((2 * num + den) / (2 * den))%Z.

(** [`${n}`] for an integer. *)
Definition showZ (n : Z) : string :=
  match n with
  | Z0 => "0"
  | Zpos p => Js.showNat (Pos.to_nat p)
  | Zneg p => "-" ++ Js.showNat (Pos.to_nat p)
  end.

(** The accumulators [totalScore] and [reasons]. *)
Record Tally : Type := mkTally {
  totalScore : Z;
  tally_reasons : list EscalationReason
}.

(** [if (trigger) { totalScore += contribution; reasons.push({...}) }] *)
Definition addFactor (trigger : bool) (name : string) (contribution : Z)
    (description : string) (t : Tally) : Tally :=
  if trigger then
    mkTally (totalScore t + contribution)
      (tally_reasons t ++ [mkReason name contribution description])
  else t.

Definition hasFactor (reasons : list EscalationReason) (name : string) : bool :=
  existsb (fun r => String.eqb (factor r) name) reasons.

Definition generateDeepModeValue (result : OptimizationResult)
    (reasons : list EscalationReason) : string :=
  let push := ConversationSummarizer.pushIf in
  let hasLowQuality := hasFactor reasons "low-quality" in
  let hasLowCompleteness := hasFactor reasons "missing-completeness" in
  let hasHighAmbiguity := hasFactor reasons "high-ambiguity" in
  let hasLowSpecificity := hasFactor reasons "low-specificity" in
  let intent := primaryIntent (result_intent result) in
  let isPlanningIntent :=
    String.eqb intent "planning" || String.eqb intent "prd-generation" in
  let benefits := [] in
  let benefits := push isPlanningIntent "structured implementation plan" benefits in
  let benefits := push (hasLowQuality || hasLowCompleteness)
                    "comprehensive requirements extraction" benefits in
  let benefits := push hasHighAmbiguity "alternative approaches and trade-offs" benefits in
  let benefits := push hasLowSpecificity "concrete examples and specifications" benefits in
  let benefits := push (String.eqb intent "migration")
                    "migration checklist and risk assessment" benefits in
  let benefits := push (String.eqb intent "security-review")
                    "security checklist and threat analysis" benefits in
  let benefits := push true "validation checklist" benefits in
  if (List.length benefits =? 0)%nat then
    "Deep mode provides comprehensive analysis with alternative approaches."
  else "Deep mode would provide: " ++ Js.join ", " benefits ++ ".".

(** The eight factors, accumulated in the order of the source. *)
Definition tally (result : OptimizationResult) (originalQuality : QualityScore) : Tally :=
  let i := result_intent result in
  let t := mkTally 0 [] in
  let t := addFactor (Js.arrayIncludes ["planning"; "prd-generation"] (primaryIntent i))
             "intent-type" 30
             (primaryIntent i ++ " tasks benefit from comprehensive analysis") t in
  let t := addFactor (confidence i <? 60)%Z
             "low-confidence" (roundDiv (60 - confidence i) 3)
             ("Intent detection confidence is low (" ++ showZ (confidence i) ++ "%)") t in
  let t := addFactor (overall originalQuality <? 65)%Z
             "low-quality" (roundDiv (10 * (65 - overall originalQuality)) 26)
             ("Original prompt quality is below threshold ("
              ++ showZ (overall originalQuality) ++ "/100)") t in
  let t := addFactor (completeness originalQuality <? 60)%Z
             "missing-completeness" 15
             ("Missing required details (completeness: "
              ++ showZ (completeness originalQuality) ++ "%)") t in
  let t := addFactor (specificity originalQuality <? 60)%Z
             "low-specificity" 15
             ("Prompt lacks concrete details (specificity: "
              ++ showZ (specificity originalQuality) ++ "%)") t in
  let t := addFactor (isOpenEnded (characteristics i) && needsStructure (characteristics i))
             "high-ambiguity" 20 "Open-ended request without clear structure" t in
  let t := addFactor ((Z.of_nat (String.length (original result)) <? 50)%Z
                      && (completeness originalQuality <? 70)%Z)
             "length-mismatch" 15 "Very short prompt with incomplete requirements" t in
  let t := addFactor (Js.arrayIncludes ["migration"; "security-review"] (primaryIntent i))
             "complex-intent" 20
             (primaryIntent i ++ " requires thorough analysis") t in
  t.

Definition analyzeEscalation (o : UniversalOptimizer) (result : OptimizationResult)
    : EscalationAnalysis :=
  let originalQuality :=
    assessQuality (qualityAssessor o) (original result)
      (primaryIntent (result_intent result)) in
  let t := tally result originalQuality in
  let totalScore := totalScore t in
  let reasons := tally_reasons t in
  let escalationConfidence :=
    if (75 <=? totalScore)%Z then conf_high
    else if (60 <=? totalScore)%Z then conf_medium
    else conf_low in
  let deepModeValue := generateDeepModeValue result reasons in
  mkEscalation (45 <=? totalScore)%Z (Z.min totalScore 100)
    escalationConfidence reasons deepModeValue.

Definition shouldRecommendDeepMode (o : UniversalOptimizer) (result : OptimizationResult)
    : bool :=
  shouldEscalate (analyzeEscalation o result).


(** ** The pattern loop, read without the world *)

(** What a computation completes with, the world after it set aside. *)
Definition valueOf {A} (m : M A) (w : World) : completion A := fst (m w).

(** The world after some lines were written to the console. *)
Definition logged (w : World) (lines : list string) : World :=
  mkWorld (clock w) (reads w) (console w ++ lines).

(** The loop variables after one iteration. *)
Definition stateAfter (context : PatternContext) (pattern : Pattern) (st : LoopState)
    : LoopState :=
  match apply pattern (loop_enhanced st) context with
  | Normal result =>
      if applied result then
        mkLoop (enhancedPrompt result)
          (loop_improvements st ++ [improvement result])
          (loop_appliedPatterns st
             ++ [mkSummary (name pattern) (pattern_description pattern)
                   (impact (improvement result))])
      else st
  | Throw _ => st
  end.

(** The console line one iteration writes, if any. *)
Definition lineLogged (context : PatternContext) (pattern : Pattern) (st : LoopState)
    : list string :=
  match apply pattern (loop_enhanced st) context with
  | Normal _ => []
  | Throw error => [("Error applying pattern " ++ id pattern ++ ":") ++ " " ++ error]
  end.

Fixpoint statesAfter (context : PatternContext) (patterns : list Pattern) (st : LoopState)
    : LoopState :=
  match patterns with
  | [] => st
  | pattern :: rest => statesAfter context rest (stateAfter context pattern st)
  end.

Fixpoint linesLogged (context : PatternContext) (patterns : list Pattern) (st : LoopState)
    : list string :=
  match patterns with
  | [] => []
  | pattern :: rest =>
      lineLogged context pattern st
      ++ linesLogged context rest (stateAfter context pattern st)
  end.

(** The override [validatePRDAnswer] passes to [optimize]. *)
Definition prdOverride (questionId : string) : OptimizationContextOverride :=
  mkOverride (Some "question-validation") None (Some questionId) (Some "prd-generation").

(* ================================================================== *)
(** * The optimizer with collaborators that may keep state              *)
(* ================================================================== *)

(** Nothing in [optimize] keeps a collaborator or a pattern from holding
    state: fields of the instance, module variables, caches, counters, the
    [lastIndex] of an expression, a random source.  Here every method of a
    collaborator and every [apply] of a pattern reads and may update a heap
    that stands for all it can reach besides its arguments, and may throw;
    [optimize] itself is the same code. *)
Module Stateful.

Section WithHeap.

Variable Heap : Type.

(** A method call: from the state before it to its completion and the
    state after it. *)
Definition Op (A : Type) : Type := Heap -> completion A * Heap.

Record Pattern : Type := mkPattern {
  id : string;
  name : string;
  pattern_description : string;
  applicableIntents : list PromptIntent;
  mode : PatternMode;
  priority : Z;
  apply : string -> PatternContext -> Op PatternResult
}.

Record IntentDetector : Type := mkDetector {
  analyze : string -> Op IntentAnalysis
}.

Record PatternLibrary : Type := mkLibrary {
  selectPatterns : IntentAnalysis -> OptimizationMode -> Op (list Pattern);
  selectPatternsForMode :
    OptimizationMode -> IntentAnalysis -> option string -> Op (list Pattern)
}.

Record QualityAssessor : Type := mkAssessor {
  assess : string -> string -> IntentAnalysis -> Op QualityScore
}.

Record UniversalOptimizer : Type := mkOptimizer {
  intentDetector : IntentDetector;
  patternLibrary : PatternLibrary;
  qualityAssessor : QualityAssessor
}.

(** The state of a run: the collaborators' heap, and the clock and the
    console of the optimizer's own effects. *)
Record State : Type := mkState {
  heap : Heap;
  world : World
}.

(** A computation of the optimizer: from a state to a completion and the
    state after it. *)
Definition Run (A : Type) : Type := State -> completion A * State.

Definition ret {A} (a : A) : Run A := fun s => (Normal a, s).

Definition bind {A B} (m : Run A) (f : A -> Run B) : Run B :=
  fun s =>
    match m s with
    | (Normal a, s') => f a s'
    | (Throw e, s') => (Throw e, s')
    end.

(** A call of a collaborator's method. *)
Definition call {A} (op : Op A) : Run A :=
  fun s => let (c, h) := op (heap s) in (c, mkState h (world s)).

(** An effect of the optimizer itself: [Date.now()], [console.error]. *)
Definition effect {A} (m : M A) : Run A :=
  fun s => let (c, w) := m (world s) in (c, mkState (heap s) w).

(** [try { body } catch (error) { handler(error) }]; what the body did to
    the state before it threw stays done. *)
Definition tryCatch {A} (body : Run A) (handler : string -> Run A) : Run A :=
  fun s =>
    match body s with
    | (Normal a, s') => (Normal a, s')
    | (Throw e, s') => handler e s'
    end.

(** The body of the [try] block for one pattern. *)
Definition tryPattern (context : PatternContext) (pattern : Pattern) (st : LoopState)
    : Run LoopState :=
  bind (call (apply pattern (loop_enhanced st) context)) (fun result =>
  if applied result then
    ret (mkLoop (enhancedPrompt result)
           (loop_improvements st ++ [improvement result])
           (loop_appliedPatterns st
              ++ [mkSummary (name pattern) (pattern_description pattern)
                    (impact (improvement result))]))
  else ret st).

(** One iteration: the [try] block and its [catch]. *)
Definition stepPattern (context : PatternContext) (pattern : Pattern) (st : LoopState)
    : Run LoopState :=
  tryCatch (tryPattern context pattern st)
    (fun error =>
       bind (effect (consoleError ("Error applying pattern " ++ id pattern ++ ":") error))
         (fun _ => ret st)).

(** [for (const pattern of patterns) { ... }] *)
Fixpoint applyPatterns (context : PatternContext) (patterns : list Pattern)
    (st : LoopState) : Run LoopState :=
  match patterns with
  | [] => ret st
  | pattern :: rest =>
      bind (stepPattern context pattern st) (fun st' => applyPatterns context rest st')
  end.

(** [optimize], statement by statement. *)
Definition optimize (o : UniversalOptimizer) (prompt : string) (mode : OptimizationMode)
    (contextOverride : option OptimizationContextOverride) : Run OptimizationResult :=
  bind (effect dateNow) (fun startTime =>
  bind (call (analyze (intentDetector o) prompt)) (fun detected =>
  let intent :=
    match overrideIntent contextOverride with
    | Some tag => withPrimaryIntent detected tag
    | None => detected
    end in
  bind (call
          match mode with
          | prd | conversational =>
              selectPatternsForMode (patternLibrary o) mode intent
                (optField contextOverride phase)
          | fast | deep => selectPatterns (patternLibrary o) intent mode
          end) (fun patterns =>
  let context := contextFor prompt mode intent contextOverride in
  bind (applyPatterns context patterns (mkLoop prompt [] [])) (fun st =>
  bind (call (assess (qualityAssessor o) prompt (loop_enhanced st) intent)) (fun quality =>
  bind (effect dateNow) (fun endTime =>
  let processingTimeMs := (endTime - startTime)%Z in
  ret (mkResult prompt (loop_enhanced st) intent quality
         (loop_improvements st) (loop_appliedPatterns st) mode processingTimeMs))))))).

(** ** The contract of the collaborators *)

(** A method is stateless when what it completes with does not depend on
    the state it is called in. *)
Definition Stateless {A} (op : Op A) : Prop :=
  forall h h', fst (op h) = fst (op h').

(** "Patterns hold no mutable state between invocations - pure functions
    of (text, context)." *)
Definition StatelessPattern (pattern : Pattern) : Prop :=
  forall text context, Stateless (apply pattern text context).

(** A selection is stateless, and so are the patterns it returns. *)
Definition StatelessSelection (op : Op (list Pattern)) : Prop :=
  Stateless op
  /\ forall h patterns, fst (op h) = Normal patterns -> Forall StatelessPattern patterns.

(** "The optimizer instance holds only references to stateless
    collaborators." *)
Definition StatelessCollaborators (o : UniversalOptimizer) : Prop :=
  (forall prompt, Stateless (analyze (intentDetector o) prompt))
  /\ (forall intent mode, StatelessSelection (selectPatterns (patternLibrary o) intent mode))
  /\ (forall mode intent phase,
        StatelessSelection (selectPatternsForMode (patternLibrary o) mode intent phase))
  /\ (forall original enhanced intent,
        Stateless (assess (qualityAssessor o) original enhanced intent)).

(** Two completions of [optimize] agree on everything but
    [processingTimeMs]. *)
Definition sameOutcome (c1 c2 : completion OptimizationResult) : Prop :=
  match c1, c2 with
  | Normal r1, Normal r2 =>
      enhanced r1 = enhanced r2
      /\ quality r1 = quality r2
      /\ result_intent r1 = result_intent r2
      /\ original r1 = original r2
      /\ result_mode r1 = result_mode r2
      /\ improvements r1 = improvements r2
      /\ appliedPatterns r1 = appliedPatterns r2
  | Throw e1, Throw e2 => e1 = e2
  | _, _ => False
  end.

End WithHeap.

End Stateful.

(* ================================================================== *)
(** * ConversationQualityTracker                                        *)
(* ================================================================== *)

(** [src/core/conversation-quality-tracker.ts].  The tracker is an object
    with four private fields; every method is a function from the state
    before to its answer and the state after.  The [Map] of topics is a
    list of entries in insertion order, which is the order [values()]
    iterates in. *)

Module ConversationQualityTracker.

Record TrackedTopic : Type := mkTopic {
  name : string;
  confidence : Z;
  firstMentioned : Z
}.

Record ConversationQuality : Type := mkConversationQuality {
  quality_topics : list TrackedTopic;
  overallCompleteness : Z;
  (** the exact value of the quotient the source computes in double
      precision *)
  ambiguityLevel : QArith_base.Q;
  quality_messageCount : Z
}.

Record NudgeResult : Type := mkNudge {
  nudge : bool;
  nudge_message : option string;
  gap : option string
}.

(** The private fields of a tracker. *)
Record Tracker : Type := mkTracker {
  topics : list (string * TrackedTopic);
  messageCount : Z;
  hasNudged : bool;
  lastCheckpointAt : Z
}.

(** A new tracker, field initialisers applied. *)
Definition initial : Tracker := mkTracker [] 0 false 0.

Definition TOPIC_KEYWORDS : list (string * list string) :=
  [ ("features",
     ["feature"; "functionality"; "should"; "must"; "need"; "want"; "capability"]);
    ("tech stack",
     ["react"; "node"; "typescript"; "python"; "database"; "api"; "backend"; "frontend"]);
    ("constraints",
     ["constraint"; "limitation"; "budget"; "timeline"; "deadline"; "must not"; "cannot"]);
    ("users", ["user"; "customer"; "audience"; "persona"; "who will"]);
    ("goals", ["goal"; "objective"; "purpose"; "why"; "problem"; "solve"]);
    ("scope", ["scope"; "out of scope"; "not include"; "exclude"; "later"; "mvp"]);
    ("success", ["success"; "metric"; "kpi"; "measure"; "criteria"]);
    ("design", ["design"; "ui"; "ux"; "layout"; "interface"; "look"]) ].

Definition CRITICAL_TOPICS : list string := ["features"; "goals"].

(** [map.get(key)] *)
Fixpoint mapGet (key : string) (m : list (string * TrackedTopic)) : option TrackedTopic :=
  match m with
  | [] => None
  | (k, v) :: rest => if String.eqb k key then Some v else mapGet key rest
  end.

(** [map.set(key, value)]: an existing key keeps its place, a new one goes
    last. *)
Fixpoint mapSet (key : string) (value : TrackedTopic) (m : list (string * TrackedTopic))
    : list (string * TrackedTopic) :=
  match m with
  | [] => [(key, value)]
  | (k, v) :: rest =>
      if String.eqb k key then (k, value) :: rest else (k, v) :: mapSet key value rest
  end.

(** [Array.from(map.values())] *)
Definition mapValues (m : list (string * TrackedTopic)) : list TrackedTopic := map snd m.

(** [a || b] on numbers: [b] when [a] is 0. *)
Definition orNumber (a b : Z) : Z := if (a =? 0)%Z then b else a.

(** The body of the loop of [analyzeTopics] for one entry. *)
Definition analyzeEntry (lowerContent : string) (st : Tracker)
    (entry : string * list string) : Tracker :=
  let '(topic, keywords) := entry in
  let matchedKeywords := filter (fun kw => Js.includes lowerContent kw) keywords in
  if (0 <? Z.of_nat (List.length matchedKeywords))%Z then
    let existing := mapGet topic (topics st) in
    let existingConfidence :=
      match existing with
      | Some t => orNumber (confidence t) 0
      | None => 0%Z
      end in
    let newConfidence :=
      Z.min 100 (Z.of_nat (List.length matchedKeywords) * 25 + existingConfidence) in
    let first :=
      match existing with
      | Some t => orNumber (firstMentioned t) (messageCount st)
      | None => messageCount st
      end in
    mkTracker (mapSet topic (mkTopic topic newConfidence first) (topics st))
      (messageCount st) (hasNudged st) (lastCheckpointAt st)
  else st.

Definition analyzeTopics (content : string) (st : Tracker) : Tracker :=
  let lowerContent := Js.toLowerCase content in
  fold_left (analyzeEntry lowerContent) TOPIC_KEYWORDS st.

Definition trackMessage (content : string) (st : Tracker) : Tracker :=
  let st := mkTracker (topics st) (messageCount st + 1) (hasNudged st)
              (lastCheckpointAt st) in
  analyzeTopics content st.

(** One step of a stable sort by decreasing confidence: [x] goes after the
    elements that compare before or equal to it. *)
Fixpoint insertByConfidence (x : TrackedTopic) (sorted : list TrackedTopic)
    : list TrackedTopic :=
  match sorted with
  | [] => [x]
  | y :: rest =>
      if (confidence x <=? confidence y)%Z then y :: insertByConfidence x rest
      else x :: y :: rest
  end.

(** [xs.sort((a, b) => b.confidence - a.confidence)]; the sort of the
    language is stable. *)
Definition sortByConfidence (xs : list TrackedTopic) : list TrackedTopic :=
  fold_left (fun sorted x => insertByConfidence x sorted) xs [].

Definition getCoveredTopics (st : Tracker) : list string :=
  map name
    (sortByConfidence (filter (fun t => (30 <=? confidence t)%Z) (mapValues (topics st)))).

Definition getPositiveCheckpoint (st : Tracker) : option string * Tracker :=
  if (messageCount st <? 5)%Z || (messageCount st - lastCheckpointAt st <? 5)%Z then
    (None, st)
  else
    let st := mkTracker (topics st) (messageCount st) (hasNudged st) (messageCount st) in
    let coveredTopics := getCoveredTopics st in
    if (List.length coveredTopics =? 0)%nat then (None, st)
    else
      let topicList := Js.join ", " (slice0 3 coveredTopics) in
      (Some ("📝 Shaping up nicely! Covered: " ++ topicList
             ++ ". Continue or /summarize anytime."), st).

Definition sumConfidence (ts : list TrackedTopic) : Z :=
  fold_left (fun sum t => (sum + confidence t)%Z) ts 0%Z.

Definition calculateQuality (st : Tracker) : ConversationQuality :=
  let ts := mapValues (topics st) in
  let totalPossibleTopics := Z.of_nat (List.length TOPIC_KEYWORDS) in
  let coveredCount :=
    Z.of_nat (List.length (filter (fun t => (30 <=? confidence t)%Z) ts)) in
  let overallCompleteness :=
    Z.min 100 (roundDiv (coveredCount * 100) totalPossibleTopics) in
  let avgConfidence :=
    match ts with
    | [] => QArith_base.inject_Z 0
    | _ :: _ =>
        QArith_base.Qdiv (QArith_base.inject_Z (sumConfidence ts))
          (QArith_base.inject_Z (Z.of_nat (List.length ts)))
    end in
  let ambiguity :=
    Qminmax.Qmax (QArith_base.inject_Z 0)
      (QArith_base.Qminus (QArith_base.inject_Z 100) avgConfidence) in
  mkConversationQuality ts overallCompleteness ambiguity (messageCount st).

(** The first critical topic that is not tracked or whose confidence is
    below 20. *)
Fixpoint firstGap (critical : list string) (m : list (string * TrackedTopic))
    : option string :=
  match critical with
  | [] => None
  | topic :: rest =>
      match mapGet topic m with
      | None => Some topic
      | Some tracked =>
          if (confidence tracked <? 20)%Z then Some topic else firstGap rest m
      end
  end.

Definition findCriticalGap (st : Tracker) : option string :=
  firstGap CRITICAL_TOPICS (topics st).

Definition shouldNudge (st : Tracker) : NudgeResult * Tracker :=
  if hasNudged st then (mkNudge false None None, st)
  else if (messageCount st <? 3)%Z then (mkNudge false None None, st)
  else
    let quality := calculateQuality st in
    if (40 <=? overallCompleteness quality)%Z then (mkNudge false None None, st)
    else
      match findCriticalGap st with
      | None => (mkNudge false None None, st)
      | Some criticalGap =>
          let st := mkTracker (topics st) (messageCount st) true (lastCheckpointAt st) in
          (mkNudge true
             (Some ("💡 One thought: a note about " ++ criticalGap
                    ++ " would help. No worries—Clavix will fill gaps when you summarize."))
             (Some criticalGap),
           st)
      end.

Definition getEndMessage (st : Tracker) : string :=
  let coveredTopics := getCoveredTopics st in
  if (List.length coveredTopics =? 0)%nat then
    "✨ Session recorded! Clavix Intelligence will help structure your requirements."
  else if (3 <=? List.length coveredTopics)%nat then
    "✨ Great session! You covered several key areas. Clavix Intelligence will enhance your summary."
  else
    "✨ Great session! Clavix Intelligence will enhance your summary with any missing pieces.".

Definition reset (st : Tracker) : Tracker := mkTracker [] 0 false 0.

Definition getSummary (st : Tracker) : string :=
  let quality := calculateQuality st in
  let ts := getCoveredTopics st in
  "Messages: " ++ showZ (messageCount st) ++ ", Topics: [" ++ Js.join ", " ts
  ++ "], Completeness: " ++ showZ (overallCompleteness quality) ++ "%".

(** The calls a session makes on a tracker, and what each answers. *)
Inductive Call : Type :=
| TrackMessage (content : string)
| GetPositiveCheckpoint
| ShouldNudge
| GetEndMessage
| CalculateQuality
| GetSummary
| Reset.

Inductive Answer : Type :=
| Void
| Checkpoint (message : option string)
| Nudge (result : NudgeResult)
| Text (text : string)
| Quality (quality : ConversationQuality).

Definition step (st : Tracker) (c : Call) : Answer * Tracker :=
  match c with
  | TrackMessage content => (Void, trackMessage content st)
  | GetPositiveCheckpoint =>
      let '(message, st') := getPositiveCheckpoint st in (Checkpoint message, st')
  | ShouldNudge => let '(result, st') := shouldNudge st in (Nudge result, st')
  | GetEndMessage => (Text (getEndMessage st), st)
  | CalculateQuality => (Quality (calculateQuality st), st)
  | GetSummary => (Text (getSummary st), st)
  | Reset => (Void, reset st)
  end.

(** A session: the answers, in order, and the state at the end. *)
Fixpoint session (st : Tracker) (calls : list Call) : list Answer * Tracker :=
  match calls with
  | [] => ([], st)
  | c :: rest =>
      let '(a, st') := step st c in
      let '(answers, final) := session st' rest in
      (a :: answers, final)
  end.

Definition isReset (c : Call) : bool :=
  match c with Reset => true | _ => false end.

Definition isTrueNudge (a : Answer) : bool :=
  match a with Nudge result => nudge result | _ => false end.

(** What holds of one entry of the map in a state with [count] messages. *)
Definition EntryOk (count : Z) (entry : string * TrackedTopic) : Prop :=
  In (fst entry) (map fst TOPIC_KEYWORDS)
  /\ name (snd entry) = fst entry
  /\ (25 <= confidence (snd entry) <= 100)%Z
  /\ (1 <= firstMentioned (snd entry) <= count)%Z.

(** The states a tracker can be in. *)
Definition WellFormed (st : Tracker) : Prop :=
  (0 <= lastCheckpointAt st <= messageCount st)%Z
  /\ NoDup (map fst (topics st))
  /\ Forall (EntryOk (messageCount st)) (topics st).

(** [messages.forEach(m => tracker.trackMessage(m))] *)
Definition trackAll (contents : list string) (st : Tracker) : Tracker :=
  fold_left (fun st content => trackMessage content st) contents st.

(** The session of the examples: three messages, a nudge, two more
    messages, a checkpoint and a second nudge attempt. *)
Definition sampleCalls : list Call :=
  [TrackMessage "I want a feature"; TrackMessage "we use React and node";
   TrackMessage "hello"; ShouldNudge; TrackMessage "x";
   TrackMessage "the goal is to solve a problem"; GetPositiveCheckpoint; ShouldNudge].

End ConversationQualityTracker.

(* ================================================================== *)
(** * Recommendations of the optimizer                                  *)
(* ================================================================== *)

(** The quality-based message shared by [getRecommendation] and, with its
    level, by [getDetailedRecommendation]. *)
Inductive QualityLevel : Type := excellent | good | decent | needs_work.

(** [getRecommendation]; [None] is [null]. *)
Definition getRecommendation (o : UniversalOptimizer) (result : OptimizationResult)
    : option string :=
  let escalated :=
    match result_mode result with
    | fast =>
        let escalation := analyzeEscalation o result in
        if shouldEscalate escalation
        then Some (deepModeValue escalation ++ " Run: /clavix:deep")
        else None
    | _ => None
    end in
  match escalated with
  | Some message => Some message
  | None =>
      if (90 <=? overall (quality result))%Z then
        Some "Excellent! Your prompt is AI-ready."
      else if (80 <=? overall (quality result))%Z then
        Some "Good quality. Ready to use!"
      else if (70 <=? overall (quality result))%Z then
        Some "Decent quality. Consider the improvements listed above."
      else None
  end.

Record DetailedRecommendation : Type := mkDetailed {
  detailed_message : string;
  detailed_escalation : option EscalationAnalysis;
  qualityLevel : QualityLevel
}.

Definition getDetailedRecommendation (o : UniversalOptimizer) (result : OptimizationResult)
    : DetailedRecommendation :=
  let escalation :=
    match result_mode result with
    | fast => Some (analyzeEscalation o result)
    | _ => None
    end in
  let '(level, message) :=
    if (90 <=? overall (quality result))%Z then
      (excellent, "Excellent! Your prompt is AI-ready.")
    else if (80 <=? overall (quality result))%Z then
      (good, "Good quality. Ready to use!")
    else if (70 <=? overall (quality result))%Z then
      (decent, "Decent quality. Consider the improvements listed above.")
    else (needs_work, "This prompt needs improvement for best results.") in
  let message :=
    match escalation with
    | Some e => if shouldEscalate e then deepModeValue e ++ " Run: /clavix:deep" else message
    | None => message
    end in
  mkDetailed message escalation level.

(* ================================================================== *)
(** * String replacement                                                *)
(* ================================================================== *)

Module JsReplace.

(** [s.substring(n)] *)
Fixpoint drop (n : nat) (s : string) : string :=
  match n, s with
  | O, _ => s
  | S n', String _ s' => drop n' s'
  | S _, EmptyString => EmptyString
  end.

(** The text before and after the first occurrence of [pattern] in [s]. *)
Fixpoint splitAtFirst (pattern s : string) : option (string * string) :=
  if Js.startsWith s pattern then Some (EmptyString, drop (String.length pattern) s)
  else
    match s with
    | EmptyString => None
    | String c s' =>
        match splitAtFirst pattern s' with
        | Some (before, after) => Some (String c before, after)
        | None => None
        end
    end.

(** The replacement text of [replace] with a string pattern: [$$] is a
    dollar, [$&] the matched text, [$`] the text before the match, [$']
    the text after it; a string pattern has no captures, so any other
    dollar stands for itself. *)
Fixpoint substitution (matched before after replacement : string) : string :=
  match replacement with
  | EmptyString => EmptyString
  | String c rest =>
      if Char.eqb c "$" then
        match rest with
        | String d rest' =>
            if Char.eqb d "$" then
              String "$" (substitution matched before after rest')
            else if Char.eqb d "&" then
              matched ++ substitution matched before after rest'
            else if Char.eqb d "`" then
              before ++ substitution matched before after rest'
            else if Char.eqb d "'" then
              after ++ substitution matched before after rest'
            else String c (substitution matched before after rest)
        | EmptyString => String c EmptyString
        end
      else String c (substitution matched before after rest)
  end.

(** [s.replace(pattern, replacement)] for a string pattern: the first
    occurrence only. *)
Definition replace (s pattern replacement : string) : string :=
  match splitAtFirst pattern s with
  | Some (before, after) =>
      before ++ substitution pattern before after replacement ++ after
  | None => s
  end.

(** [s.replace(/[class]/g, m => wrap(m))] for a one-character class:
    every character of the class is replaced, the others are kept. *)
Fixpoint replaceClass (class : char -> bool) (wrap : string -> string) (s : string)
    : string :=
  match s with
  | EmptyString => EmptyString
  | String c s' =>
      if class c then wrap (String c EmptyString) ++ replaceClass class wrap s'
      else String c (replaceClass class wrap s')
  end.

End JsReplace.

(* ================================================================== *)
(** * String utilities and adapters                                     *)
(* ================================================================== *)

(** The characters of the class [[.*+?^${}()|[\]\\]]. *)
Definition regexSpecial : char -> bool := RegExp.oneOf ".*+?^${}()|[]\".

(** [escapeRegex]: [str.replace(/[.*+?^${}()|[\]\\]/g, '\\$&')]; the
    replacement is a backslash followed by the matched character. *)
Definition escapeRegex (str : string) : string :=
  JsReplace.replaceClass regexSpecial (fun matched => "\" ++ matched) str.

Module VibeAdapter.

Definition name : string := "vibe".
Definition displayName : string := "Vibe CLI".
Definition directory : string := ".vibe/skills".
Definition fileExtension : string := ".md".

Definition getCommandPath : string := directory.

Definition getTargetFilename (commandName : string) : string :=
  "clavix-" ++ commandName ++ "-skill" ++ fileExtension.

(** [clavix-.+-skill\.md$], the part of the expression after its [^]. *)
Definition generatedCommand : RegExp.re :=
  RegExp.seqs [RegExp.word "clavix-"; RegExp.plus RegExp.dot; RegExp.word "-skill.md";
               RegExp.End].

(** [/^clavix-.+-skill\.md$/.test(filename)].  Without the [m] flag [^]
    holds at the start of the input only, so the search succeeds exactly
    when the rest of the expression matches from the first character. *)
Definition isClavixGeneratedCommand (filename : string) : bool :=
  match RegExp.matchHere false generatedCommand filename with
  | Some _ => true
  | None => false
  end.

End VibeAdapter.

Module UniversalAdapter.

(** The fields of [AdapterConfig] the adapter's naming reads. *)
Record AdapterConfig : Type := mkConfig {
  name : string;
  displayName : string;
  directory : string;
  fileExtension : string;
  filenamePattern : string
}.

Definition getTargetFilename (config : AdapterConfig) (commandName : string) : string :=
  let pattern := filenamePattern config in
  let filename := JsReplace.replace pattern "{name}" commandName in
  filename ++ fileExtension config.

(** The values of the [FilenamePattern] type. *)
Definition filenamePatterns : list string := ["{name}"; "clavix-{name}"; "clavix/{name}"].

End UniversalAdapter.

(* ================================================================== *)
(** * Shapes of texts                                                   *)
(* ================================================================== *)

(** The text starts with a white-space character. *)
Definition headIsSpace (s : string) : bool :=
  match s with
  | String c _ => Js.isSpace c
  | EmptyString => false
  end.

(** Every white-space character of the text is a space that no
    white-space character follows. *)
Fixpoint singleSpaced (s : string) : bool :=
  match s with
  | EmptyString => true
  | String c rest =>
      (if Js.isSpace c then Char.eqb c " " && negb (headIsSpace rest) else true)
      && singleSpaced rest
  end.

(** An optional value is present. *)
Definition isSome {A} (x : option A) : bool :=
  match x with Some _ => true | None => false end.

(** The topics of [topicIndicators] whose names begin with one of the
    alternatives of [topicHeaders]. *)
Definition headedTopics : list string :=
  ["User Interface"; "Backend/API"; "Database"; "Authentication"; "Performance";
   "Testing"; "Deployment"].

(** A configured adapter, with the values the comments of [AdapterConfig]
    give as examples. *)
Definition cursorConfig : UniversalAdapter.AdapterConfig :=
  UniversalAdapter.mkConfig "cursor" "Cursor" ".cursor/commands" ".md" "clavix-{name}".

(** A prompt that touches the interface, the backend and authentication. *)
Definition loginPagePrompt : string := "The login page calls the API".

(* ================================================================== *)
(** * The specification's tables                                        *)
(* ================================================================== *)

(** One row of the escalation factor table: the factor, whether its
    trigger holds, and what it contributes when it does. *)
Record FactorRow : Type := mkRow {
  row_factor : string;
  row_trigger : bool;
  row_contribution : Z
}.

(** The factor table of the specification, read for an intent analysis, the
    quality of the original prompt and the original prompt's length. *)
Definition factorTable (i : IntentAnalysis) (q : QualityScore) (originalLength : Z)
    : list FactorRow :=
  [ mkRow "intent-type"
      (String.eqb (primaryIntent i) "planning"
       || String.eqb (primaryIntent i) "prd-generation") 30;
    mkRow "low-confidence" (confidence i <? 60)%Z (roundDiv (60 - confidence i) 3);
    mkRow "low-quality" (overall q <? 65)%Z (roundDiv (10 * (65 - overall q)) 26);
    mkRow "missing-completeness" (completeness q <? 60)%Z 15;
    mkRow "low-specificity" (specificity q <? 60)%Z 15;
    mkRow "high-ambiguity"
      (isOpenEnded (characteristics i) && needsStructure (characteristics i)) 20;
    mkRow "length-mismatch" ((originalLength <? 50)%Z && (completeness q <? 70)%Z) 15;
    mkRow "complex-intent"
      (String.eqb (primaryIntent i) "migration"
       || String.eqb (primaryIntent i) "security-review") 20 ].

Definition fired (table : list FactorRow) : list FactorRow := filter row_trigger table.

(** The sum of the fired contributions, without any cap. *)
Definition uncappedSum (table : list FactorRow) : Z :=
  fold_right (fun r acc => (row_contribution r + acc)%Z) 0%Z (fired table).

Definition clamp (lo hi x : Z) : Z := Z.max lo (Z.min x hi).

(** The suggestion the specification describes for a phrase list: the
    completeness-gap phrase (the second) when completeness is below 40,
    else the specificity-gap phrase (the third) when specificity is below
    40, else the first. *)
Definition specSuggestion (phrases : list string) (q : QualityScore) : option string :=
  if (completeness q <? 40)%Z then nth_error phrases 1
  else if (specificity q <? 40)%Z then nth_error phrases 2
  else nth_error phrases 0.

(** The phrase the code picks from a phrase list: the third when
    specificity is below 40, else the second when completeness is below
    40, else the first. *)
Definition pickedPhrase (phrases : list string) (q : QualityScore) : option string :=
  if (specificity q <? 40)%Z then nth_error phrases 2
  else if (completeness q <? 40)%Z then nth_error phrases 1
  else nth_error phrases 0.

Definition q5Phrases : list string :=
  ["additional context"; "constraints"; "timeline considerations"].

(** Modelled from the spec: [types.ts], which declares the [PromptIntent]
    union, is not among the sources; these are the tags the specification's
    data model names. *)
Definition supportedIntents : list string :=
  ["code-generation"; "planning"; "refinement"; "debugging"; "documentation";
   "prd-generation"; "summarization"; "migration"; "security-review"].

Definition isSupportedIntent (tag : string) : bool := Js.arrayIncludes supportedIntents tag.


(** Modelled from the spec: an extracted item is "cleaned (trimmed,
    trailing punctuation removed, whitespace collapsed, truncated to 200
    characters)".  The cleaning is written on the list of code units, each
    step by what it means and not by the way the code computes it; the
    punctuation marks are those of the code's expression [[.!?,;:]]. *)
Module SpecClean.









End SpecClean.






(* ================================================================== *)
(** * Sample collaborators and inputs                                   *)
(* ================================================================== *)

Definition sampleContext : PatternContext :=
  mkContext (mkIntent "planning" 50 (mkCharacteristics false false)) deep
    EmptyString None None None.

(** A detector that answers [code-generation] with confidence 50. *)
Definition sampleDetector : IntentDetector :=
  mkDetector (fun _ => mkIntent "code-generation" 50 (mkCharacteristics false false)).

(** A library that selects the same patterns whatever it is asked. *)
Definition fixedLibrary (ps : list Pattern) : PatternLibrary :=
  mkLibrary (fun _ _ => ps) (fun _ _ _ => ps).

(** An assessor that gives every text the same scores. *)
Definition constAssessor (q : QualityScore) : QualityAssessor :=
  mkAssessor (fun _ _ _ => q) (fun _ _ => q).

Definition sampleOptimizer (ps : list Pattern) (q : QualityScore) : UniversalOptimizer :=
  mkOptimizer sampleDetector (fixedLibrary ps) (constAssessor q).

(** A pattern that appends a suffix, and one whose [apply] always throws. *)
Definition appendingPattern (suffix : string) : Pattern :=
  mkPattern ("append" ++ suffix) "Append" "Appends a suffix" [] both 1
    (fun text _ =>
       Normal (mkPatternResult (text ++ suffix)
                 (mkImprovement dim_structure ("appended" ++ suffix) low) true)).

Definition throwingPattern : Pattern :=
  mkPattern "thrower" "Thrower" "Always throws" [] both 1
    (fun _ _ => Throw "Error: boom").

Definition sampleWorld : World := mkWorld (fun n => (1000 + 7 * Z.of_nat n)%Z) 0 [].

(** Scores of a vague answer: everything at 30, overall 40. *)
Definition vagueQuality : QualityScore := mkQuality 30 30 30 30 30 30 40.

(** The result of a fast optimization of a short prompt; its enhanced
    text scores well. *)
Definition loginResult : OptimizationResult :=
  mkResult "Build a login page"
    "Build a login page with email and password fields, using React 18."
    (mkIntent "code-generation" 50 (mkCharacteristics false false))
    (mkQuality 90 90 90 90 90 90 90) [] [] fast 3.

(** Two sets of scores that differ in completeness only. *)
Definition fairQuality : QualityScore := mkQuality 70 70 70 65 70 70 70.
Definition lessCompleteQuality : QualityScore := mkQuality 70 70 70 55 70 70 70.

(** Scores of a vague answer whose completeness and specificity are not
    below 40. *)
Definition shortQuality : QualityScore := mkQuality 45 45 45 45 45 45 45.

(** The conversational prompt of the specification's scenarios. *)
Definition dashboardPrompt : string :=
  "I need a dashboard, also I want real-time updates, and we need user management with admin roles".

(** The result of optimizing a planning prompt that the detector is sure
    about. *)
Definition planningResult : OptimizationResult :=
  mkResult "Plan the rollout of the new billing service across all regions next quarter"
    "Plan the rollout of the new billing service across all regions next quarter"
    (mkIntent "planning" 90 (mkCharacteristics false false))
    (mkQuality 70 70 70 55 70 70 70) [] [] fast 2.


(** ** Collaborators without state, and one with *)

(** A pattern, a collaborator, an optimizer that keep no state, seen as
    ones that could. *)
Definition pure {Heap A} (c : completion A) : Stateful.Op Heap A := fun h => (c, h).

Definition ofPattern (Heap : Type) (p : Pattern) : Stateful.Pattern Heap :=
  Stateful.mkPattern (id p) (name p) (pattern_description p)
    (applicableIntents p) (mode p) (priority p)
    (fun text context => pure (apply p text context)).

Definition ofOptimizer (Heap : Type) (o : UniversalOptimizer)
    : Stateful.UniversalOptimizer Heap :=
  Stateful.mkOptimizer
    (Stateful.mkDetector (fun prompt => pure (Normal (analyze (intentDetector o) prompt))))
    (Stateful.mkLibrary
       (fun intent mode =>
          pure (Normal (map (ofPattern Heap)
                          (selectPatterns (patternLibrary o) intent mode))))
       (fun mode intent phase =>
          pure (Normal (map (ofPattern Heap)
                          (selectPatternsForMode (patternLibrary o)
                             mode intent phase)))))
    (Stateful.mkAssessor
       (fun original enhanced intent =>
          pure (Normal (assess (qualityAssessor o)
                          original enhanced intent)))).

(** A pattern that numbers its outputs: it appends the count of the calls
    made so far, which it keeps on the heap. *)
Definition countingPattern : Stateful.Pattern nat :=
  Stateful.mkPattern "counter" "Counter" "Appends the number of earlier calls" [] both 1
    (fun text _ calls =>
       (Normal (mkPatternResult (text ++ " #" ++ Js.showNat calls)
                  (mkImprovement dim_structure "numbered" low) true),
        S calls)).

(** The sample collaborators with the counting pattern as the only
    pattern. *)
Definition countingOptimizer : Stateful.UniversalOptimizer nat :=
  Stateful.mkOptimizer
    (Stateful.mkDetector (fun prompt => pure (Normal (analyze sampleDetector prompt))))
    (Stateful.mkLibrary (fun _ _ => pure (Normal [countingPattern]))
       (fun _ _ _ => pure (Normal [countingPattern])))
    (Stateful.mkAssessor (fun _ _ _ => pure (Normal vagueQuality))).

(** A short original of thirty accented letters: thirty code units. *)
Definition accentedResult : OptimizationResult :=
  mkResult "éééééééééééééééééééééééééééééé" "éééééééééééééééééééééééééééééé"
    (mkIntent "code-generation" 90 (mkCharacteristics false false))
    (mkQuality 90 90 90 90 90 90 90) [] [] fast 3.

(** NO-BREAK SPACE (U+00A0) and LINE SEPARATOR (U+2028). *)
Definition NBSP : string := String (Unit16 160) EmptyString.
Definition LS : string := String (Unit16 8232) EmptyString.

(* ================================================================== *)
(** * Tactics                                                           *)
(* ================================================================== *)

(** Opens the [apply] of the five patterns. *)
Ltac open_apply :=
  unfold ConversationSummarizer.apply, RequirementPrioritizer.apply,
    UserPersonaEnricher.apply, ImplicitRequirementExtractor.apply,
    TopicCoherenceAnalyzer.apply in *.

(** Splits on the guards a pattern tests before its transformation. *)
Ltac split_guards :=
  repeat match goal with
         | |- context [if negb ?g then _ else _] => destruct g eqn:?; cbn [negb]
         | |- context [if ?g then _ else _] => destruct g eqn:?
         end.

(* ================================================================== *)
(** * Facts about JavaScript strings                                    *)
(* ================================================================== *)

Lemma char_eqb_spec (a b : char) : reflect (a = b) (Char.eqb a b).
Proof.
  destruct a as [m], b as [n]. unfold Char.eqb. cbn [Char.code].
  destruct (N.eqb_spec m n) as [->|Hne]; constructor; congruence.
Qed.

Lemma char_eqb_eq (a b : char) : Char.eqb a b = true <-> a = b.
Proof. destruct (char_eqb_spec a b); split; congruence. Qed.

Lemma char_eqb_refl (a : char) : Char.eqb a a = true.
Proof. now apply char_eqb_eq. Qed.

Lemma char_eqb_sym (a b : char) : Char.eqb a b = Char.eqb b a.
Proof. unfold Char.eqb. apply N.eqb_sym. Qed.

Lemma string_eqb_spec (a b : string) : reflect (a = b) (String.eqb a b).
Proof.
  revert b. induction a as [|x a IH]; intros [|y b]; cbn [String.eqb];
    try (constructor; congruence).
  destruct (char_eqb_spec x y) as [->|Hne]; cbn [andb].
  - destruct (IH b) as [->|Hne]; constructor; congruence.
  - constructor; congruence.
Qed.

Lemma string_eqb_eq (a b : string) : String.eqb a b = true <-> a = b.
Proof. destruct (string_eqb_spec a b); split; congruence. Qed.

Lemma string_eqb_refl (a : string) : String.eqb a a = true.
Proof. now apply string_eqb_eq. Qed.

Lemma string_dec (a b : string) : {a = b} + {a <> b}.
Proof. destruct (string_eqb_spec a b); [now left | now right]. Qed.

Lemma startsWith_app (sub rest : string) : Js.startsWith (sub ++ rest) sub = true.
Proof.
  induction sub as [|c sub IH]; simpl; [reflexivity|].
  now rewrite char_eqb_refl, IH.
Qed.

Lemma startsWith_inv (s sub : string) :
  Js.startsWith s sub = true -> exists rest, s = sub ++ rest.
Proof.
  revert s; induction sub as [|c sub IH]; intros s H; simpl in *.
  - now exists s.
  - destruct s as [|d s]; [discriminate|].
    apply andb_true_iff in H as [Hc Hs].
    apply char_eqb_eq in Hc; subst d.
    destruct (IH _ Hs) as [rest ->]. now exists rest.
Qed.

Lemma includes_startsWith (s sub : string) :
  Js.startsWith s sub = true -> Js.includes s sub = true.
Proof. intros H. destruct s; simpl; rewrite H; reflexivity. Qed.

Lemma includes_app (pre sub post : string) :
  Js.includes (pre ++ sub ++ post) sub = true.
Proof.
  induction pre as [|c pre IH]; simpl.
  - apply includes_startsWith, startsWith_app.
  - rewrite IH. apply orb_true_r.
Qed.

Lemma includes_inv (s sub : string) :
  Js.includes s sub = true -> exists pre post, s = pre ++ sub ++ post.
Proof.
  induction s as [|c s IH]; simpl; intros H.
  - rewrite orb_false_r in H. apply startsWith_inv in H as [rest ->].
    now exists "", rest.
  - apply orb_true_iff in H as [H|H].
    + apply startsWith_inv in H as [rest ->]. now exists "", rest.
    + destruct (IH H) as (pre & post & ->). now exists (String c pre), post.
Qed.

Lemma includes_suffix (pre s : string) : Js.includes (pre ++ s) s = true.
Proof.
  replace (pre ++ s) with (pre ++ s ++ "").
  - apply includes_app.
  - f_equal. induction s; simpl; congruence.
Qed.

Lemma includes_prefix (s post : string) : Js.includes (s ++ post) s = true.
Proof. apply (includes_app "" s post). Qed.

Lemma take_length (n : nat) (s : string) : (String.length (Js.take n s) <= n)%nat.
Proof.
  revert s; induction n as [|n IH]; intros [|c s]; simpl; try lia.
  specialize (IH s). lia.
Qed.

(* ================================================================== *)
(** * Properties of the patterns                                        *)
(* ================================================================== *)

Lemma string_app_assoc (a b c : string) : (a ++ b) ++ c = a ++ (b ++ c).
Proof. induction a as [|x a IH]; simpl; congruence. Qed.

Lemma string_app_nonempty_r (a b : string) : b <> "" -> a ++ b <> "".
Proof. destruct a; simpl; [tauto | discriminate]. Qed.

(** ** Inapplicable patterns leave the text alone *)

(** Each pattern answers [applied] exactly when its applicability check
    holds. *)
Lemma applied_iff_applicable `{BasePattern} (k : PatternKind) (T : string)
    (ctx : PatternContext) :
  applied (applyKind k T ctx) = applicable k T.
Proof.
  destruct k; cbn [applyKind applicable]; open_apply; split_guards; reflexivity.
Qed.

(** A pattern that does not apply returns its input. *)
Lemma unapplied_returns_input `{BasePattern} (k : PatternKind) (T : string)
    (ctx : PatternContext) :
  applied (applyKind k T ctx) = false -> enhancedPrompt (applyKind k T ctx) = T.
Proof.
  destruct k; cbn [applyKind]; open_apply; split_guards;
    cbn [applied enhancedPrompt]; try reflexivity; discriminate.
Qed.

Lemma registered_apply `{BasePattern} (k : PatternKind) (T : string)
    (ctx : PatternContext) :
  apply (patternOf k) T ctx = Normal (applyKind k T ctx).
Proof. destruct k; reflexivity. Qed.

(** C4.  For each of the five patterns (ConversationSummarizer,
    RequirementPrioritizer, UserPersonaEnricher,
    ImplicitRequirementExtractor, TopicCoherenceAnalyzer), whatever the
    inherited helpers do, and for every text [T] on which the pattern's
    applicability check is false: [apply(T, ctx)] completes normally with
    [applied = false] and [enhancedPrompt] equal to [T]. *)
Theorem C4_inapplicable_pattern_returns_input :
  forall (B : BasePattern) (k : PatternKind) (T : string) (ctx : PatternContext),
    applicable k T = false ->
    exists r,
      apply (patternOf k) T ctx = Normal r
      /\ applied r = false
      /\ enhancedPrompt r = T.
Proof.
  intros B k T ctx Hna.
  exists (applyKind k T ctx).
  assert (Ha : applied (applyKind k T ctx) = false)
    by (rewrite applied_iff_applicable; exact Hna).
  split; [apply registered_apply|].
  split; [exact Ha|].
  now apply unapplied_returns_input.
Qed.

Lemma C4_witness :
  applicable (H := KeywordBase.base) UserPersonaEnricherK "hello" = false
  /\ exists r,
       apply (patternOf (H := KeywordBase.base) UserPersonaEnricherK) "hello" sampleContext
       = Normal r
       /\ applied r = false /\ enhancedPrompt r = "hello".
Proof.
  split; [vm_compute; reflexivity|].
  apply (C4_inapplicable_pattern_returns_input KeywordBase.base UserPersonaEnricherK
           "hello" sampleContext).
  vm_compute; reflexivity.
Defined.

(** ** Applied patterns keep the text *)

Lemma summarizer_keeps_text `{BasePattern} (T : string) :
  exists header,
    ConversationSummarizer.extractAndStructure T
    = header ++ "**Original Context:**" ++ LF ++ T.
Proof.
  unfold ConversationSummarizer.extractAndStructure, ConversationSummarizer.render.
  eexists. rewrite <- !string_app_assoc. reflexivity.
Qed.

Lemma topics_keep_text `{BasePattern} (T : string) (topics : list string) :
  exists header,
    TopicCoherenceAnalyzer.organizeByTopic T topics
    = header ++ "**Full Context:**" ++ LF ++ T.
Proof.
  unfold TopicCoherenceAnalyzer.organizeByTopic.
  eexists. rewrite <- (string_app_assoc _ ("---" ++ LF ++ LF)). reflexivity.
Qed.

Lemma LF_app_nonempty (s : string) : LF ++ s <> "".
Proof. discriminate. Qed.

(** C5.  For each of the five patterns and every text [T] on which the
    pattern applies ([applied = true]), [T] occurs verbatim as a contiguous
    substring of [enhancedPrompt]: the appending patterns
    (RequirementPrioritizer, UserPersonaEnricher,
    ImplicitRequirementExtractor) return [T] followed by a non-empty
    section, and the restructuring patterns end with the whole of [T]
    beneath their marker line ([**Original Context:**] for
    ConversationSummarizer, [**Full Context:**] for
    TopicCoherenceAnalyzer). *)
Theorem C5_applied_pattern_keeps_input :
  forall (B : BasePattern) (k : PatternKind) (T : string) (ctx : PatternContext),
    applied (applyKind k T ctx) = true ->
    Js.includes (enhancedPrompt (applyKind k T ctx)) T = true
    /\ match k with
       | ConversationSummarizerK =>
           exists header,
             enhancedPrompt (applyKind k T ctx)
             = header ++ "**Original Context:**" ++ LF ++ T
       | TopicCoherenceAnalyzerK =>
           exists header,
             enhancedPrompt (applyKind k T ctx)
             = header ++ "**Full Context:**" ++ LF ++ T
       | _ =>
           exists section,
             section <> EmptyString
             /\ enhancedPrompt (applyKind k T ctx) = T ++ section
       end.
Proof.
  intros B k T ctx Happ.
  assert (Hshape :
    match k with
    | ConversationSummarizerK =>
        exists header,
          enhancedPrompt (applyKind k T ctx) = header ++ "**Original Context:**" ++ LF ++ T
    | TopicCoherenceAnalyzerK =>
        exists header,
          enhancedPrompt (applyKind k T ctx) = header ++ "**Full Context:**" ++ LF ++ T
    | _ =>
        exists section,
          section <> EmptyString /\ enhancedPrompt (applyKind k T ctx) = T ++ section
    end).
  { destruct k; simpl in *.
    - unfold ConversationSummarizer.apply in *.
      destruct (ConversationSummarizer.isAlreadyStructured T); [discriminate|].
      destruct (negb (ConversationSummarizer.isConversationalContent T)); [discriminate|].
      apply summarizer_keeps_text.
    - unfold RequirementPrioritizer.apply in *.
      destruct (negb (RequirementPrioritizer.hasFeatureContent T)); [discriminate|].
      destruct (RequirementPrioritizer.hasPrioritization T); [discriminate|].
      cbn [enhancedPrompt]. unfold RequirementPrioritizer.addPrioritization.
      destruct (RequirementPrioritizer.extractFeatureSection T) as [[|c s]|];
        eexists; (split; [|reflexivity]); discriminate.
    - unfold UserPersonaEnricher.apply in *.
      destruct (UserPersonaEnricher.hasUserContext T); [discriminate|].
      destruct (negb (UserPersonaEnricher.needsUserContext T)); [discriminate|].
      cbn [enhancedPrompt]. unfold UserPersonaEnricher.addUserPersona.
      eexists; split; [|reflexivity]. discriminate.
    - unfold ImplicitRequirementExtractor.apply in *.
      destruct (List.length _ =? 0)%nat; [discriminate|].
      cbn [enhancedPrompt]. unfold ImplicitRequirementExtractor.addImplicitRequirements.
      eexists; split; [|reflexivity]. discriminate.
    - unfold TopicCoherenceAnalyzer.apply in *.
      destruct (List.length _ <=? 1)%nat; [discriminate|].
      destruct (TopicCoherenceAnalyzer.hasTopicOrganization T); [discriminate|].
      apply topics_keep_text. }
  split; [|exact Hshape].
  destruct k.
  - destruct Hshape as [header ->].
    rewrite <- !string_app_assoc. apply includes_suffix.
  - destruct Hshape as (section & _ & ->). apply includes_prefix.
  - destruct Hshape as (section & _ & ->). apply includes_prefix.
  - destruct Hshape as (section & _ & ->). apply includes_prefix.
  - destruct Hshape as [header ->].
    rewrite <- !string_app_assoc. apply includes_suffix.
Qed.

Lemma C5_witness :
  applied (applyKind (H := KeywordBase.base) UserPersonaEnricherK "Build a shop" sampleContext)
  = true
  /\ Js.includes
       (enhancedPrompt
          (applyKind (H := KeywordBase.base) UserPersonaEnricherK "Build a shop" sampleContext))
       "Build a shop" = true.
Proof.
  split; [vm_compute; reflexivity|].
  apply (C5_applied_pattern_keeps_input KeywordBase.base UserPersonaEnricherK
           "Build a shop" sampleContext).
  vm_compute; reflexivity.
Defined.

(** ** The summarizer's lists *)

Lemma arrayIncludes_false (acc : list string) (x : string) :
  Js.arrayIncludes acc x = false -> ~ In x acc.
Proof.
  unfold Js.arrayIncludes. intros Hf Hin.
  assert (Ht : existsb (String.eqb x) acc = true).
  { apply existsb_exists. exists x. split; [exact Hin | apply string_eqb_refl]. }
  congruence.
Qed.


Lemma cleanRequirement_length (captured : string) :
  (String.length (ConversationSummarizer.cleanRequirement captured) <= 200)%nat.
Proof. apply take_length. Qed.

(** *** The cleaning of a capture *)

Lemma units_inj (a b : string) : String.units a = String.units b -> a = b.
Proof.
  revert b. induction a as [|x a IH]; intros [|y b]; cbn [String.units];
    try discriminate; [reflexivity|].
  intros [= -> Hrest]. now rewrite (IH _ Hrest).
Qed.


















(** The specification's scenario: the extractor surfaces the real-time
    and the authentication requirements of the dashboard prompt. *)
Example implicit_requirements_of_dashboard :
  ImplicitRequirementExtractor.extractImplicitRequirements dashboardPrompt
  = ["Real-time updates infrastructure needed";
     "User authentication system (implied by user roles)";
     "Analytics and reporting infrastructure"].
Proof. vm_compute; reflexivity. Qed.

(** The summarizer applies to the dashboard prompt, which carries the
    markers [i need], [i want], [we need] and [also]. *)
Example summarizer_applies_to_dashboard (B : BasePattern) (ctx : PatternContext) :
  applied (ConversationSummarizer.apply dashboardPrompt ctx) = true.
Proof.
  unfold ConversationSummarizer.apply.
  replace (ConversationSummarizer.isAlreadyStructured dashboardPrompt) with false
    by (vm_compute; reflexivity).
  unfold ConversationSummarizer.isConversationalContent.
  replace (2 <=? countWhere
             (fun marker => Js.includes (Js.toLowerCase dashboardPrompt) marker)
             ConversationSummarizer.conversationalMarkers)%nat with true
    by (vm_compute; reflexivity).
  reflexivity.
Qed.

(** A repeated constraint: the keyword sentences are pushed without the
    membership test the extracted ones go through. *)
Remark constraints_can_repeat :
  ConversationSummarizer.extractConstraints "only Performance requirements to be defined."
  = ["Performance requirements to be defined"; "Performance requirements to be defined"].
Proof. vm_compute; reflexivity. Qed.

(* ================================================================== *)
(** * Properties of the optimizer                                       *)
(* ================================================================== *)

(** ** The loop never throws *)

Lemma logged_nil (w : World) : logged w [] = w.
Proof. destruct w; unfold logged; simpl. now rewrite app_nil_r. Qed.

Lemma logged_logged (w : World) (a b : list string) :
  logged (logged w a) b = logged w (a ++ b).
Proof. unfold logged; simpl. now rewrite app_assoc. Qed.

Lemma stepPattern_run (ctx : PatternContext) (p : Pattern) (st : LoopState) (w : World) :
  stepPattern ctx p st w = (Normal (stateAfter ctx p st), logged w (lineLogged ctx p st)).
Proof.
  unfold stepPattern, tryCatch, tryPattern, bind, call, stateAfter, lineLogged.
  destruct (apply p (loop_enhanced st) ctx) as [result|e].
  - destruct (applied result); unfold ret; now rewrite logged_nil.
  - reflexivity.
Qed.

Lemma applyPatterns_run (ctx : PatternContext) (ps : list Pattern) (st : LoopState)
    (w : World) :
  applyPatterns ctx ps st w
  = (Normal (statesAfter ctx ps st), logged w (linesLogged ctx ps st)).
Proof.
  revert st w. induction ps as [|p ps IH]; intros st w; simpl.
  - unfold ret. now rewrite logged_nil.
  - unfold bind. rewrite stepPattern_run, IH, logged_logged. reflexivity.
Qed.

Lemma statesAfter_app (ctx : PatternContext) (ps qs : list Pattern) (st : LoopState) :
  statesAfter ctx (ps ++ qs) st = statesAfter ctx qs (statesAfter ctx ps st).
Proof. revert st. induction ps as [|p ps IH]; intros st; simpl; [reflexivity | apply IH]. Qed.

(** [optimize], step by step: two clock readings around the loop. *)
Lemma optimize_run (o : UniversalOptimizer) (prompt : string) (mode : OptimizationMode)
    (ov : option OptimizationContextOverride) (w : World) :
  let intent := resolveIntent o prompt ov in
  let ctx := contextFor prompt mode intent ov in
  let patterns := selectFor o mode intent ov in
  let final := statesAfter ctx patterns (mkLoop prompt [] []) in
  optimize o prompt mode ov w
  = (Normal
       (mkResult prompt (loop_enhanced final) intent
          (assess (qualityAssessor o) prompt (loop_enhanced final) intent)
          (loop_improvements final) (loop_appliedPatterns final) mode
          (clock w (S (reads w)) - clock w (reads w))%Z),
     mkWorld (clock w) (S (S (reads w)))
       (console w ++ linesLogged ctx patterns (mkLoop prompt [] []))).
Proof.
  intros intent ctx patterns final.
  unfold optimize, bind, dateNow.
  fold intent. fold ctx. fold patterns.
  rewrite applyPatterns_run. reflexivity.
Qed.

(** ** A throwing pattern is contained *)

(** C2.  Whatever the prompt, the mode and the selected patterns: if the
    selected list is [pre ++ p :: post] and [p.apply] throws on the text
    accumulated by [pre], then (1) the iteration for [p] catches the
    exception: it completes normally, leaves [enhanced], [improvements] and
    [appliedPatterns] as [pre] left them and only writes one console line;
    (2) the loop over the whole list ends as the loop over [post] started
    from that state, so the remaining patterns are applied in order; and
    (3) [optimize] completes normally with a result carrying that final
    state: the exception never reaches the caller. *)
Theorem C2_throwing_pattern_is_contained :
  forall (o : UniversalOptimizer) (prompt : string) (mode : OptimizationMode)
         (ov : option OptimizationContextOverride) (w : World)
         (pre post : list Pattern) (p : Pattern) (st1 : LoopState) (e : string),
    let intent := resolveIntent o prompt ov in
    let ctx := contextFor prompt mode intent ov in
    let start := mkLoop prompt [] [] in
    selectFor o mode intent ov = (pre ++ p :: post)%list ->
    valueOf (applyPatterns ctx pre start) w = Normal st1 ->
    apply p (loop_enhanced st1) ctx = Throw e ->
    (forall w1,
        stepPattern ctx p st1 w1
        = (Normal st1, logged w1 [("Error applying pattern " ++ id p ++ ":") ++ " " ++ e]))
    /\ (forall w1,
           valueOf (applyPatterns ctx (pre ++ p :: post)%list start) w1
           = valueOf (applyPatterns ctx post st1) w1)
    /\ exists result w' final,
         optimize o prompt mode ov w = (Normal result, w')
         /\ valueOf (applyPatterns ctx post st1) w = Normal final
         /\ enhanced result = loop_enhanced final
         /\ improvements result = loop_improvements final
         /\ appliedPatterns result = loop_appliedPatterns final.
Proof.
  intros o prompt mode ov w pre post p st1 e intent ctx start Hsel Hpre Hthrow.
  unfold valueOf in Hpre. rewrite applyPatterns_run in Hpre. simpl in Hpre.
  injection Hpre as Hst1.
  assert (Hstep : stateAfter ctx p st1 = st1)
    by (unfold stateAfter; now rewrite Hthrow).
  assert (Hall : statesAfter ctx (pre ++ p :: post)%list start = statesAfter ctx post st1).
  { rewrite statesAfter_app. simpl. rewrite Hst1, Hstep. reflexivity. }
  split.
  { intros w1. rewrite stepPattern_run, Hstep.
    unfold lineLogged. now rewrite Hthrow. }
  split.
  { intros w1. unfold valueOf. rewrite !applyPatterns_run. simpl. now rewrite Hall. }
  pose proof (optimize_run o prompt mode ov w) as Hrun.
  cbv zeta in Hrun. fold intent in Hrun. fold ctx in Hrun. fold start in Hrun.
  rewrite Hsel, Hall in Hrun.
  eexists _, _, (statesAfter ctx post st1).
  split; [exact Hrun|].
  split; [unfold valueOf; now rewrite applyPatterns_run|].
  repeat split.
Qed.

Lemma C2_witness :
  exists result w',
    optimize
      (sampleOptimizer [appendingPattern " A"; throwingPattern; appendingPattern " B"]
         vagueQuality)
      "start" deep None sampleWorld
    = (Normal result, w')
    /\ enhanced result = "start A B".
Proof.
  destruct (@C2_throwing_pattern_is_contained
              (sampleOptimizer [appendingPattern " A"; throwingPattern; appendingPattern " B"]
                 vagueQuality)
              "start" deep None sampleWorld
              [appendingPattern " A"] [appendingPattern " B"] throwingPattern
              (mkLoop "start A"
                 [mkImprovement dim_structure "appended A" low]
                 [mkSummary "Append" "Appends a suffix" low])
              "Error: boom" eq_refl eq_refl eq_refl)
    as (_ & _ & result & w' & final & Hopt & Hfinal & Henh & _).
  exists result, w'. split; [exact Hopt|].
  rewrite Henh. vm_compute in Hfinal. injection Hfinal as <-. reflexivity.
Defined.

(** ** Determinism *)

(** With collaborators and patterns given as functions, [optimize]
    completes normally in any world, and only [processingTimeMs] is taken
    from the clock. *)
Lemma optimize_outcome_ignores_the_world :
  forall (o : UniversalOptimizer) (prompt : string) (mode : OptimizationMode)
         (ov : option OptimizationContextOverride) (w1 w2 : World),
  exists r1 r2 w1' w2',
    optimize o prompt mode ov w1 = (Normal r1, w1')
    /\ optimize o prompt mode ov w2 = (Normal r2, w2')
    /\ enhanced r1 = enhanced r2
    /\ quality r1 = quality r2
    /\ result_intent r1 = result_intent r2
    /\ original r1 = original r2
    /\ result_mode r1 = result_mode r2
    /\ improvements r1 = improvements r2
    /\ appliedPatterns r1 = appliedPatterns r2.
Proof.
  intros o prompt mode ov w1 w2.
  pose proof (optimize_run o prompt mode ov w1) as H1.
  pose proof (optimize_run o prompt mode ov w2) as H2.
  cbv zeta in H1, H2.
  eexists _, _, _, _.
  split; [exact H1|]. split; [exact H2|].
  repeat split.
Qed.

Section StatefulFacts.

Variable Heap : Type.

Lemma stateless_step (context : PatternContext) (pattern : Stateful.Pattern Heap)
    (st : LoopState) (s1 s2 : Stateful.State Heap) :
  Stateful.StatelessPattern pattern ->
  exists st' s1' s2',
    Stateful.stepPattern context pattern st s1 = (Normal st', s1')
    /\ Stateful.stepPattern context pattern st s2 = (Normal st', s2').
Proof.
  intros Hp.
  pose proof (Hp (loop_enhanced st) context (Stateful.heap s1) (Stateful.heap s2)) as Hsame.
  unfold Stateful.stepPattern, Stateful.tryCatch, Stateful.tryPattern, Stateful.bind,
    Stateful.call, Stateful.effect, Stateful.ret, consoleError.
  destruct (Stateful.apply pattern (loop_enhanced st) context (Stateful.heap s1))
    as [c1 h1].
  destruct (Stateful.apply pattern (loop_enhanced st) context (Stateful.heap s2))
    as [c2 h2].
  cbn [fst] in Hsame. subst c2.
  destruct c1 as [result|error]; [destruct (applied result)|]; cbn;
    eexists _, _, _; split; reflexivity.
Qed.

Lemma stateless_loop (context : PatternContext) (patterns : list (Stateful.Pattern Heap))
    (st : LoopState) (s1 s2 : Stateful.State Heap) :
  Forall (@Stateful.StatelessPattern Heap) patterns ->
  exists st' s1' s2',
    Stateful.applyPatterns context patterns st s1 = (Normal st', s1')
    /\ Stateful.applyPatterns context patterns st s2 = (Normal st', s2').
Proof.
  intros Hall. revert st s1 s2.
  induction Hall as [|p ps Hp _ IH]; intros st s1 s2; cbn [Stateful.applyPatterns].
  - exists st, s1, s2. split; reflexivity.
  - destruct (stateless_step context st s1 s2 Hp) as (st' & s1' & s2' & H1 & H2).
    unfold Stateful.bind. rewrite H1, H2. apply IH.
Qed.

(** A stateless call in two states: the same completion. *)
Lemma stateless_call {A} (op : Stateful.Op Heap A) (s1 s2 : Stateful.State Heap) :
  Stateful.Stateless op ->
  exists c s1' s2',
    Stateful.call op s1 = (c, s1') /\ Stateful.call op s2 = (c, s2').
Proof.
  intros Hop. pose proof (Hop (Stateful.heap s1) (Stateful.heap s2)) as Hsame.
  unfold Stateful.call.
  destruct (op (Stateful.heap s1)) as [c1 h1], (op (Stateful.heap s2)) as [c2 h2].
  cbn [fst] in Hsame. subst c2. eexists _, _, _. split; reflexivity.
Qed.

(** C9.  [optimize] adds no dependence on anything but its arguments: when
    the collaborators and the patterns they select keep to their contract
    (what a method completes with does not depend on the state it is called
    in), two calls of [optimize] with the same prompt, mode and override, in
    any two states of the collaborators' heap, of the clock and of the
    console, complete alike: both throw the same error, or both return, with
    the same [enhanced] string, the same quality scores and the same intent
    analysis, and the same original, mode, improvements and applied
    patterns.  Only [processingTimeMs] may differ. *)
Theorem C9_optimize_is_deterministic :
  forall (o : Stateful.UniversalOptimizer Heap) (prompt : string) (mode : OptimizationMode)
         (contextOverride : option OptimizationContextOverride),
    Stateful.StatelessCollaborators o ->
    forall s1 s2 : Stateful.State Heap,
      Stateful.sameOutcome
        (fst (Stateful.optimize o prompt mode contextOverride s1))
        (fst (Stateful.optimize o prompt mode contextOverride s2)).
Proof.
  intros o prompt mode ov (Hanalyze & Hselect & HselectFor & Hassess) s1 s2.
  unfold Stateful.optimize.
  unfold Stateful.bind at 1. unfold Stateful.bind at 6.
  unfold Stateful.effect at 1 3, dateNow. cbn [Stateful.world Stateful.heap].
  set (t1 := Stateful.mkState (Stateful.heap s1) _).
  set (t2 := Stateful.mkState (Stateful.heap s2) _).
  unfold Stateful.bind at 1. unfold Stateful.bind at 5.
  destruct (stateless_call t1 t2 (Hanalyze prompt)) as (c & u1 & u2 & H1 & H2).
  rewrite H1, H2. clear H1 H2.
  destruct c as [detected|error]; [|cbn; reflexivity].
  set (intent := match overrideIntent ov with
                 | Some tag => withPrimaryIntent detected tag
                 | None => detected
                 end).
  set (select := match mode with
                 | prd | conversational =>
                     Stateful.selectPatternsForMode (Stateful.patternLibrary o) mode intent
                       (optField ov phase)
                 | fast | deep => Stateful.selectPatterns (Stateful.patternLibrary o) intent mode
                 end).
  assert (Hsel : Stateful.StatelessSelection select)
    by (unfold select; destruct mode; auto).
  destruct Hsel as [Hsel Hpatterns].
  unfold Stateful.bind at 1. unfold Stateful.bind at 4.
  destruct (stateless_call u1 u2 Hsel) as (c & v1 & v2 & H1 & H2).
  rewrite H1, H2.
  destruct c as [patterns|error]; [|cbn; reflexivity].
  assert (Hall : Forall (@Stateful.StatelessPattern Heap) patterns).
  { apply (Hpatterns (Stateful.heap u1)). unfold Stateful.call in H1.
    destruct (select (Stateful.heap u1)) as [c h]. now injection H1 as -> _. }
  clear H1 H2.
  unfold Stateful.bind at 1. unfold Stateful.bind at 3.
  destruct (stateless_loop (contextFor prompt mode intent ov) (mkLoop prompt [] [])
              v1 v2 Hall) as (st & x1 & x2 & H1 & H2).
  rewrite H1, H2. clear H1 H2.
  unfold Stateful.bind at 1. unfold Stateful.bind at 2.
  destruct (stateless_call x1 x2 (Hassess prompt (loop_enhanced st) intent))
    as (c & y1 & y2 & H1 & H2).
  rewrite H1, H2. clear H1 H2.
  destruct c as [quality|error]; [|cbn; reflexivity].
  cbn. repeat split; reflexivity.
Qed.

End StatefulFacts.

(** The contract is met by collaborators and patterns that keep no
    state. *)
Lemma ofOptimizer_stateless (Heap : Type) (o : UniversalOptimizer) :
  Stateful.StatelessCollaborators (ofOptimizer Heap o).
Proof.
  assert (Hps : forall ps : list Pattern,
             Forall (@Stateful.StatelessPattern Heap) (map (ofPattern Heap) ps)).
  { intros ps. apply Forall_forall. intros p Hp.
    apply in_map_iff in Hp as (q & <- & _). intros text context h h'. reflexivity. }
  repeat split; try (intros h h'; reflexivity).
  - intros h patterns [= <-]. apply Hps.
  - intros h patterns [= <-]. apply Hps.
Qed.

(** The five patterns of the sources write to no field and read none that
    changes: each is a function of its text and context. *)
Lemma modelled_patterns_are_stateless (Heap : Type) (B : BasePattern) (k : PatternKind) :
  Stateful.StatelessPattern (ofPattern Heap (patternOf k)).
Proof. intros text context h h'. reflexivity. Qed.

Lemma stepPattern_of_pure (Heap : Type) (context : PatternContext) (p : Pattern)
    (st : LoopState) (h : Heap) (w : World) :
  Stateful.stepPattern context (ofPattern Heap p) st (Stateful.mkState h w)
  = (fst (stepPattern context p st w),
     Stateful.mkState h (snd (stepPattern context p st w))).
Proof.
  unfold Stateful.stepPattern, Stateful.tryCatch, Stateful.tryPattern, Stateful.bind,
    Stateful.call, Stateful.effect, Stateful.ret, stepPattern, tryCatch, tryPattern,
    bind, call, ret, consoleError, ofPattern, pure.
  cbn [Stateful.apply Stateful.heap Stateful.world Stateful.id Stateful.name
       Stateful.pattern_description].
  destruct (apply p (loop_enhanced st) context) as [result|error];
    [destruct (applied result)|]; reflexivity.
Qed.

Lemma applyPatterns_of_pure (Heap : Type) (context : PatternContext) (ps : list Pattern)
    (st : LoopState) (h : Heap) (w : World) :
  Stateful.applyPatterns context (map (ofPattern Heap) ps) st (Stateful.mkState h w)
  = (fst (applyPatterns context ps st w),
     Stateful.mkState h (snd (applyPatterns context ps st w))).
Proof.
  revert st w. induction ps as [|p ps IH]; intros st w; [reflexivity|].
  cbn [map Stateful.applyPatterns applyPatterns].
  unfold Stateful.bind, bind. rewrite stepPattern_of_pure.
  rewrite stepPattern_run. cbn [fst snd]. apply IH.
Qed.

(** With collaborators that keep no state, the optimizer of this section
    is the optimizer of the sections above. *)
Lemma optimize_of_pure (Heap : Type) (o : UniversalOptimizer) (prompt : string)
    (mode : OptimizationMode) (contextOverride : option OptimizationContextOverride)
    (h : Heap) (w : World) :
  Stateful.optimize (ofOptimizer Heap o) prompt mode contextOverride (Stateful.mkState h w)
  = (fst (optimize o prompt mode contextOverride w),
     Stateful.mkState h (snd (optimize o prompt mode contextOverride w))).
Proof.
  rewrite optimize_run. cbv zeta. cbn [fst snd].
  unfold Stateful.optimize.
  unfold Stateful.bind at 1. unfold Stateful.effect at 1, dateNow.
  cbn [Stateful.world Stateful.heap].
  unfold Stateful.bind at 1. unfold Stateful.call at 1, ofOptimizer at 1, pure.
  cbn [Stateful.analyze Stateful.intentDetector Stateful.heap Stateful.world].
  fold (resolveIntent o prompt contextOverride).
  set (intent := resolveIntent o prompt contextOverride).
  unfold Stateful.bind at 1.
  replace (Stateful.call _ _)
    with (Normal (map (ofPattern Heap) (selectFor o mode intent contextOverride)),
          Stateful.mkState h (mkWorld (clock w) (S (reads w)) (console w)))
    by (unfold Stateful.call, selectFor, ofOptimizer, pure; destruct mode; reflexivity).
  unfold Stateful.bind at 1. rewrite applyPatterns_of_pure, applyPatterns_run.
  cbn [fst snd]. reflexivity.
Qed.

Lemma C9_witness :
  Stateful.sameOutcome
    (fst (Stateful.optimize
            (ofOptimizer nat
               (sampleOptimizer [appendingPattern " A"; throwingPattern] vagueQuality))
            "start" deep None (Stateful.mkState 0%nat sampleWorld)))
    (fst (Stateful.optimize
            (ofOptimizer nat
               (sampleOptimizer [appendingPattern " A"; throwingPattern] vagueQuality))
            "start" deep None
            (Stateful.mkState 7%nat (mkWorld (fun _ => 5%Z) 3 ["an earlier line"])))).
Proof.
  apply (@C9_optimize_is_deterministic nat
           (ofOptimizer nat
              (sampleOptimizer [appendingPattern " A"; throwingPattern] vagueQuality))
           "start" deep None).
  apply ofOptimizer_stateless.
Defined.

(** The contract is needed: with a pattern that counts its calls, the
    second of two calls in a row returns another [enhanced] string. *)
Remark stateful_pattern_breaks_determinism :
  exists r1 s1 r2 s2,
    Stateful.optimize countingOptimizer "start" deep None
      (Stateful.mkState 0%nat sampleWorld) = (Normal r1, s1)
    /\ Stateful.optimize countingOptimizer "start" deep None s1 = (Normal r2, s2)
    /\ enhanced r1 = "start #0"
    /\ enhanced r2 = "start #1".
Proof.
  eexists _, _, _, _.
  split; [vm_compute; reflexivity|].
  split; [vm_compute; reflexivity|].
  split; reflexivity.
Qed.

(** The processing time does depend on the clock. *)
Remark processing_time_follows_the_clock :
  exists r1 r2 w1' w2',
    optimize (sampleOptimizer [] vagueQuality) "x" fast None sampleWorld = (Normal r1, w1')
    /\ optimize (sampleOptimizer [] vagueQuality) "x" fast None
         (mkWorld (fun n => (20 * Z.of_nat n)%Z) 0 []) = (Normal r2, w2')
    /\ processingTimeMs r1 = 7%Z /\ processingTimeMs r2 = 20%Z.
Proof.
  eexists _, _, _, _.
  split; [apply optimize_run|]. split; [apply optimize_run|].
  split; reflexivity.
Qed.

(** ** The intent override *)

Lemma overrideIntent_some (ov : option OptimizationContextOverride) (tag : string) :
  optField ov intent = Some tag -> tag <> "" -> overrideIntent ov = Some tag.
Proof.
  unfold overrideIntent. intros -> Hne.
  destruct tag; [contradiction | reflexivity].
Qed.

Lemma overrideIntent_none (ov : option OptimizationContextOverride) :
  optField ov intent = None \/ optField ov intent = Some "" -> overrideIntent ov = None.
Proof. unfold overrideIntent. intros [-> | ->]; reflexivity. Qed.

(** C6 (amended).  [optimize] never throws on an intent override, and it
    does not check the tag: an override that is a non-empty string,
    supported tag or not, becomes the result's [primaryIntent] as it is,
    with the detected confidence and characteristics kept; the detected
    analysis stands only when no override is given or when it is the empty
    string. *)
Theorem C6_intent_override_is_taken_verbatim :
  forall (o : UniversalOptimizer) (prompt : string) (mode : OptimizationMode)
         (ov : option OptimizationContextOverride) (w : World),
  exists result w',
    optimize o prompt mode ov w = (Normal result, w')
    /\ (forall tag,
           optField ov intent = Some tag -> tag <> "" ->
           primaryIntent (result_intent result) = tag
           /\ confidence (result_intent result)
              = confidence (analyze (intentDetector o) prompt)
           /\ characteristics (result_intent result)
              = characteristics (analyze (intentDetector o) prompt))
    /\ (optField ov intent = None \/ optField ov intent = Some "" ->
        result_intent result = analyze (intentDetector o) prompt).
Proof.
  intros o prompt mode ov w.
  pose proof (optimize_run o prompt mode ov w) as Hrun. cbv zeta in Hrun.
  eexists _, _. split; [exact Hrun|].
  cbn [result_intent]. unfold resolveIntent. split.
  - intros tag Hov Hne. rewrite (overrideIntent_some ov Hov Hne). repeat split.
  - intros Hov. now rewrite (overrideIntent_none ov Hov).
Qed.

Lemma C6_witness :
  exists result w',
    optimize (sampleOptimizer [] vagueQuality) "Build a login page" fast
      (Some (mkOverride None None None (Some "banana"))) sampleWorld
    = (Normal result, w')
    /\ primaryIntent (result_intent result) = "banana".
Proof.
  destruct (C6_intent_override_is_taken_verbatim
              (sampleOptimizer [] vagueQuality) "Build a login page" fast
              (Some (mkOverride None None None (Some "banana"))) sampleWorld)
    as (result & w' & Hopt & Htag & _).
  exists result, w'. split; [exact Hopt|].
  apply (Htag "banana"); [reflexivity | discriminate].
Defined.

(** C6, as stated, fails: with the unsupported tag [banana] as override,
    the result carries [banana] as its primary intent, while the same call
    without an override keeps the detected [code-generation]. *)
Lemma C6_counterexample :
  exists overridden plain,
    valueOf (optimize (sampleOptimizer [] vagueQuality) "Build a login page" fast
               (Some (mkOverride None None None (Some "banana")))) sampleWorld
    = Normal overridden
    /\ valueOf (optimize (sampleOptimizer [] vagueQuality) "Build a login page" fast None)
         sampleWorld
       = Normal plain
    /\ isSupportedIntent "banana" = false
    /\ primaryIntent (result_intent overridden) = "banana"
    /\ primaryIntent (result_intent plain) = "code-generation"
    /\ result_intent overridden <> result_intent plain.
Proof.
  eexists _, _.
  split; [unfold valueOf; rewrite optimize_run; reflexivity|].
  split; [unfold valueOf; rewrite optimize_run; reflexivity|].
  split; [reflexivity|]. split; [reflexivity|]. split; [reflexivity|].
  discriminate.
Qed.

(** ** validatePRDAnswer *)

Lemma validatePRDAnswer_run (o : UniversalOptimizer) (answer questionId : string)
    (w : World) (result : OptimizationResult) (w' : World) :
  optimize o answer prd (Some (prdOverride questionId)) w = (Normal result, w') ->
  validatePRDAnswer o answer questionId w
  = (Normal
       (if (overall (quality result) <? 50)%Z
        then mkValidation true (Some (generateFriendlySuggestion result questionId))
               (overall (quality result))
        else mkValidation false None (overall (quality result))),
     w').
Proof.
  intros Hopt. unfold validatePRDAnswer, bind.
  change (mkOverride (Some "question-validation") None (Some questionId)
            (Some "prd-generation")) with (prdOverride questionId).
  rewrite Hopt. destruct (overall (quality result) <? 50)%Z; reflexivity.
Qed.

(** Every phrase list the lookup can yield has three phrases. *)
Lemma phrases_have_three (questionId : string) (phrases : list string) :
  questionSuggestionsFor questionId = Phrases phrases -> List.length phrases = 3.
Proof.
  unfold questionSuggestionsFor, getProperty.
  cbn [assoc suggestionsOwn objectPrototype].
  repeat match goal with
         | |- context [String.eqb ?a questionId] =>
             destruct (String.eqb a questionId)
         end;
    intros H; try discriminate H; injection H as <-; reflexivity.
Qed.

(** On a three-phrase list the two overriding tests pick by specificity
    first, then by completeness. *)
Lemma suggestion_of_phrases (result : OptimizationResult) (questionId : string)
    (phrases : list string) :
  questionSuggestionsFor questionId = Phrases phrases ->
  generateFriendlySuggestion result questionId
  = "adding " ++ showDetail (pickedPhrase phrases (quality result)) ++ " would help".
Proof.
  intros Hq. pose proof (phrases_have_three questionId Hq) as Hlen.
  unfold generateFriendlySuggestion, pickedPhrase. rewrite Hq.
  destruct phrases as [|a [|b [|c [|d rest]]]]; try discriminate Hlen.
  cbn [elementAt minIndex lengthOf List.length].
  destruct (completeness (quality result) <? 40)%Z,
           (specificity (quality result) <? 40)%Z; reflexivity.
Qed.

(** C3 (amended).  [validatePRDAnswer] optimizes the answer in [prd] mode
    (phase [question-validation], intent forced to [prd-generation]) and
    answers [needsClarification = true] exactly when the resulting
    [quality.overall] is below 50.  At 50 and above there is no suggestion.
    Below 50, for a question id whose lookup yields a phrase list, the
    suggestion is [adding <phrase> would help], where the phrase is the
    list's third (the specificity-gap phrase) when specificity is below 40,
    else its second (the completeness-gap phrase) when completeness is
    below 40, else its first. *)
Theorem C3_validatePRDAnswer_suggestion :
  forall (o : UniversalOptimizer) (answer questionId : string) (w : World),
  exists v result w',
    optimize o answer prd (Some (prdOverride questionId)) w = (Normal result, w')
    /\ validatePRDAnswer o answer questionId w = (Normal v, w')
    /\ validation_quality v = overall (quality result)
    /\ needsClarification v = (overall (quality result) <? 50)%Z
    /\ ((50 <= overall (quality result))%Z -> suggestion v = None)
    /\ ((overall (quality result) < 50)%Z ->
        forall phrases,
          questionSuggestionsFor questionId = Phrases phrases ->
          suggestion v
          = Some ("adding " ++ showDetail (pickedPhrase phrases (quality result))
                  ++ " would help")).
Proof.
  intros o answer questionId w.
  pose proof (optimize_run o answer prd (Some (prdOverride questionId)) w) as Hrun.
  cbv zeta in Hrun.
  eexists _, _, _. split; [exact Hrun|].
  split; [apply (validatePRDAnswer_run _ _ _ _ Hrun)|].
  set (result := mkResult _ _ _ _ _ _ _ _).
  destruct (overall (quality result) <? 50)%Z eqn:Hlow; cbn [validation_quality
    needsClarification suggestion].
  - apply Z.ltb_lt in Hlow. repeat split; [lia|].
    intros _ phrases Hq. now rewrite (suggestion_of_phrases result questionId Hq).
  - apply Z.ltb_ge in Hlow. repeat split. lia.
Qed.

Lemma C3_witness :
  exists v w',
    validatePRDAnswer (sampleOptimizer [] vagueQuality) "idk" "q1" sampleWorld
    = (Normal v, w')
    /\ needsClarification v = true
    /\ suggestion v = Some "adding who benefits would help".
Proof.
  destruct (C3_validatePRDAnswer_suggestion (sampleOptimizer [] vagueQuality)
              "idk" "q1" sampleWorld)
    as (v & result & w' & Hopt & Hval & _ & Hneeds & _ & Hsugg).
  rewrite optimize_run in Hopt. injection Hopt as <- _.
  exists v, w'. split; [exact Hval|].
  split; [exact Hneeds|].
  apply (Hsugg eq_refl ["the problem you're solving"; "why this matters"; "who benefits"]).
  reflexivity.
Defined.

(** C3, as stated, fails: for an answer with completeness and specificity
    both below 40, the claim selects q1's completeness-gap phrase
    ([why this matters]), but the returned suggestion carries the
    specificity-gap phrase ([who benefits]). *)
Lemma C3_counterexample :
  valueOf (validatePRDAnswer (sampleOptimizer [] vagueQuality) "idk" "q1") sampleWorld
  = Normal (mkValidation true (Some "adding who benefits would help") 40)
  /\ questionSuggestionsFor "q1"
     = Phrases ["the problem you're solving"; "why this matters"; "who benefits"]
  /\ specSuggestion ["the problem you're solving"; "why this matters"; "who benefits"]
       vagueQuality
     = Some "why this matters"
  /\ "adding who benefits would help" <> "adding why this matters would help".
Proof.
  split.
  { unfold valueOf.
    rewrite (validatePRDAnswer_run _ _ _ _ (optimize_run _ _ _ _ _)). reflexivity. }
  split; [reflexivity|]. split; [reflexivity | discriminate].
Qed.

(** The specification's scenario: a vague answer to q1 without a stronger
    completeness or specificity signal gets q1's first suggestion. *)
Example vague_q1_answer_gets_first_suggestion :
  valueOf (validatePRDAnswer (sampleOptimizer [] shortQuality) "idk" "q1") sampleWorld
  = Normal (mkValidation true (Some "adding the problem you're solving would help") 45).
Proof.
  unfold valueOf.
  rewrite (validatePRDAnswer_run _ _ _ _ (optimize_run _ _ _ _ _)). reflexivity.
Qed.

(** ** Unknown question ids *)

(** A question id that is neither a key of the table nor a property of
    [Object.prototype] gets q5's phrases. *)
Lemma unknown_id_falls_back_to_q5 (questionId : string) :
  assoc questionId suggestionsOwn = None ->
  assoc questionId objectPrototype = None ->
  questionSuggestionsFor questionId = Phrases q5Phrases.
Proof.
  intros Hown Hproto. unfold questionSuggestionsFor, getProperty.
  rewrite Hown, Hproto. reflexivity.
Qed.

(** For such an id a vague answer gets one of q5's three suggestions. *)
Lemma unknown_id_suggestion_from_q5 (o : UniversalOptimizer) (answer questionId : string)
    (w : World) :
  assoc questionId suggestionsOwn = None ->
  assoc questionId objectPrototype = None ->
  exists v result w',
    optimize o answer prd (Some (prdOverride questionId)) w = (Normal result, w')
    /\ validatePRDAnswer o answer questionId w = (Normal v, w')
    /\ ((overall (quality result) < 50)%Z ->
        exists phrase,
          In phrase q5Phrases
          /\ suggestion v = Some ("adding " ++ phrase ++ " would help")).
Proof.
  intros Hown Hproto.
  pose proof (unknown_id_falls_back_to_q5 questionId Hown Hproto) as Hq.
  pose proof (optimize_run o answer prd (Some (prdOverride questionId)) w) as Hrun.
  cbv zeta in Hrun.
  eexists _, _, _. split; [exact Hrun|].
  split; [apply (validatePRDAnswer_run _ _ _ _ Hrun)|].
  set (result := mkResult _ _ _ _ _ _ _ _).
  intros Hlow. apply Z.ltb_lt in Hlow. rewrite Hlow. cbn [suggestion].
  rewrite (suggestion_of_phrases result questionId Hq).
  unfold pickedPhrase, q5Phrases.
  destruct (specificity (quality result) <? 40)%Z;
    [|destruct (completeness (quality result) <? 40)%Z];
    cbn [nth_error showDetail]; eexists; (split; [|reflexivity]); simpl; tauto.
Qed.

(** C10 at the question id [constructor], which is outside q1-q5: the
    lookup finds the property every object inherits, so q5's list is not
    used, and the suggestion of a vague answer reads
    [adding undefined would help], which is none of q5's three
    suggestions. *)
Theorem C10_inherited_key_defeats_fallback :
  assoc "constructor" suggestionsOwn = None
  /\ questionSuggestionsFor "constructor" = BuiltinFunction 1
  /\ valueOf (validatePRDAnswer (sampleOptimizer [] vagueQuality) "idk" "constructor")
       sampleWorld
     = Normal (mkValidation true (Some "adding undefined would help") 40)
  /\ (forall phrase,
         In phrase q5Phrases ->
         "adding undefined would help" <> "adding " ++ phrase ++ " would help").
Proof.
  split; [reflexivity|]. split; [reflexivity|]. split.
  { unfold valueOf.
    rewrite (validatePRDAnswer_run _ _ _ _ (optimize_run _ _ _ _ _)). reflexivity. }
  intros phrase [<-|[<-|[<-|[]]]]; discriminate.
Qed.

(* ================================================================== *)
(** * Properties of the escalation analysis                             *)
(* ================================================================== *)

Local Open Scope Z_scope.

Lemma roundDiv_nonneg (num den : Z) : 0 <= num -> 0 < den -> 0 <= roundDiv num den.
Proof. intros Hn Hd. unfold roundDiv. apply Z.div_pos; lia. Qed.

Lemma roundDiv_mono (a b den : Z) : a <= b -> 0 < den -> roundDiv a den <= roundDiv b den.
Proof. intros Hab Hd. unfold roundDiv. apply Z.div_le_mono; lia. Qed.

Lemma addFactor_total (b : bool) (n d : string) (c : Z) (t : Tally) :
  totalScore (addFactor b n c d t) = totalScore t + (if b then c else 0).
Proof. destruct b; simpl; lia. Qed.

(** The running total after the eight factors. *)
Lemma tally_total (result : OptimizationResult) (q : QualityScore) :
  let i := result_intent result in
  totalScore (tally result q)
  = (if Js.arrayIncludes ["planning"; "prd-generation"]%string (primaryIntent i)
     then 30 else 0)
    + (if confidence i <? 60 then roundDiv (60 - confidence i) 3 else 0)
    + (if overall q <? 65 then roundDiv (10 * (65 - overall q)) 26 else 0)
    + (if completeness q <? 60 then 15 else 0)
    + (if specificity q <? 60 then 15 else 0)
    + (if isOpenEnded (characteristics i) && needsStructure (characteristics i)
       then 20 else 0)
    + (if (Z.of_nat (String.length (original result)) <? 50) && (completeness q <? 70)
       then 15 else 0)
    + (if Js.arrayIncludes ["migration"; "security-review"]%string (primaryIntent i)
       then 20 else 0).
Proof.
  intros i. unfold tally. fold i.
  rewrite !addFactor_total. cbn [totalScore]. lia.
Qed.

Lemma tally_total_nonneg (result : OptimizationResult) (q : QualityScore) :
  0 <= totalScore (tally result q).
Proof.
  rewrite tally_total. cbv zeta.
  assert (H2 : 0 <= (if confidence (result_intent result) <? 60
                     then roundDiv (60 - confidence (result_intent result)) 3 else 0)).
  { destruct (Z.ltb_spec (confidence (result_intent result)) 60);
      [apply roundDiv_nonneg; lia | lia]. }
  assert (H3 : 0 <= (if overall q <? 65 then roundDiv (10 * (65 - overall q)) 26 else 0)).
  { destruct (Z.ltb_spec (overall q) 65); [apply roundDiv_nonneg; lia | lia]. }
  repeat match goal with
         | |- context [if ?b then 30 else 0] => destruct b
         | |- context [if ?b then 20 else 0] => destruct b
         | |- context [if ?b then 15 else 0] => destruct b
         end; lia.
Qed.

Lemma addFactor_rows (b : bool) (n d : string) (c : Z) (t : Tally) :
  map (fun r => (factor r, contribution r)) (tally_reasons (addFactor b n c d t))
  = (map (fun r => (factor r, contribution r)) (tally_reasons t)
     ++ (if b then [(n, c)] else []))%list.
Proof.
  destruct b; simpl; [|now rewrite app_nil_r].
  rewrite map_app. reflexivity.
Qed.

Lemma fired_cons (row : FactorRow) (table : list FactorRow) :
  map (fun row => (row_factor row, row_contribution row)) (fired (row :: table))
  = ((if row_trigger row then [(row_factor row, row_contribution row)] else [])
     ++ map (fun row => (row_factor row, row_contribution row)) (fired table))%list.
Proof. unfold fired. simpl. destruct (row_trigger row); reflexivity. Qed.

Lemma uncappedSum_cons (row : FactorRow) (table : list FactorRow) :
  uncappedSum (row :: table)
  = (if row_trigger row then row_contribution row else 0) + uncappedSum table.
Proof. unfold uncappedSum, fired. simpl. destruct (row_trigger row); simpl; lia. Qed.

Lemma arrayIncludes_two (a b x : string) :
  Js.arrayIncludes [a; b] x = (String.eqb x a || String.eqb x b)%bool.
Proof. unfold Js.arrayIncludes. simpl. now rewrite orb_false_r. Qed.

(** The reasons are the fired rows of the specification's table, in
    order, and the total is their uncapped sum. *)
Lemma tally_follows_table (result : OptimizationResult) (q : QualityScore) :
  let table :=
    factorTable (result_intent result) q (Z.of_nat (String.length (original result))) in
  map (fun r => (factor r, contribution r)) (tally_reasons (tally result q))
  = map (fun row => (row_factor row, row_contribution row)) (fired table)
  /\ totalScore (tally result q) = uncappedSum table.
Proof.
  cbv zeta. split.
  - unfold tally, factorTable.
    rewrite !addFactor_rows, !fired_cons, !arrayIncludes_two.
    cbn [row_trigger row_factor row_contribution tally_reasons map fired filter].
    rewrite <- !app_assoc, app_nil_r. reflexivity.
  - rewrite tally_total. unfold factorTable.
    rewrite !uncappedSum_cons, !arrayIncludes_two.
    cbn [row_trigger row_contribution].
    unfold uncappedSum, fired. cbn [filter fold_right]. lia.
Qed.

(** [analyzeEscalation] reads the original text and the intent of a
    result, nothing else. *)
Lemma analyzeEscalation_reads_original (o : UniversalOptimizer)
    (result result' : OptimizationResult) :
  original result' = original result ->
  result_intent result' = result_intent result ->
  analyzeEscalation o result' = analyzeEscalation o result.
Proof.
  intros Ho Hi.
  unfold analyzeEscalation, tally, generateDeepModeValue.
  rewrite Ho, Hi. reflexivity.
Qed.

(** C1.  For every result, with [q] the quality the assessor gives to
    [result.original] (not to the enhanced text): the reasons of
    [analyzeEscalation] are exactly the rows of the factor table whose
    trigger holds, in the table's order and with the table's contributions
    (30 for planning / prd-generation, [round((60 - confidence) / 3)] for
    confidence below 60, [round((65 - overall) / 2.6)] for overall below
    65, 15 for completeness below 60, 15 for specificity below 60, 20 for
    open-ended and needing structure, 15 for a length below 50 code units
    with completeness below 70, 20 for migration / security-review); with
    [total] their uncapped sum, [escalationScore] is [total] clamped to
    [0, 100], [shouldEscalate] is [total >= 45], and the confidence is
    high iff [total >= 75], medium iff [60 <= total < 75], low otherwise;
    and the analysis is the same for any result with the same original
    text and intent, whatever its enhanced text and quality. *)
Theorem C1_escalation_follows_factor_table :
  forall (o : UniversalOptimizer) (result : OptimizationResult),
    let q :=
      assessQuality (qualityAssessor o) (original result)
        (primaryIntent (result_intent result)) in
    let table :=
      factorTable (result_intent result) q (Z.of_nat (String.length (original result))) in
    let total := uncappedSum table in
    let a := analyzeEscalation o result in
    map (fun r => (factor r, contribution r)) (reasons a)
    = map (fun row => (row_factor row, row_contribution row)) (fired table)
    /\ escalationScore a = clamp 0 100 total
    /\ 0 <= escalationScore a <= 100
    /\ shouldEscalate a = (45 <=? total)
    /\ (escalationConfidence a = conf_high <-> 75 <= total)
    /\ (escalationConfidence a = conf_medium <-> 60 <= total < 75)
    /\ (escalationConfidence a = conf_low <-> total < 60)
    /\ (forall result',
           original result' = original result ->
           result_intent result' = result_intent result ->
           analyzeEscalation o result' = a).
Proof.
  intros o result q table total a.
  destruct (tally_follows_table result q) as [Hrows Htotal].
  fold table in Hrows, Htotal. fold total in Htotal.
  pose proof (tally_total_nonneg result q) as Hnonneg. rewrite Htotal in Hnonneg.
  assert (Hsame : forall result',
             original result' = original result ->
             result_intent result' = result_intent result ->
             analyzeEscalation o result' = a)
    by (intros result' Ho Hi; now apply analyzeEscalation_reads_original).
  clearbody a.
  assert (Ha : reasons a = tally_reasons (tally result q)
               /\ escalationScore a = Z.min total 100
               /\ shouldEscalate a = (45 <=? total)
               /\ escalationConfidence a
                  = (if 75 <=? total then conf_high
                     else if 60 <=? total then conf_medium else conf_low)).
  { rewrite <- (Hsame result eq_refl eq_refl).
    unfold analyzeEscalation. fold q.
    cbn [reasons escalationScore shouldEscalate escalationConfidence].
    rewrite Htotal. repeat split. }
  destruct Ha as (Hr & Hs & Hsh & Hc).
  rewrite Hr, Hs, Hsh, Hc.
  split; [exact Hrows|].
  split; [unfold clamp; lia|].
  split; [lia|].
  split; [reflexivity|].
  destruct (Z.leb_spec 75 total), (Z.leb_spec 60 total);
    (split; [split; intros; (congruence || lia)|]);
    (split; [split; intros; (congruence || lia)|]);
    (split; [split; intros; (congruence || lia)|]);
    exact Hsame.
Qed.

Lemma C1_witness :
  escalationScore (analyzeEscalation (sampleOptimizer [] vagueQuality) loginResult) = 58
  /\ shouldEscalate (analyzeEscalation (sampleOptimizer [] vagueQuality) loginResult) = true
  /\ escalationConfidence (analyzeEscalation (sampleOptimizer [] vagueQuality) loginResult)
     = conf_low.
Proof.
  destruct (C1_escalation_follows_factor_table (sampleOptimizer [] vagueQuality) loginResult)
    as (_ & Hscore & _ & Hshould & _ & _ & Hlow & _).
  split; [rewrite Hscore; reflexivity|].
  split; [rewrite Hshould; reflexivity|].
  apply Hlow. reflexivity.
Defined.

(** The length of the original is counted in code units: thirty accented
    letters are a short prompt, and the length factor fires. *)
Example accented_original_is_short :
  String.length (original accentedResult) = 30%nat
  /\ map factor (reasons (analyzeEscalation (sampleOptimizer [] fairQuality) accentedResult))
     = ["length-mismatch"]
  /\ escalationScore (analyzeEscalation (sampleOptimizer [] fairQuality) accentedResult)
     = 15%Z.
Proof. vm_compute. repeat split. Qed.

(** ** Monotonicity *)



(* ================================================================== *)
(** * Properties of the conversation quality tracker                    *)
(* ================================================================== *)

Section TrackerFacts.
Import ConversationQualityTracker.

Lemma mapGet_none (key : string) (m : list (string * TrackedTopic)) :
  mapGet key m = None <-> ~ In key (map fst m).
Proof.
  induction m as [|[k v] m IH]; simpl; [tauto|].
  destruct (string_eqb_spec k key) as [->|Hne].
  - split; [discriminate | tauto].
  - rewrite IH. tauto.
Qed.

Lemma mapGet_in (key : string) (m : list (string * TrackedTopic)) (t : TrackedTopic) :
  mapGet key m = Some t -> In (key, t) m.
Proof.
  induction m as [|[k v] m IH]; simpl; [discriminate|].
  destruct (string_eqb_spec k key) as [->|Hne].
  - intros [= ->]. now left.
  - intros H. right. now apply IH.
Qed.

Lemma mapGet_mapSet_same (key : string) (value : TrackedTopic)
    (m : list (string * TrackedTopic)) :
  mapGet key (mapSet key value m) = Some value.
Proof.
  induction m as [|[k v] m IH]; simpl.
  - now rewrite string_eqb_refl.
  - destruct (string_eqb_spec k key) as [->|Hne]; simpl.
    + now rewrite string_eqb_refl.
    + destruct (string_eqb_spec k key); [contradiction | exact IH].
Qed.

Lemma mapGet_mapSet_other (key other : string) (value : TrackedTopic)
    (m : list (string * TrackedTopic)) :
  other <> key -> mapGet key (mapSet other value m) = mapGet key m.
Proof.
  intros Hne. induction m as [|[k v] m IH]; simpl.
  - destruct (string_eqb_spec other key); [contradiction | reflexivity].
  - destruct (string_eqb_spec k other) as [->|Hko]; simpl.
    + destruct (string_eqb_spec other key); [contradiction | reflexivity].
    + destruct (string_eqb_spec k key); [reflexivity | exact IH].
Qed.

(** Setting a key keeps the keys, or adds the new key last. *)
Lemma mapSet_keys (key : string) (value : TrackedTopic)
    (m : list (string * TrackedTopic)) :
  map fst (mapSet key value m)
  = match mapGet key m with
    | Some _ => map fst m
    | None => (map fst m ++ [key])%list
    end.
Proof.
  induction m as [|[k v] m IH]; simpl; [reflexivity|].
  destruct (string_eqb_spec k key) as [->|Hne]; simpl; [reflexivity|].
  rewrite IH. destruct (mapGet key m); reflexivity.
Qed.

Lemma mapSet_NoDup (key : string) (value : TrackedTopic)
    (m : list (string * TrackedTopic)) :
  NoDup (map fst m) -> NoDup (map fst (mapSet key value m)).
Proof.
  intros Hnd. rewrite mapSet_keys.
  destruct (mapGet key m) eqn:Hget; [exact Hnd|].
  apply mapGet_none in Hget.
  apply NoDup_app; [exact Hnd | repeat constructor; intros [] |].
  intros a Ha [<-|[]]. contradiction.
Qed.

Lemma mapSet_Forall (P : string * TrackedTopic -> Prop) (key : string)
    (value : TrackedTopic) (m : list (string * TrackedTopic)) :
  Forall P m -> P (key, value) -> Forall P (mapSet key value m).
Proof.
  intros Hm Hv. induction m as [|[k v] m IH]; simpl.
  - now constructor.
  - apply Forall_cons_iff in Hm as [Hk Hm].
    destruct (string_eqb_spec k key) as [->|Hne]; constructor; auto.
Qed.

Lemma orNumber_zero (a : Z) : orNumber a 0 = a.
Proof. unfold orNumber. destruct (Z.eqb_spec a 0); congruence. Qed.

Lemma orNumber_nonzero (a b : Z) : a <> 0%Z -> orNumber a b = a.
Proof. unfold orNumber. destruct (Z.eqb_spec a 0); congruence. Qed.

(** What an entry of the keyword table does to the counters: nothing. *)
Lemma analyzeEntry_counters (lower : string) (st : Tracker) (entry : string * list string) :
  messageCount (analyzeEntry lower st entry) = messageCount st
  /\ hasNudged (analyzeEntry lower st entry) = hasNudged st
  /\ lastCheckpointAt (analyzeEntry lower st entry) = lastCheckpointAt st.
Proof.
  destruct entry as [topic keywords]. unfold analyzeEntry.
  destruct (0 <? _)%Z; repeat split.
Qed.

Lemma analyzeTopics_counters (content : string) (st : Tracker) :
  messageCount (analyzeTopics content st) = messageCount st
  /\ hasNudged (analyzeTopics content st) = hasNudged st
  /\ lastCheckpointAt (analyzeTopics content st) = lastCheckpointAt st.
Proof.
  unfold analyzeTopics. generalize TOPIC_KEYWORDS as entries.
  intros entries. revert st.
  induction entries as [|e es IH]; intros st; simpl; [repeat split|].
  destruct (IH (analyzeEntry (Js.toLowerCase content) st e)) as (H1 & H2 & H3).
  destruct (analyzeEntry_counters (Js.toLowerCase content) st e) as (E1 & E2 & E3).
  rewrite H1, H2, H3. auto.
Qed.

Lemma trackMessage_counters (content : string) (st : Tracker) :
  messageCount (trackMessage content st) = (messageCount st + 1)%Z
  /\ hasNudged (trackMessage content st) = hasNudged st
  /\ lastCheckpointAt (trackMessage content st) = lastCheckpointAt st.
Proof.
  unfold trackMessage.
  destruct (analyzeTopics_counters content
              (mkTracker (topics st) (messageCount st + 1) (hasNudged st)
                 (lastCheckpointAt st))) as (-> & -> & ->).
  repeat split.
Qed.

Lemma analyzeEntry_wellFormed (lower : string) (st : Tracker)
    (entry : string * list string) :
  In (fst entry) (map fst TOPIC_KEYWORDS) ->
  (1 <= messageCount st)%Z ->
  WellFormed st -> WellFormed (analyzeEntry lower st entry).
Proof.
  destruct entry as [topic keywords]. intros Hin Hcount (Hcp & Hnd & Hall).
  unfold analyzeEntry.
  destruct (0 <? Z.of_nat (List.length _))%Z eqn:Hmatched; [|now repeat split].
  apply Z.ltb_lt in Hmatched.
  split; [exact Hcp|]. split; [now apply mapSet_NoDup|].
  cbn [topics messageCount]. apply mapSet_Forall; [exact Hall|].
  unfold EntryOk. cbn [fst snd name confidence firstMentioned].
  split; [exact Hin|]. split; [reflexivity|].
  destruct (mapGet topic (topics st)) as [t|] eqn:Hget.
  - apply mapGet_in in Hget.
    rewrite Forall_forall in Hall. destruct (Hall _ Hget) as (_ & _ & Hc & Hf).
    cbn [snd] in Hc, Hf.
    rewrite orNumber_zero, orNumber_nonzero by lia. lia.
  - lia.
Qed.

Lemma analyzeTopics_wellFormed (content : string) (st : Tracker) :
  (1 <= messageCount st)%Z -> WellFormed st -> WellFormed (analyzeTopics content st).
Proof.
  unfold analyzeTopics.
  assert (G : forall entries st,
             incl (map fst entries) (map fst TOPIC_KEYWORDS) ->
             (1 <= messageCount st)%Z -> WellFormed st ->
             WellFormed (fold_left (analyzeEntry (Js.toLowerCase content)) entries st)).
  { induction entries as [|e es IH]; intros st0 Hincl Hc Hwf; simpl; [exact Hwf|].
    apply IH.
    - intros x Hx. apply Hincl. now right.
    - destruct (analyzeEntry_counters (Js.toLowerCase content) st0 e) as (-> & _). exact Hc.
    - apply analyzeEntry_wellFormed; [apply Hincl; now left | exact Hc | exact Hwf]. }
  apply G. apply incl_refl.
Qed.

Lemma trackMessage_wellFormed (content : string) (st : Tracker) :
  WellFormed st -> WellFormed (trackMessage content st).
Proof.
  intros (Hcp & Hnd & Hall). unfold trackMessage.
  apply analyzeTopics_wellFormed; cbn [messageCount]; [lia|].
  split; [cbn [lastCheckpointAt messageCount]; lia|]. split; [exact Hnd|].
  cbn [topics messageCount]. eapply Forall_impl; [|exact Hall].
  intros e (H1 & H2 & H3 & H4). repeat split; try tauto; lia.
Qed.

Lemma step_wellFormed (st : Tracker) (c : Call) :
  WellFormed st -> WellFormed (snd (step st c)).
Proof.
  intros Hwf. destruct c; cbn [step snd]; try exact Hwf.
  - now apply trackMessage_wellFormed.
  - unfold getPositiveCheckpoint.
    destruct ((messageCount st <? 5)%Z || (messageCount st - lastCheckpointAt st <? 5)%Z);
      [exact Hwf|].
    destruct Hwf as (Hcp & Hnd & Hall).
    destruct (List.length _ =? 0)%nat; cbn [snd];
      (split; [cbn [lastCheckpointAt messageCount]; lia | now split]).
  - unfold shouldNudge.
    destruct (hasNudged st); [exact Hwf|].
    destruct (messageCount st <? 3)%Z; [exact Hwf|].
    destruct (40 <=? _)%Z; [exact Hwf|].
    destruct (findCriticalGap st); exact Hwf.
  - unfold reset, WellFormed. cbn [topics messageCount lastCheckpointAt map].
    repeat split; try lia; constructor.
Qed.

Lemma session_snd (st : Tracker) (c : Call) (rest : list Call) :
  session st (c :: rest)
  = (fst (step st c) :: fst (session (snd (step st c)) rest),
     snd (session (snd (step st c)) rest)).
Proof.
  cbn [session]. destruct (step st c) as [a st'].
  cbn [fst snd]. destruct (session st' rest); reflexivity.
Qed.

Lemma initial_wellFormed : WellFormed initial.
Proof.
  unfold initial, WellFormed. cbn [topics messageCount lastCheckpointAt map].
  repeat split; try lia; constructor.
Qed.

Lemma NoDup_incl_le (l l' : list string) :
  NoDup l -> incl l l' -> (List.length l <= List.length l')%nat.
Proof. intros Hnd Hincl. now apply NoDup_incl_length. Qed.

(** X1.  Whatever calls a session makes on a new tracker, the tracker is
    well formed at the end: the map holds at most eight topics, each once
    and each one of the table's topics stored under its own name, with a
    confidence from 25 to 100 and a first mention between message 1 and
    the current message count; and the last checkpoint is not past the
    message count. *)
Theorem X1_tracker_stays_well_formed :
  forall (calls : list Call),
    let final := snd (session initial calls) in
    WellFormed final /\ (List.length (topics final) <= 8)%nat.
Proof.
  intros calls.
  assert (G : forall st, WellFormed st -> WellFormed (snd (session st calls))).
  { induction calls as [|c rest IH]; intros st Hwf; [exact Hwf|].
    rewrite session_snd. cbn [snd]. apply IH, step_wellFormed, Hwf. }
  pose proof initial_wellFormed as Hinit.
  cbv zeta. split; [apply G, Hinit|].
  destruct (G initial Hinit) as (_ & Hnd & Hall).
  rewrite <- (length_map fst).
  change 8%nat with (List.length (map fst TOPIC_KEYWORDS)).
  apply NoDup_incl_le; [exact Hnd|].
  intros k Hk. apply in_map_iff in Hk as (e & <- & He).
  rewrite Forall_forall in Hall. apply (Hall e He).
Qed.

End TrackerFacts.

Section TrackerSessions.
Import ConversationQualityTracker.

(** ** Tracking only adds *)

Lemma analyzeEntry_grows (lower : string) (st : Tracker) (entry : string * list string)
    (key : string) (t : TrackedTopic) :
  (exists t', mapGet key (topics st) = Some t'
              /\ (confidence t <= confidence t' <= 100)%Z
              /\ firstMentioned t' = firstMentioned t
              /\ firstMentioned t <> 0%Z) ->
  exists t', mapGet key (topics (analyzeEntry lower st entry)) = Some t'
             /\ (confidence t <= confidence t' <= 100)%Z
             /\ firstMentioned t' = firstMentioned t
             /\ firstMentioned t <> 0%Z.
Proof.
  intros (t' & Hget & Hconf & Hfirst & Hnz).
  destruct entry as [topic keywords]. unfold analyzeEntry.
  destruct (0 <? Z.of_nat (List.length _))%Z eqn:Hmatched; [|now exists t'].
  apply Z.ltb_lt in Hmatched. cbn [topics].
  destruct (string_eqb_spec topic key) as [->|Hne].
  - rewrite mapGet_mapSet_same, Hget. eexists. split; [reflexivity|].
    cbn [confidence firstMentioned].
    rewrite orNumber_zero, orNumber_nonzero by congruence.
    repeat split; try lia; congruence.
  - rewrite mapGet_mapSet_other by exact Hne. now exists t'.
Qed.

(** X2.  In a well-formed state, tracking a message never forgets a topic,
    never lowers its confidence and never changes the message at which it
    was first mentioned. *)
Theorem X2_tracking_only_adds :
  forall (st : Tracker) (content key : string) (t : TrackedTopic),
    WellFormed st ->
    mapGet key (topics st) = Some t ->
    exists t',
      mapGet key (topics (trackMessage content st)) = Some t'
      /\ (confidence t <= confidence t')%Z
      /\ firstMentioned t' = firstMentioned t.
Proof.
  intros st content key t (Hcp & Hnd & Hall) Hget.
  pose proof (mapGet_in _ _ Hget) as Hin.
  rewrite Forall_forall in Hall. destruct (Hall _ Hin) as (_ & _ & Hc & Hf).
  cbn [snd] in Hc, Hf.
  unfold trackMessage, analyzeTopics.
  set (st0 := mkTracker _ _ _ _).
  assert (G : forall entries st1,
             (exists t', mapGet key (topics st1) = Some t'
                         /\ (confidence t <= confidence t' <= 100)%Z
                         /\ firstMentioned t' = firstMentioned t
                         /\ firstMentioned t <> 0%Z) ->
             exists t', mapGet key
                          (topics (fold_left (analyzeEntry (Js.toLowerCase content))
                                     entries st1)) = Some t'
                        /\ (confidence t <= confidence t' <= 100)%Z
                        /\ firstMentioned t' = firstMentioned t
                        /\ firstMentioned t <> 0%Z).
  { induction entries as [|e es IH]; intros st1 H1; simpl; [exact H1|].
    apply IH. now apply analyzeEntry_grows. }
  destruct (G TOPIC_KEYWORDS st0) as (t' & H1 & H2 & H3 & _).
  { exists t. repeat split; try lia. exact Hget. }
  exists t'. repeat split; [exact H1 | lia | exact H3].
Qed.

Lemma X2_witness :
  exists t',
    mapGet "features"
      (topics (trackMessage "it must scale" (trackMessage "I want a feature" initial)))
    = Some t'
    /\ (50 <= confidence t')%Z
    /\ firstMentioned t' = 1%Z.
Proof.
  apply (@X2_tracking_only_adds (trackMessage "I want a feature" initial)
           "it must scale" "features" (mkTopic "features" 50 1)).
  - apply trackMessage_wellFormed, initial_wellFormed.
  - reflexivity.
Defined.

(** ** At most one nudge *)

Lemma shouldNudge_sets_flag (st : Tracker) :
  hasNudged (snd (shouldNudge st)) = hasNudged st || nudge (fst (shouldNudge st)).
Proof.
  unfold shouldNudge.
  destruct (hasNudged st) eqn:Hn;
    [|destruct (messageCount st <? 3)%Z;
      [|destruct (40 <=? _)%Z; [|destruct (findCriticalGap st)]]];
    cbn [fst snd nudge hasNudged]; rewrite ?Hn; reflexivity.
Qed.

Lemma shouldNudge_after_nudge (st : Tracker) :
  hasNudged st = true -> nudge (fst (shouldNudge st)) = false.
Proof. intros H. unfold shouldNudge. now rewrite H. Qed.

(** Every call but [reset] keeps the flag, and only a true nudge sets it. *)
Lemma step_flag (st : Tracker) (c : Call) :
  isReset c = false ->
  hasNudged (snd (step st c)) = hasNudged st || isTrueNudge (fst (step st c)).
Proof.
  intros Hr. destruct c; cbn [step fst snd isTrueNudge]; try discriminate Hr;
    rewrite ?orb_false_r; try reflexivity.
  - apply trackMessage_counters.
  - unfold getPositiveCheckpoint.
    destruct (_ || _); [now rewrite orb_false_r|].
    destruct (List.length _ =? 0)%nat; cbn; now rewrite orb_false_r.
  - destruct (shouldNudge st) as [r st'] eqn:E. cbn [fst snd isTrueNudge].
    pose proof (shouldNudge_sets_flag st) as H. now rewrite E in H.
Qed.

Lemma step_after_nudge (st : Tracker) (c : Call) :
  hasNudged st = true -> isTrueNudge (fst (step st c)) = false.
Proof.
  intros H. destruct c; cbn [step fst isTrueNudge]; try reflexivity.
  - destruct (getPositiveCheckpoint st); reflexivity.
  - destruct (shouldNudge st) as [r st'] eqn:E. cbn [fst isTrueNudge].
    pose proof (shouldNudge_after_nudge st H) as Hn. now rewrite E in Hn.
Qed.

Lemma no_nudge_after_nudge (calls : list Call) (st : Tracker) :
  forallb (fun c => negb (isReset c)) calls = true ->
  hasNudged st = true ->
  filter isTrueNudge (fst (session st calls)) = [].
Proof.
  revert st. induction calls as [|c rest IH]; intros st Hcalls Hn; [reflexivity|].
  cbn [forallb] in Hcalls. apply andb_true_iff in Hcalls as [Hc Hrest].
  apply negb_true_iff in Hc.
  rewrite session_snd. cbn [fst filter].
  rewrite (step_after_nudge st c Hn).
  apply IH; [exact Hrest|].
  rewrite (step_flag st c Hc), Hn. reflexivity.
Qed.

(** X3.  In a session without [reset], from any state, at most one call of
    [shouldNudge] answers [shouldNudge: true]. *)
Theorem X3_at_most_one_nudge :
  forall (st : Tracker) (calls : list Call),
    forallb (fun c => negb (isReset c)) calls = true ->
    (List.length (filter isTrueNudge (fst (session st calls))) <= 1)%nat.
Proof.
  intros st calls. revert st.
  induction calls as [|c rest IH]; intros st Hcalls; [cbn; lia|].
  cbn [forallb] in Hcalls. apply andb_true_iff in Hcalls as [Hc Hrest].
  apply negb_true_iff in Hc.
  rewrite session_snd. cbn [fst filter].
  destruct (isTrueNudge (fst (step st c))) eqn:Htrue.
  - rewrite (no_nudge_after_nudge rest (snd (step st c)) Hrest); [cbn; lia|].
    rewrite (step_flag st c Hc), Htrue. apply orb_true_r.
  - apply IH, Hrest.
Qed.

Lemma X3_witness :
  (List.length (filter isTrueNudge (fst (session initial sampleCalls))) <= 1)%nat.
Proof. apply (@X3_at_most_one_nudge initial sampleCalls). reflexivity. Defined.

(** ** When a nudge is given *)

Lemma low_completeness_few_covered (covered : nat) :
  (40 <=? Z.min 100 (roundDiv (Z.of_nat covered * 100)
                       (Z.of_nat (List.length TOPIC_KEYWORDS))))%Z = false ->
  (covered <= 3)%nat.
Proof.
  intros H. apply Z.leb_gt in H.
  change (Z.of_nat (List.length TOPIC_KEYWORDS)) with 8%Z in H.
  destruct (Nat.le_gt_cases covered 3) as [Hle|Hgt]; [exact Hle|].
  assert (Hr : (roundDiv 400 8 <= roundDiv (Z.of_nat covered * 100) 8)%Z)
    by (apply roundDiv_mono; lia).
  change (roundDiv 400 8) with 50%Z in Hr. lia.
Qed.

Lemma tracked_confidence (st : Tracker) (key : string) (t : TrackedTopic) :
  WellFormed st -> mapGet key (topics st) = Some t -> (25 <= confidence t)%Z.
Proof.
  intros (_ & _ & Hall) Hget. apply mapGet_in in Hget.
  rewrite Forall_forall in Hall. apply (Hall _ Hget).
Qed.

(** X4.  In a well-formed state, when [shouldNudge] answers true: no nudge
    was given before, at least three messages were tracked, at most three
    topics are covered (confidence 30 or more), and the gap it names is
    [features] or [goals], a topic that no message has mentioned so far
    ([goals] only when [features] was mentioned); the message names that
    gap. *)
Theorem X4_nudge_names_unmentioned_critical_topic :
  forall (st st' : Tracker) (r : NudgeResult),
    WellFormed st ->
    shouldNudge st = (r, st') ->
    nudge r = true ->
    hasNudged st = false
    /\ (3 <= messageCount st)%Z
    /\ (List.length (filter (fun t => (30 <=? confidence t)%Z) (mapValues (topics st)))
        <= 3)%nat
    /\ exists g,
         gap r = Some g
         /\ In g CRITICAL_TOPICS
         /\ mapGet g (topics st) = None
         /\ (g = "goals" -> mapGet "features" (topics st) <> None)
         /\ nudge_message r
            = Some ("💡 One thought: a note about " ++ g
                    ++ " would help. No worries—Clavix will fill gaps when you summarize.").
Proof.
  intros st st' r Hwf Hcall Htrue. unfold shouldNudge in Hcall.
  destruct (hasNudged st) eqn:Hn;
    [injection Hcall as <- _; discriminate Htrue|].
  destruct (messageCount st <? 3)%Z eqn:Hcount;
    [injection Hcall as <- _; discriminate Htrue|].
  apply Z.ltb_ge in Hcount.
  destruct (40 <=? overallCompleteness (calculateQuality st))%Z eqn:Hlow;
    [injection Hcall as <- _; discriminate Htrue|].
  apply low_completeness_few_covered in Hlow.
  destruct (findCriticalGap st) as [g|] eqn:Hgap;
    [|injection Hcall as <- _; discriminate Htrue].
  injection Hcall as <- _. cbn [gap nudge_message].
  split; [reflexivity|]. split; [exact Hcount|]. split; [exact Hlow|].
  exists g. split; [reflexivity|].
  unfold findCriticalGap, CRITICAL_TOPICS in Hgap. cbn [firstGap] in Hgap.
  destruct (mapGet "features" (topics st)) as [tf|] eqn:Hf.
  - pose proof (tracked_confidence _ Hwf Hf) as Hcf.
    destruct (Z.ltb_spec (confidence tf) 20); [lia|].
    destruct (mapGet "goals" (topics st)) as [tg|] eqn:Hg.
    + pose proof (tracked_confidence _ Hwf Hg) as Hcg.
      destruct (Z.ltb_spec (confidence tg) 20); [lia | discriminate Hgap].
    + injection Hgap as <-.
      split; [cbn; tauto|]. split; [exact Hg|]. split; [discriminate | reflexivity].
  - injection Hgap as <-.
    split; [cbn; tauto|]. split; [exact Hf|]. split; [discriminate | reflexivity].
Qed.

Lemma X4_witness :
  gap (fst (shouldNudge (trackAll ["I want a feature"; "we use React"; "hello"] initial)))
  = Some "goals".
Proof.
  destruct (@X4_nudge_names_unmentioned_critical_topic
              (trackAll ["I want a feature"; "we use React"; "hello"] initial)
              (snd (shouldNudge (trackAll ["I want a feature"; "we use React"; "hello"]
                                   initial)))
              (fst (shouldNudge (trackAll ["I want a feature"; "we use React"; "hello"]
                                   initial))))
    as (_ & _ & _ & g & Hg & _ & Hnone & _).
  - unfold trackAll. cbn [fold_left].
    repeat apply trackMessage_wellFormed. apply initial_wellFormed.
  - vm_compute. reflexivity.
  - vm_compute. reflexivity.
  - vm_compute. reflexivity.
Defined.

(** ** Checkpoints are five messages apart *)

Lemma fold_left_step {A B} (f : A -> B -> A) (x : B) (xs : list B) (a : A) :
  fold_left f (x :: xs) a = fold_left f xs (f a x).
Proof. reflexivity. Qed.

Lemma trackAll_cons (c : string) (cs : list string) (st : Tracker) :
  trackAll (c :: cs) st = trackAll cs (trackMessage c st).
Proof. unfold trackAll. rewrite fold_left_step. reflexivity. Qed.

Lemma trackAll_counters (contents : list string) (st : Tracker) :
  messageCount (trackAll contents st)
  = (messageCount st + Z.of_nat (List.length contents))%Z
  /\ lastCheckpointAt (trackAll contents st) = lastCheckpointAt st.
Proof.
  revert st. induction contents as [|c cs IH]; intros st.
  - unfold trackAll. cbn [fold_left List.length]. split; [lia | reflexivity].
  - rewrite trackAll_cons.
    destruct (IH (trackMessage c st)) as [Hm Hl].
    destruct (trackMessage_counters c st) as (Hm1 & _ & Hl1).
    split; [|congruence].
    rewrite Hm, Hm1. cbn [List.length]. lia.
Qed.

(** X5.  A checkpoint attempt made with at least five messages tracked,
    five or more of them since the last attempt, records the current
    message count, also when it answers [null] because no topic is covered;
    after it, [getPositiveCheckpoint] answers [null] until five more
    messages have been tracked. *)
Theorem X5_checkpoints_are_five_messages_apart :
  forall (st : Tracker) (contents : list string),
    (5 <= messageCount st)%Z ->
    (5 <= messageCount st - lastCheckpointAt st)%Z ->
    (List.length contents < 5)%nat ->
    lastCheckpointAt (snd (getPositiveCheckpoint st)) = messageCount st
    /\ fst (getPositiveCheckpoint (trackAll contents (snd (getPositiveCheckpoint st))))
       = None.
Proof.
  intros st contents Hcount Hsince Hfew.
  assert (Hafter : lastCheckpointAt (snd (getPositiveCheckpoint st)) = messageCount st
                   /\ messageCount (snd (getPositiveCheckpoint st)) = messageCount st).
  { unfold getPositiveCheckpoint.
    destruct (Z.ltb_spec (messageCount st) 5); [lia|].
    destruct (Z.ltb_spec (messageCount st - lastCheckpointAt st) 5); [lia|].
    cbn [orb]. destruct (List.length _ =? 0)%nat; split; reflexivity. }
  destruct Hafter as [Hlast Hsame]. split; [exact Hlast|].
  destruct (trackAll_counters contents (snd (getPositiveCheckpoint st))) as [Hc Hl].
  unfold getPositiveCheckpoint at 1. rewrite Hc, Hl, Hlast, Hsame.
  destruct (Z.ltb_spec (messageCount st + Z.of_nat (List.length contents)
                        - messageCount st) 5) as [_|Hge]; [|lia].
  rewrite orb_true_r. reflexivity.
Qed.

Lemma X5_witness :
  fst (getPositiveCheckpoint
         (trackAll ["six"; "seven"]
            (snd (getPositiveCheckpoint (trackAll ["a"; "b"; "c"; "d"; "e"] initial)))))
  = None.
Proof.
  apply (@X5_checkpoints_are_five_messages_apart
           (trackAll ["a"; "b"; "c"; "d"; "e"] initial) ["six"; "seven"]);
    vm_compute; (reflexivity || discriminate || lia).
Defined.

(** ** Covered topics *)

Lemma insertByConfidence_perm (x : TrackedTopic) (l : list TrackedTopic) :
  Permutation (insertByConfidence x l) (x :: l).
Proof.
  induction l as [|y l IH]; cbn [insertByConfidence]; [reflexivity|].
  destruct (confidence x <=? confidence y)%Z; [|reflexivity].
  rewrite IH. apply perm_swap.
Qed.

Lemma insertByConfidence_sorted (x : TrackedTopic) (l : list TrackedTopic) :
  Sorted (fun a b => (confidence b <= confidence a)%Z) l ->
  Sorted (fun a b => (confidence b <= confidence a)%Z) (insertByConfidence x l).
Proof.
  induction l as [|y l IH]; intros Hs; cbn [insertByConfidence].
  - repeat constructor.
  - apply Sorted_inv in Hs as [Hs Hhd].
    destruct (Z.leb_spec (confidence x) (confidence y)).
    + constructor; [now apply IH|].
      destruct l as [|z l]; cbn [insertByConfidence].
      * now repeat constructor.
      * destruct (confidence x <=? confidence z)%Z; constructor; [|exact H].
        now apply HdRel_inv in Hhd.
    + constructor; [now constructor|]. constructor. lia.
Qed.

Lemma sortByConfidence_spec (xs : list TrackedTopic) :
  Permutation (sortByConfidence xs) xs
  /\ Sorted (fun a b => (confidence b <= confidence a)%Z) (sortByConfidence xs).
Proof.
  unfold sortByConfidence.
  assert (G : forall acc,
             Sorted (fun a b => (confidence b <= confidence a)%Z) acc ->
             Permutation (fold_left (fun sorted x => insertByConfidence x sorted) xs acc)
               (xs ++ acc)
             /\ Sorted (fun a b => (confidence b <= confidence a)%Z)
                  (fold_left (fun sorted x => insertByConfidence x sorted) xs acc)).
  { induction xs as [|x xs IH]; intros acc Hacc; cbn [fold_left app].
    - split; [reflexivity | exact Hacc].
    - destruct (IH (insertByConfidence x acc)) as [Hp Hs];
        [now apply insertByConfidence_sorted|].
      split; [|exact Hs].
      rewrite Hp, insertByConfidence_perm. symmetry. apply Permutation_middle. }
  destruct (G [] (Sorted_nil _)) as [Hp Hs].
  rewrite app_nil_r in Hp. now split.
Qed.

(** X6.  [getCoveredTopics] lists the names of exactly the tracked topics
    whose confidence is at least 30, each as often as it is tracked, in
    order of decreasing confidence. *)
Theorem X6_covered_topics_sorted_by_confidence :
  forall (st : Tracker),
  exists covered,
    getCoveredTopics st = map name covered
    /\ Permutation covered
         (filter (fun t => (30 <=? confidence t)%Z) (mapValues (topics st)))
    /\ Sorted (fun a b => (confidence b <= confidence a)%Z) covered.
Proof.
  intros st. unfold getCoveredTopics.
  eexists. split; [reflexivity|]. apply sortByConfidence_spec.
Qed.

End TrackerSessions.

(* ================================================================== *)
(** * Properties of the recommendations                                 *)
(* ================================================================== *)

Lemma graded_nonneg (x threshold k den : Z) :
  0 < den -> 0 <= k ->
  0 <= (if x <? threshold then roundDiv (k * (threshold - x)) den else 0).
Proof.
  intros Hd Hk. destruct (Z.ltb_spec x threshold); [|lia].
  apply roundDiv_nonneg; nia.
Qed.

Lemma flat_nonneg (b : bool) (c : Z) : 0 <= c -> 0 <= (if b then c else 0).
Proof. destruct b; lia. Qed.

(** X7.  A planning or prd-generation prompt whose original text scores
    below 60 on completeness is always escalated: the intent factor (30)
    and the completeness factor (15) reach the threshold of 45 by
    themselves. *)
Theorem X7_incomplete_planning_prompt_escalates :
  forall (o : UniversalOptimizer) (result : OptimizationResult),
    primaryIntent (result_intent result) = "planning"%string
    \/ primaryIntent (result_intent result) = "prd-generation"%string ->
    completeness
      (assessQuality (qualityAssessor o) (original result)
         (primaryIntent (result_intent result))) < 60 ->
    shouldEscalate (analyzeEscalation o result) = true
    /\ shouldRecommendDeepMode o result = true
    /\ 45 <= escalationScore (analyzeEscalation o result).
Proof.
  intros o result Hintent Hcomp.
  unfold shouldRecommendDeepMode, analyzeEscalation.
  cbn [shouldEscalate escalationScore].
  set (q := assessQuality _ _ _) in *.
  assert (Htotal : 45 <= totalScore (tally result q)).
  { rewrite tally_total. cbv zeta.
    replace (Js.arrayIncludes ["planning"; "prd-generation"]%string
               (primaryIntent (result_intent result))) with true
      by (destruct Hintent as [-> | ->]; reflexivity).
    apply Z.ltb_lt in Hcomp. rewrite Hcomp.
    pose proof (@graded_nonneg (confidence (result_intent result)) 60 1 3
                  ltac:(lia) ltac:(lia)) as H2.
    rewrite Z.mul_1_l in H2.
    pose proof (@graded_nonneg (overall q) 65 10 26 ltac:(lia) ltac:(lia)) as H3.
    pose proof (@flat_nonneg (specificity q <? 60) 15 ltac:(lia)) as H5.
    pose proof (@flat_nonneg
                  (isOpenEnded (characteristics (result_intent result))
                   && needsStructure (characteristics (result_intent result))) 20
                  ltac:(lia)) as H6.
    pose proof (@flat_nonneg
                  ((Z.of_nat (String.length (original result)) <? 50) && true) 15
                  ltac:(lia)) as H7.
    pose proof (@flat_nonneg
                  (Js.arrayIncludes ["migration"; "security-review"]%string
                     (primaryIntent (result_intent result))) 20 ltac:(lia)) as H8.
    assert (Hc70 : (completeness q <? 70) = true) by (apply Z.ltb_lt; lia).
    rewrite Hc70. lia. }
  split; [now apply Z.leb_le|]. split; [now apply Z.leb_le | lia].
Qed.

Lemma X7_witness :
  shouldEscalate (analyzeEscalation (sampleOptimizer [] lessCompleteQuality) planningResult)
  = true.
Proof.
  apply (@X7_incomplete_planning_prompt_escalates
           (sampleOptimizer [] lessCompleteQuality) planningResult).
  - left. reflexivity.
  - reflexivity.
Defined.

(** X8.  [getRecommendation] and [getDetailedRecommendation] agree: when
    the first returns a message, the detailed message is that message; when
    it returns [null], the overall quality is below 70 and the detailed
    answer is the needs-work one.  The detailed answer carries an
    escalation analysis exactly in fast mode. *)
Theorem X8_recommendations_agree :
  forall (o : UniversalOptimizer) (result : OptimizationResult),
    match getRecommendation o result with
    | Some message => detailed_message (getDetailedRecommendation o result) = message
    | None =>
        overall (quality result) < 70
        /\ qualityLevel (getDetailedRecommendation o result) = needs_work
        /\ detailed_message (getDetailedRecommendation o result)
           = "This prompt needs improvement for best results."%string
    end
    /\ (detailed_escalation (getDetailedRecommendation o result)
        = match result_mode result with
          | fast => Some (analyzeEscalation o result)
          | _ => None
          end).
Proof.
  intros o result. unfold getRecommendation, getDetailedRecommendation.
  destruct (Z.leb_spec 90 (overall (quality result)));
    [|destruct (Z.leb_spec 80 (overall (quality result)));
      [|destruct (Z.leb_spec 70 (overall (quality result)))]];
    destruct (result_mode result);
    try destruct (shouldEscalate (analyzeEscalation o result));
    cbn [detailed_message qualityLevel detailed_escalation];
    repeat split; lia.
Qed.

(** X9.  [generateDeepModeValue] never returns its fallback sentence: the
    value always reads [Deep mode would provide: ] followed by one to five
    benefits separated by commas, the last of which is
    [validation checklist], and a full stop. *)
Theorem X9_deep_mode_value_lists_benefits :
  forall (result : OptimizationResult) (reasons : list EscalationReason),
  exists benefits,
    generateDeepModeValue result reasons
    = ("Deep mode would provide: " ++ Js.join ", " benefits ++ ".")%string
    /\ last benefits EmptyString = "validation checklist"%string
    /\ (1 <= List.length benefits <= 5)%nat.
Proof.
  intros result reasons. unfold generateDeepModeValue, ConversationSummarizer.pushIf.
  set (i := primaryIntent (result_intent result)).
  destruct (string_eqb_spec i "planning") as [->|H1];
    [|destruct (string_eqb_spec i "prd-generation") as [->|H2];
      [|destruct (string_eqb_spec i "migration") as [->|H3];
        [|destruct (string_eqb_spec i "security-review") as [->|H4]]]];
    cbn [String.eqb Char.eqb Char.code N.eqb Pos.eqb orb andb];
    destruct (hasFactor reasons "low-quality"),
             (hasFactor reasons "missing-completeness"),
             (hasFactor reasons "high-ambiguity"),
             (hasFactor reasons "low-specificity");
    cbn [orb app List.length Nat.eqb];
    eexists; (split; [reflexivity|]); cbn [last List.length]; (split; [reflexivity | lia]).
Qed.

(** ** The reasons of an escalation analysis *)

Lemma analyzeEscalation_rows (o : UniversalOptimizer) (result : OptimizationResult) :
  map (fun r => (factor r, contribution r)) (reasons (analyzeEscalation o result))
  = map (fun row => (row_factor row, row_contribution row))
      (fired (factorTable (result_intent result)
                (assessQuality (qualityAssessor o) (original result)
                   (primaryIntent (result_intent result)))
                (Z.of_nat (String.length (original result))))).
Proof. unfold analyzeEscalation. cbn [reasons]. apply tally_follows_table. Qed.

Lemma kept_keys_distinct {K V} (key : V -> K) (keep : V -> bool) (rows : list V)
    (Hdistinct : NoDup (map key rows)) :
  NoDup (map key (filter keep rows)).
Proof.
  induction rows as [|row rows IH]; cbn [map filter] in *; [constructor|].
  apply NoDup_cons_iff in Hdistinct as [Hrow Hrows].
  destruct (keep row); cbn [map]; [|now apply IH].
  constructor; [|now apply IH].
  intros Hin. apply Hrow. apply in_map_iff in Hin as (other & Hkey & Hin).
  apply filter_In in Hin as [Hin _]. apply in_map_iff. now exists other.
Qed.

Lemma factor_names (rs : list EscalationReason) (rows : list FactorRow) :
  map (fun r => (factor r, contribution r)) rs
  = map (fun row => (row_factor row, row_contribution row)) rows ->
  map factor rs = map row_factor rows
  /\ map contribution rs = map row_contribution rows.
Proof.
  intros H. split.
  - apply (f_equal (map fst)) in H. now rewrite !map_map in H.
  - apply (f_equal (map snd)) in H. now rewrite !map_map in H.
Qed.

(** The intent factor and the complex-intent factor never fire together. *)
Lemma intent_rows_exclusive (tag : string) :
  ((String.eqb tag "planning" || String.eqb tag "prd-generation")
   && (String.eqb tag "migration" || String.eqb tag "security-review"))%bool = false.
Proof.
  destruct (string_eqb_spec tag "planning") as [->|]; [reflexivity|].
  destruct (string_eqb_spec tag "prd-generation") as [->|]; reflexivity.
Qed.

(** X10.  The reasons of an escalation analysis name each factor at most
    once, there are at most seven of them, and [intent-type] and
    [complex-intent] never appear together. *)
Theorem X10_escalation_reasons_are_distinct :
  forall (o : UniversalOptimizer) (result : OptimizationResult),
    let rs := reasons (analyzeEscalation o result) in
    NoDup (map factor rs)
    /\ (List.length rs <= 7)%nat
    /\ ~ (In "intent-type"%string (map factor rs)
          /\ In "complex-intent"%string (map factor rs)).
Proof.
  intros o result rs.
  destruct (factor_names _ _ (analyzeEscalation_rows o result)) as [Hnames _].
  fold rs in Hnames.
  set (q := assessQuality _ _ _) in Hnames.
  set (len := Z.of_nat _) in Hnames.
  pose proof (intent_rows_exclusive (primaryIntent (result_intent result))) as Hex.
  assert (Hshape :
    (List.length (fired (factorTable (result_intent result) q len)) <= 7)%nat
    /\ ~ (In "intent-type"%string
            (map row_factor (fired (factorTable (result_intent result) q len)))
          /\ In "complex-intent"%string
               (map row_factor (fired (factorTable (result_intent result) q len))))).
  { unfold fired, factorTable. cbn [filter row_trigger].
    destruct (String.eqb (primaryIntent (result_intent result)) "planning"
              || String.eqb (primaryIntent (result_intent result)) "prd-generation")%bool;
      destruct (String.eqb (primaryIntent (result_intent result)) "migration"
                || String.eqb (primaryIntent (result_intent result)) "security-review")%bool;
      try discriminate Hex;
      destruct (confidence (result_intent result) <? 60), (overall q <? 65),
               (completeness q <? 60), (specificity q <? 60),
               (isOpenEnded (characteristics (result_intent result))
                && needsStructure (characteristics (result_intent result)))%bool,
               ((len <? 50) && (completeness q <? 70))%bool;
      cbn [List.length map row_factor In];
      (split; [lia|]);
      intros [Ha Hb];
      repeat match goal with
             | H : _ \/ _ |- _ => destruct H
             | H : False |- _ => contradiction
             | H : _ = _ |- _ => discriminate H
             end. }
  split.
  - rewrite Hnames. apply kept_keys_distinct.
    cbn [factorTable map row_factor].
    repeat (constructor; [cbn [In]; intuition discriminate|]). constructor.
  - rewrite <- (length_map factor rs), Hnames, length_map. exact Hshape.
Qed.

(** X11.  With a confidence and an original overall quality that are not
    negative, the contributions of the reasons add up to at most 140,
    while the reported [escalationScore] is that sum cut at 100: the
    itemised reasons can exceed the score by up to 40 points, never the
    other way round. *)
Theorem X11_reasons_sum_bounds_the_score :
  forall (o : UniversalOptimizer) (result : OptimizationResult),
    0 <= confidence (result_intent result) ->
    0 <= overall (assessQuality (qualityAssessor o) (original result)
                    (primaryIntent (result_intent result))) ->
    let a := analyzeEscalation o result in
    let sum := fold_right Z.add 0 (map contribution (reasons a)) in
    escalationScore a = Z.min sum 100
    /\ escalationScore a <= sum <= 140.
Proof.
  intros o result Hconf Hover a sum.
  destruct (factor_names _ _ (analyzeEscalation_rows o result)) as [_ Hcontrib].
  set (q := assessQuality _ _ _) in *.
  destruct (tally_follows_table result q) as [_ Htotal]. cbv zeta in Htotal.
  assert (Hsum : sum = totalScore (tally result q)).
  { unfold sum, a. rewrite Hcontrib, Htotal. unfold uncappedSum.
    generalize (fired (factorTable (result_intent result) q
                         (Z.of_nat (String.length (original result))))) as rows.
    induction rows as [|r rows IH]; cbn [map fold_right]; [reflexivity | now rewrite IH]. }
  assert (Hscore : escalationScore a = Z.min sum 100)
    by (rewrite Hsum; reflexivity).
  split; [exact Hscore|].
  rewrite Hscore. split; [lia|].
  rewrite Hsum, tally_total. cbv zeta. rewrite !arrayIncludes_two.
  pose proof (intent_rows_exclusive (primaryIntent (result_intent result))) as Hex.
  assert (H2 : (if confidence (result_intent result) <? 60
                then roundDiv (60 - confidence (result_intent result)) 3 else 0) <= 20).
  { destruct (Z.ltb_spec (confidence (result_intent result)) 60); [|lia].
    change 20 with (roundDiv 60 3). apply roundDiv_mono; lia. }
  assert (H3 : (if overall q <? 65 then roundDiv (10 * (65 - overall q)) 26 else 0) <= 25).
  { destruct (Z.ltb_spec (overall q) 65); [|lia].
    change 25 with (roundDiv 650 26). apply roundDiv_mono; lia. }
  destruct (String.eqb (primaryIntent (result_intent result)) "planning"
            || String.eqb (primaryIntent (result_intent result)) "prd-generation")%bool;
    destruct (String.eqb (primaryIntent (result_intent result)) "migration"
              || String.eqb (primaryIntent (result_intent result)) "security-review")%bool;
    try discriminate Hex;
    destruct (completeness q <? 60), (specificity q <? 60),
             (isOpenEnded (characteristics (result_intent result))
              && needsStructure (characteristics (result_intent result)))%bool,
             ((Z.of_nat (String.length (original result)) <? 50)
              && (completeness q <? 70))%bool;
    lia.
Qed.

Lemma X11_witness :
  escalationScore (analyzeEscalation (sampleOptimizer [] vagueQuality) loginResult)
  <= fold_right Z.add 0
       (map contribution
          (reasons (analyzeEscalation (sampleOptimizer [] vagueQuality) loginResult)))
  <= 140.
Proof.
  apply (@X11_reasons_sum_bounds_the_score (sampleOptimizer [] vagueQuality) loginResult);
    cbn; lia.
Defined.

(* ================================================================== *)
(** * Further properties of the patterns                                *)
(* ================================================================== *)

Lemma includes_app_l (a b x : string) :
  Js.includes a x = true -> Js.includes (a ++ b) x = true.
Proof.
  intros H. apply includes_inv in H as (pre & post & ->).
  rewrite !string_app_assoc. apply includes_app.
Qed.

Lemma includes_app_r (a b x : string) :
  Js.includes b x = true -> Js.includes (a ++ b) x = true.
Proof.
  intros H. apply includes_inv in H as (pre & post & ->).
  rewrite <- string_app_assoc. apply includes_app.
Qed.

(** ** Cleaned items *)

Lemma headIsSpace_trimStart (s : string) : headIsSpace (Js.trimStart s) = false.
Proof.
  induction s as [|c s IH]; cbn [Js.trimStart]; [reflexivity|].
  destruct (Js.isSpace c) eqn:Hc; [exact IH | cbn [headIsSpace]; exact Hc].
Qed.

Lemma headIsSpace_dropEndWhile (p : char -> bool) (s : string) :
  headIsSpace s = false -> headIsSpace (Js.dropEndWhile p s) = false.
Proof.
  destruct s as [|c s]; cbn [Js.dropEndWhile headIsSpace]; [reflexivity|].
  intros Hc. destruct (Js.dropEndWhile p s); [destruct (p c)|]; cbn [headIsSpace]; auto.
Qed.

Lemma headIsSpace_collapseSpaces (s : string) :
  headIsSpace (Js.collapseSpaces s) = headIsSpace s.
Proof.
  induction s as [|c s IH]; cbn [Js.collapseSpaces headIsSpace]; [reflexivity|].
  destruct (Js.isSpace c) eqn:Hc; [|cbn [headIsSpace]; exact Hc].
  destruct s as [|d s]; [reflexivity|].
  destruct (Js.isSpace d) eqn:Hd.
  - rewrite IH. cbn [headIsSpace]. exact Hd.
  - reflexivity.
Qed.

Lemma headIsSpace_take (n : nat) (s : string) :
  headIsSpace s = false -> headIsSpace (Js.take n s) = false.
Proof. destruct n, s; cbn [Js.take headIsSpace]; auto. Qed.

Lemma singleSpaced_collapseSpaces (s : string) :
  singleSpaced (Js.collapseSpaces s) = true.
Proof.
  induction s as [|c s IH]; cbn [Js.collapseSpaces]; [reflexivity|].
  destruct (Js.isSpace c) eqn:Hc.
  - destruct s as [|d s]; [reflexivity|].
    destruct (Js.isSpace d) eqn:Hd; [exact IH|].
    cbn [singleSpaced]. rewrite IH, headIsSpace_collapseSpaces.
    cbn [headIsSpace]. rewrite Hd. reflexivity.
  - cbn [singleSpaced]. now rewrite Hc, IH.
Qed.

Lemma singleSpaced_take (n : nat) (s : string) :
  singleSpaced s = true -> singleSpaced (Js.take n s) = true.
Proof.
  revert s. induction n as [|n IH]; intros [|c s]; cbn [Js.take singleSpaced]; auto.
  intros H. apply andb_true_iff in H as [Hc Hs].
  rewrite (IH s Hs), andb_true_r.
  destruct (Js.isSpace c); [|reflexivity].
  apply andb_true_iff in Hc as [Heq Hhead]. rewrite Heq. cbn [andb].
  apply negb_true_iff in Hhead. now rewrite headIsSpace_take.
Qed.

Lemma singleSpaced_no_double_space (s : string) :
  singleSpaced s = true -> Js.includes s "  " = false.
Proof.
  induction s as [|c s IH]; intros H; [reflexivity|].
  cbn [singleSpaced] in H. apply andb_true_iff in H as [Hc Hs].
  cbn [Js.includes Js.startsWith]. rewrite (IH Hs), orb_false_r.
  destruct (char_eqb_spec " " c) as [<-|]; [|reflexivity].
  cbn [andb]. change (Js.isSpace " ") with true in Hc.
  apply andb_true_iff in Hc as [_ Hhead]. apply negb_true_iff in Hhead.
  destruct s as [|d s]; [reflexivity|].
  cbn [Js.startsWith headIsSpace] in *.
  destruct (char_eqb_spec " " d) as [<-|]; [discriminate Hhead | reflexivity].
Qed.

Lemma singleSpaced_only_spaces (s : string) (c : char) :
  singleSpaced s = true -> Js.isSpace c = true -> c <> " "%char ->
  Js.includes s (String c EmptyString) = false.
Proof.
  intros Hs Hc Hne. induction s as [|d s IH]; [reflexivity|].
  cbn [singleSpaced] in Hs. apply andb_true_iff in Hs as [Hd Hs].
  cbn [Js.includes Js.startsWith]. rewrite (IH Hs), orb_false_r, andb_true_r.
  destruct (char_eqb_spec c d) as [<-|]; [|reflexivity].
  rewrite Hc in Hd. apply andb_true_iff in Hd as [Heq _].
  apply char_eqb_eq in Heq. contradiction.
Qed.

(** X13.  Whatever text is captured, [cleanRequirement] returns at most 200
    code units that do not start with white space and whose only
    white-space units are single spaces: no line feed, tab, no-break space
    or other white space of ECMAScript, and no two spaces in a row.  Every bullet built from an
    extracted item therefore stays on one line. *)
Theorem X13_cleaned_item_is_single_spaced :
  forall (text : string),
    let item := ConversationSummarizer.cleanRequirement text in
    (String.length item <= 200)%nat
    /\ Js.startsWith item " " = false
    /\ Js.includes item "  " = false
    /\ Js.includes item LF = false
    /\ (forall c, Js.isSpace c = true -> c <> " "%char ->
                  Js.includes item (String c EmptyString) = false).
Proof.
  intros text item.
  assert (Hs : singleSpaced item = true)
    by (apply singleSpaced_take, singleSpaced_collapseSpaces).
  assert (Hh : headIsSpace item = false).
  { unfold item, ConversationSummarizer.cleanRequirement.
    apply headIsSpace_take. rewrite headIsSpace_collapseSpaces.
    apply headIsSpace_dropEndWhile. unfold Js.trim, Js.trimEnd.
    apply headIsSpace_dropEndWhile, headIsSpace_trimStart. }
  split; [apply cleanRequirement_length|].
  split.
  { destruct item as [|c r]; [reflexivity|]. cbn [Js.startsWith headIsSpace] in *.
    destruct (char_eqb_spec " " c) as [<-|]; [discriminate Hh | reflexivity]. }
  split; [now apply singleSpaced_no_double_space|].
  split; [apply singleSpaced_only_spaces; [exact Hs | reflexivity | discriminate]|].
  intros c Hc Hne. now apply singleSpaced_only_spaces.
Qed.

(** White space outside ASCII is white space: a no-break space between two
    words is collapsed to a space, and one at either end is trimmed. *)
Example no_break_space_is_white_space :
  ConversationSummarizer.cleanRequirement (NBSP ++ "a" ++ NBSP ++ " b." ++ LS) = "a b".
Proof. vm_compute. reflexivity. Qed.

(** ** Implicit requirements *)

Lemma arrayIncludes_true (acc : list string) (x : string) :
  Js.arrayIncludes acc x = true -> In x acc.
Proof.
  unfold Js.arrayIncludes. intros H.
  apply existsb_exists in H as (y & Hy & Heq). apply string_eqb_eq in Heq. now subst.
Qed.

Lemma dedupeFrom_spec (xs seen : list string) :
  NoDup (ImplicitRequirementExtractor.dedupeFrom seen xs)
  /\ forall x, In x (ImplicitRequirementExtractor.dedupeFrom seen xs) <->
               In x xs /\ ~ In x seen.
Proof.
  revert seen. induction xs as [|y xs IH]; intros seen;
    cbn [ImplicitRequirementExtractor.dedupeFrom].
  - split; [constructor | cbn; tauto].
  - destruct (Js.arrayIncludes seen y) eqn:Hy.
    + apply arrayIncludes_true in Hy. destruct (IH seen) as [Hnd Hin].
      split; [exact Hnd|]. intros x. rewrite Hin. cbn [In].
      split; [tauto|]. intros [[<-|Hx] Hns]; [contradiction | tauto].
    + apply arrayIncludes_false in Hy. destruct (IH (y :: seen)) as [Hnd Hin].
      split.
      * constructor; [|exact Hnd]. rewrite Hin. cbn [In]. tauto.
      * intros x. cbn [In]. rewrite Hin. cbn [In].
        destruct (string_dec y x) as [<-|Hne]; tauto.
Qed.

(** X12.  The implicit requirements of any prompt are at most eight and
    pairwise different, and the pattern applies exactly when there is at
    least one. *)
Theorem X12_implicit_requirements_distinct_and_capped :
  forall (prompt : string) (ctx : PatternContext),
    let reqs := ImplicitRequirementExtractor.extractImplicitRequirements prompt in
    NoDup reqs
    /\ (List.length reqs <= 8)%nat
    /\ (applied (ImplicitRequirementExtractor.apply prompt ctx) = true <-> reqs <> []).
Proof.
  intros prompt ctx reqs.
  unfold reqs, ImplicitRequirementExtractor.extractImplicitRequirements.
  cbv zeta. set (all := ImplicitRequirementExtractor.pushEach _ _ _).
  split.
  - unfold slice0, ImplicitRequirementExtractor.dedupe.
    destruct (dedupeFrom_spec all []) as [Hnd _].
    rewrite <- (firstn_skipn 8 _) in Hnd. now apply NoDup_app_remove_r in Hnd.
  - split; [apply firstn_le_length|].
    unfold ImplicitRequirementExtractor.apply,
      ImplicitRequirementExtractor.extractImplicitRequirements.
    cbv zeta. fold all.
    destruct (slice0 8 (ImplicitRequirementExtractor.dedupe all)) as [|r rs];
      cbn [List.length Nat.eqb applied]; split; congruence.
Qed.

Lemma includes_trans (a b c : string) :
  Js.includes a b = true -> Js.includes b c = true -> Js.includes a c = true.
Proof.
  intros Hab Hbc.
  apply includes_inv in Hab as (pre & post & ->).
  apply includes_inv in Hbc as (pre' & post' & ->).
  rewrite !string_app_assoc, <- (string_app_assoc pre pre'). apply includes_app.
Qed.

Lemma includes_refl (s : string) : Js.includes s s = true.
Proof.
  apply includes_startsWith. induction s as [|c s IH]; [reflexivity|].
  cbn [Js.startsWith]. now rewrite char_eqb_refl.
Qed.


(** ** Structured documents *)

Lemma render_is_structured (goals reqs cons : list string) (prompt : string) :
  reqs <> [] ->
  ConversationSummarizer.isAlreadyStructured
    (ConversationSummarizer.render goals reqs cons prompt) = true.
Proof.
  intros Hreqs. unfold ConversationSummarizer.isAlreadyStructured, countWhere.
  set (doc := ConversationSummarizer.render goals reqs cons prompt).
  assert (H2 : Js.includes doc "##" = true).
  { unfold doc, ConversationSummarizer.render. apply includes_app_l. reflexivity. }
  assert (H3 : Js.includes doc "###" = true).
  { unfold doc, ConversationSummarizer.render. apply includes_app_l. reflexivity. }
  assert (HR : Js.includes doc "**Requirements:**" = true).
  { unfold doc, ConversationSummarizer.render.
    apply includes_app_r, includes_app_r, includes_app_l.
    destruct reqs as [|r rs]; [congruence|].
    unfold ConversationSummarizer.listSection. apply includes_prefix. }
  unfold ConversationSummarizer.structureIndicators.
  cbn [filter]. rewrite H2, H3, HR. reflexivity.
Qed.

(** X14.  A document the summarizer produced with at least one extracted
    requirement is not summarized again: it carries the indicators [##],
    [###] and [**Requirements:**], so a second [apply] returns it unchanged
    with [applied = false] and "Content already well-structured". *)
Theorem X14_summarizer_does_not_restructure_its_output `{BasePattern} :
  forall (prompt : string) (ctx ctx' : PatternContext),
    let first := ConversationSummarizer.apply prompt ctx in
    applied first = true ->
    ConversationSummarizer.extractRequirements prompt <> [] ->
    ConversationSummarizer.apply (enhancedPrompt first) ctx'
    = mkPatternResult (enhancedPrompt first)
        (mkImprovement dim_structure "Content already well-structured" low) false.
Proof.
  intros prompt ctx ctx' first Happlied Hreqs.
  assert (Hdoc : enhancedPrompt first = ConversationSummarizer.extractAndStructure prompt).
  { unfold first in *. unfold ConversationSummarizer.apply in *.
    destruct (ConversationSummarizer.isAlreadyStructured prompt); [discriminate|].
    destruct (negb (ConversationSummarizer.isConversationalContent prompt));
      [discriminate | reflexivity]. }
  rewrite Hdoc. unfold ConversationSummarizer.extractAndStructure.
  cbv zeta. unfold ConversationSummarizer.apply at 1.
  now rewrite render_is_structured.
Qed.

(** ** Topic headings *)

Lemma extractTopicContent_truthy `{BasePattern} (prompt topic : string) :
  Js.truthy (TopicCoherenceAnalyzer.extractTopicContent prompt topic) = true.
Proof.
  unfold TopicCoherenceAnalyzer.extractTopicContent. cbv zeta.
  destruct (filter _ (extractSentences prompt)) as [|s rest]; [reflexivity|].
  cbn [List.length Nat.eqb slice0 firstn map].
  match goal with |- context [Js.join _ (_ :: ?l)] => destruct l end; reflexivity.
Qed.

Lemma topic_sections_keep (step : string -> string -> string) (topics : list string)
    (acc x : string) :
  (forall acc topic, Js.includes acc x = true -> Js.includes (step acc topic) x = true) ->
  Js.includes acc x = true -> Js.includes (fold_left step topics acc) x = true.
Proof.
  intros Hstep. revert acc. induction topics as [|t ts IH]; intros acc Hacc; [exact Hacc|].
  cbn [fold_left]. apply IH, Hstep, Hacc.
Qed.

(** Every topic handed to [organizeByTopic] gets its heading line. *)
Lemma organizeByTopic_headings `{BasePattern} (prompt topic : string)
    (topics : list string) :
  In topic topics ->
  Js.includes (TopicCoherenceAnalyzer.organizeByTopic prompt topics)
    ("#### " ++ topic ++ LF) = true.
Proof.
  intros Hin. unfold TopicCoherenceAnalyzer.organizeByTopic. cbv zeta.
  apply includes_app_l.
  set (step := fun organized topic0 => _).
  generalize ((((("### Topics Covered" ++ LF)
                  ++ "This conversation touches on multiple areas:" ++ LF)
                 ++ Js.join LF (TopicCoherenceAnalyzer.numbered 0 topics))
                ++ LF ++ LF ++ "---" ++ LF ++ LF)
               ++ "### Discussion by Topic" ++ LF ++ LF) as acc.
  induction topics as [|t ts IH]; intros acc; [destruct Hin|].
  cbn [fold_left]. destruct Hin as [->|Hin]; [|now apply IH].
  apply topic_sections_keep.
  - intros acc' topic' Hacc. unfold step.
    destruct (Js.truthy _); [now apply includes_app_l | exact Hacc].
  - unfold step. rewrite extractTopicContent_truthy.
    apply includes_app_r, includes_prefix.
Qed.

Lemma filter_length_le {A} (p : A -> bool) (xs : list A) :
  (List.length (filter p xs) <= List.length xs)%nat.
Proof.
  induction xs as [|x xs IH]; cbn [filter List.length]; [lia|].
  destruct (p x); cbn [List.length]; lia.
Qed.

(** X15.  [detectTopics] yields at most ten topics, all different; when the
    analyzer applies there are at least two, and the organized document has
    a heading line [#### topic] for every one of them, since
    [extractTopicContent] never returns an empty text. *)
Theorem X15_every_detected_topic_gets_a_heading `{BasePattern} :
  forall (prompt : string) (ctx : PatternContext),
    let topics := TopicCoherenceAnalyzer.detectTopics prompt in
    let result := TopicCoherenceAnalyzer.apply prompt ctx in
    NoDup topics
    /\ (List.length topics <= 10)%nat
    /\ (applied result = true ->
        (2 <= List.length topics)%nat
        /\ forall topic, In topic topics ->
             Js.includes (enhancedPrompt result) ("#### " ++ topic ++ LF) = true).
Proof.
  intros prompt ctx topics result.
  split.
  { unfold topics, TopicCoherenceAnalyzer.detectTopics. cbv zeta.
    apply kept_keys_distinct.
    unfold TopicCoherenceAnalyzer.topicIndicators. cbn [map fst].
    repeat (constructor; [cbn [In]; intuition discriminate|]). constructor. }
  split.
  { unfold topics, TopicCoherenceAnalyzer.detectTopics. cbv zeta.
    rewrite length_map. apply (filter_length_le _ TopicCoherenceAnalyzer.topicIndicators). }
  unfold result, TopicCoherenceAnalyzer.apply. cbv zeta. fold topics.
  destruct (List.length topics <=? 1)%nat eqn:Hlen; [discriminate|].
  destruct (TopicCoherenceAnalyzer.hasTopicOrganization prompt); [discriminate|].
  intros _. apply Nat.leb_gt in Hlen. split; [lia|].
  intros topic Hin. cbn [enhancedPrompt]. now apply organizeByTopic_headings.
Qed.

(** ** Re-application of the topic analyzer *)

Lemma test_app (i : bool) (r : RegExp.re) (pre s : string) :
  isSome (RegExp.matchHere i r s) = true -> RegExp.test i r (pre ++ s) = true.
Proof.
  intros Hs. unfold RegExp.test. induction pre as [|c pre IH].
  - cbn [String.append]. destruct s; cbn [RegExp.exec];
      destruct (RegExp.matchHere i r _); try reflexivity; discriminate.
  - cbn [String.append RegExp.exec].
    destruct (RegExp.matchHere i r (String c (pre ++ s))); [reflexivity | exact IH].
Qed.

Ltac heading :=
  unfold RegExp.matchHere, TopicCoherenceAnalyzer.topicHeaders;
  vm_compute;
  match goal with
  | |- context [if ?b then _ else _] =>
      replace b with true by (symmetry; apply Nat.leb_refl)
  end;
  reflexivity.

Lemma heading_matches (topic tail : string) :
  In topic headedTopics ->
  isSome (RegExp.matchHere true TopicCoherenceAnalyzer.topicHeaders
            ("## " ++ topic ++ tail)) = true.
Proof.
  intros [<-|[<-|[<-|[<-|[<-|[<-|[<-|[]]]]]]]]; heading.
Qed.

Lemma toLowerCase_app (a b : string) :
  Js.toLowerCase (a ++ b) = Js.toLowerCase a ++ Js.toLowerCase b.
Proof.
  induction a as [|c a IH]; [reflexivity|].
  cbn [String.append Js.toLowerCase]. now rewrite IH, string_app_assoc.
Qed.

Lemma includesAny_mono (s t : string) (ws : list string) :
  Js.includes (Js.toLowerCase t) (Js.toLowerCase s) = true ->
  includesAny (Js.toLowerCase s) ws = true -> includesAny (Js.toLowerCase t) ws = true.
Proof.
  intros Hst. unfold includesAny. rewrite !existsb_exists.
  intros (w & Hw & Hin). exists w. split; [exact Hw|].
  now apply includes_trans with (b := Js.toLowerCase s).
Qed.

Lemma filter_length_mono {A} (p q : A -> bool) (xs : list A) :
  (forall x, p x = true -> q x = true) ->
  (List.length (filter p xs) <= List.length (filter q xs))%nat.
Proof.
  intros Hpq. induction xs as [|x xs IH]; cbn [filter]; [lia|].
  destruct (p x) eqn:Hp.
  - rewrite (Hpq x Hp). cbn [List.length]. lia.
  - destruct (q x); cbn [List.length]; lia.
Qed.

Lemma detectTopics_mono (s t : string) :
  Js.includes t s = true ->
  (List.length (TopicCoherenceAnalyzer.detectTopics s)
   <= List.length (TopicCoherenceAnalyzer.detectTopics t))%nat.
Proof.
  intros Hst. unfold TopicCoherenceAnalyzer.detectTopics. cbv zeta.
  rewrite !length_map. apply filter_length_mono. intros entry.
  apply includesAny_mono.
  apply includes_inv in Hst as (pre & post & ->).
  rewrite !toLowerCase_app. apply includes_app.
Qed.

(** X17.  When the analyzer applied and one of the detected topics is among
    User Interface, Backend/API, Database, Authentication, Performance,
    Testing and Deployment, a second [apply] on the organized document
    returns it unchanged with "Topics already organized": the document still
    shows at least two topics, and the topic's heading matches
    [topicHeaders]. *)
Theorem X17_topic_analyzer_does_not_reorganise_its_output `{BasePattern} :
  forall (prompt topic : string) (ctx ctx' : PatternContext),
    let first := TopicCoherenceAnalyzer.apply prompt ctx in
    applied first = true ->
    In topic (TopicCoherenceAnalyzer.detectTopics prompt) ->
    In topic headedTopics ->
    TopicCoherenceAnalyzer.apply (enhancedPrompt first) ctx'
    = mkPatternResult (enhancedPrompt first)
        (mkImprovement dim_structure "Topics already organized" low) false.
Proof.
  intros prompt topic ctx ctx' first Happlied Hdetected Hheaded.
  assert (Hdoc : enhancedPrompt first
                 = TopicCoherenceAnalyzer.organizeByTopic prompt
                     (TopicCoherenceAnalyzer.detectTopics prompt)
                 /\ (2 <= List.length (TopicCoherenceAnalyzer.detectTopics prompt))%nat).
  { unfold first in *. unfold TopicCoherenceAnalyzer.apply in *. cbv zeta in *.
    destruct (List.length _ <=? 1)%nat eqn:Hlen; [discriminate|].
    destruct (TopicCoherenceAnalyzer.hasTopicOrganization prompt); [discriminate|].
    apply Nat.leb_gt in Hlen. split; [reflexivity | lia]. }
  destruct Hdoc as [Hdoc Hlen]. rewrite Hdoc.
  set (doc := TopicCoherenceAnalyzer.organizeByTopic prompt _).
  assert (Hkeeps : Js.includes doc prompt = true).
  { destruct (topics_keep_text prompt (TopicCoherenceAnalyzer.detectTopics prompt))
      as [header Hshape].
    unfold doc. rewrite Hshape, <- !string_app_assoc. apply includes_suffix. }
  assert (Hheading : TopicCoherenceAnalyzer.hasTopicOrganization doc = true).
  { pose proof (organizeByTopic_headings prompt topic _ Hdetected) as Hinc.
    fold doc in Hinc. apply includes_inv in Hinc as (pre & post & ->).
    unfold TopicCoherenceAnalyzer.hasTopicOrganization.
    replace (pre ++ ("#### " ++ topic ++ LF) ++ post)
      with ((pre ++ "##") ++ "## " ++ topic ++ (LF ++ post)).
    2:{ rewrite (string_app_assoc pre "##"). cbn [String.append].
        now rewrite (string_app_assoc topic). }
    apply test_app, heading_matches, Hheaded. }
  unfold TopicCoherenceAnalyzer.apply. cbv zeta.
  pose proof (detectTopics_mono prompt doc Hkeeps) as Hmono.
  replace (List.length (TopicCoherenceAnalyzer.detectTopics doc) <=? 1)%nat with false
    by (symmetry; apply Nat.leb_gt; lia).
  now rewrite Hheading.
Qed.

(** ** Regular expressions on arbitrary inputs *)

Lemma run_word (R : Type) (w s : string) (cap : option string)
    (k : string -> option string -> option R) :
  RegExp.run false (RegExp.word w) s cap k
  = if Js.startsWith s w then k (JsReplace.drop (String.length w) s) cap else None.
Proof.
  revert s. induction w as [|c w IH]; intros s; [destruct s; reflexivity|].
  destruct w as [|d w].
  - destruct s as [|b s]; cbn [RegExp.word RegExp.run Js.startsWith]; [reflexivity|].
    unfold RegExp.eqChar. rewrite andb_true_r. reflexivity.
  - change (RegExp.word (String c (String d w)))
      with (RegExp.Seq (RegExp.Lit c) (RegExp.word (String d w))).
    destruct s as [|b s]; [reflexivity|].
    cbn [RegExp.run]. unfold RegExp.eqChar.
    change (Js.startsWith (String b s) (String c (String d w)))
      with (Char.eqb c b && Js.startsWith s (String d w)).
    destruct (Char.eqb c b); [|reflexivity].
    rewrite IH. reflexivity.
Qed.

Lemma isSome_orElse {R} (x y : option R) :
  isSome (RegExp.orElse x y) = isSome x || isSome y.
Proof. destruct x, y; reflexivity. Qed.

(** The greedy loop of [.*] succeeds exactly when the continuation accepts
    what is left after some run of characters that are not line
    terminators. *)
Lemma run_star_dot (R : Type) (k : string -> option string -> option R)
    (cap : option string) (s : string) :
  isSome (RegExp.run false (RegExp.Star true RegExp.dot) s cap k) = true
  <-> exists mid rest,
        s = mid ++ rest
        /\ Forall (fun c => Js.isLineTerminator c = false) (String.units mid)
        /\ isSome (k rest cap) = true.
Proof.
  cbn [RegExp.run].
  assert (Hle : (String.length s <= String.length s)%nat) by lia.
  revert Hle. generalize (String.length s) at 2 3 as n.
  intros n. revert s. induction n as [|n IH]; intros s Hle.
  - destruct s; [|cbn in Hle; lia]. split.
    + intros Hk. exists "", "". repeat split; [constructor | exact Hk].
    + intros (mid & rest & Hs & _ & Hk).
      destruct mid; [|discriminate]. cbn in Hs. now subst rest.
  - rewrite isSome_orElse, orb_true_iff. split.
    + intros [Hagain | Hk].
      * destruct s as [|c s]; [discriminate|].
        cbn [RegExp.dot RegExp.run RegExp.inClass] in Hagain.
        destruct (Js.isLineTerminator c) eqn:Hc; [discriminate|].
        replace (String.length s <? String.length (String c s))%nat with true in Hagain
          by (symmetry; apply Nat.ltb_lt; cbn; lia).
        apply IH in Hagain as (mid & rest & -> & Hmid & Hk); [|cbn in Hle; lia].
        exists (String c mid), rest. repeat split; [now constructor | exact Hk].
      * exists "", s. repeat split; [constructor | exact Hk].
    + intros (mid & rest & Hs & Hmid & Hk).
      destruct mid as [|c mid]; [right; cbn in Hs; now subst|].
      left. subst s. cbn [String.append RegExp.dot RegExp.run RegExp.inClass].
      cbn [String.units] in Hmid. inversion Hmid as [|? ? Hc Hrest]; subst.
      rewrite Hc.
      replace (String.length (mid ++ rest) <? String.length (String c (mid ++ rest)))%nat
        with true by (symmetry; apply Nat.ltb_lt; cbn; lia).
      apply IH; [cbn in Hle; lia|]. now exists mid, rest.
Qed.

Lemma drop_app (a b : string) : JsReplace.drop (String.length a) (a ++ b) = b.
Proof. induction a as [|c a IH]; [destruct b; reflexivity | exact IH]. Qed.

Lemma run_end_of_word (w s : string) (cap : option string) (m : string) :
  isSome (RegExp.run false (RegExp.Seq (RegExp.word w) RegExp.End) s cap
            (fun s' cap' => Some (RegExp.mkMatch m s' cap'))) = true
  <-> s = w.
Proof.
  cbn [RegExp.run]. rewrite run_word. split.
  - destruct (Js.startsWith s w) eqn:Hw; [|discriminate].
    apply startsWith_inv in Hw as [rest ->]. rewrite drop_app.
    destruct rest; [|discriminate]. intros _.
    clear. induction w as [|c w IH]; cbn; congruence.
  - intros ->. replace (Js.startsWith w w) with true.
    + replace (JsReplace.drop (String.length w) w) with ""; [reflexivity|].
      clear. induction w as [|c w IH]; [reflexivity | exact IH].
    + clear. induction w as [|c w IH]; [reflexivity|].
      cbn [Js.startsWith]. now rewrite char_eqb_refl.
Qed.

Lemma run_seq (R : Type) (a b : RegExp.re) (s : string) (cap : option string)
    (k : string -> option string -> option R) :
  RegExp.run false (RegExp.Seq a b) s cap k
  = RegExp.run false a s cap (fun s' cap' => RegExp.run false b s' cap' k).
Proof. reflexivity. Qed.

Lemma run_dot (R : Type) (c : char) (s : string) (cap : option string)
    (k : string -> option string -> option R) :
  RegExp.run false RegExp.dot (String c s) cap k
  = if Js.isLineTerminator c then None else k s cap.
Proof. reflexivity. Qed.

(** X16.  [isClavixGeneratedCommand] accepts exactly the file names that
    [getTargetFilename] builds from a command name that is not empty and has
    no line terminator (LF, CR, U+2028, U+2029). *)
Theorem X16_vibe_recognises_exactly_its_own_filenames :
  forall (filename : string),
    VibeAdapter.isClavixGeneratedCommand filename = true
    <-> exists commandName,
          filename = VibeAdapter.getTargetFilename commandName
          /\ commandName <> ""
          /\ Forall (fun c => Js.isLineTerminator c = false)
               (String.units commandName).
Proof.
  intros filename.
  unfold VibeAdapter.isClavixGeneratedCommand, RegExp.matchHere,
    VibeAdapter.generatedCommand, VibeAdapter.getTargetFilename,
    VibeAdapter.fileExtension.
  change (RegExp.seqs [RegExp.word "clavix-"; RegExp.plus RegExp.dot;
                       RegExp.word "-skill.md"; RegExp.End])
    with (RegExp.Seq (RegExp.word "clavix-")
            (RegExp.Seq (RegExp.Seq RegExp.dot (RegExp.Star true RegExp.dot))
               (RegExp.Seq (RegExp.word "-skill.md") RegExp.End))).
  match goal with |- (match ?x with Some _ => true | None => false end) = true <-> _ =>
    change (isSome x = true <-> exists commandName,
      filename = "clavix-" ++ commandName ++ "-skill" ++ ".md"
      /\ commandName <> ""
      /\ Forall (fun c => Js.isLineTerminator c = false)
           (String.units commandName)) end.
  rewrite run_seq, run_word. split.
  - destruct (Js.startsWith filename "clavix-") eqn:Hpre; [|discriminate].
    apply startsWith_inv in Hpre as [rest ->]. rewrite drop_app. rewrite 2 run_seq.
    destruct rest as [|c rest]; [discriminate|].
    rewrite run_dot. destruct (Js.isLineTerminator c) eqn:Hc; [discriminate|].
    intros Hrun. apply run_star_dot in Hrun as (mid & tail & -> & Hmid & Htail).
    apply run_end_of_word in Htail. subst tail.
    exists (String c mid). repeat split; [discriminate | now constructor].
  - intros (commandName & -> & Hne & Hname).
    rewrite startsWith_app, drop_app. rewrite 2 run_seq.
    destruct commandName as [|c mid]; [congruence|].
    cbn [String.units] in Hname. inversion Hname as [|? ? Hc Hmid]; subst.
    cbn [String.append]. rewrite run_dot, Hc.
    apply run_star_dot. exists mid, "-skill.md".
    split; [reflexivity|]. split; [exact Hmid|]. now apply run_end_of_word.
Qed.

(** The line separator U+2028 is a line terminator: the dot does not match
    it, and a name that contains it is not recognised. *)
Example line_separator_is_not_matched_by_the_dot :
  VibeAdapter.isClavixGeneratedCommand (VibeAdapter.getTargetFilename ("a" ++ LS ++ "b"))
  = false.
Proof. vm_compute. reflexivity. Qed.


(** ** Escaping *)

Lemma escapeRegex_cons (c : char) (s : string) :
  escapeRegex (String c s)
  = if regexSpecial c then String "\" (String c (escapeRegex s))
    else String c (escapeRegex s).
Proof. unfold escapeRegex. cbn [JsReplace.replaceClass]. destruct (regexSpecial c); reflexivity. Qed.

Lemma backslash_is_special : regexSpecial "\" = true.
Proof. reflexivity. Qed.

(** X18.  [escapeRegex] maps different texts to different texts, leaves a
    text unchanged exactly when it has no special character, and adds one
    character for each special character. *)
Theorem X18_escapeRegex_is_injective_and_minimal :
  (forall s t : string, escapeRegex s = escapeRegex t -> s = t)
  /\ (forall s : string,
        escapeRegex s = s
        <-> forallb (fun c => negb (regexSpecial c)) (String.units s) = true)
  /\ (forall s : string,
        String.length (escapeRegex s)
        = (String.length s
           + List.length (filter regexSpecial (String.units s)))%nat).
Proof.
  split; [|split].
  - induction s as [|c s IH]; intros [|d t]; rewrite ?escapeRegex_cons.
    + reflexivity.
    + change (escapeRegex "") with "". destruct (regexSpecial d); discriminate.
    + change (escapeRegex "") with "". destruct (regexSpecial c); discriminate.
    + destruct (regexSpecial c) eqn:Hc, (regexSpecial d) eqn:Hd; intros Heq.
      * injection Heq as -> Heq. now rewrite (IH _ Heq).
      * injection Heq as <- _. rewrite backslash_is_special in Hd. discriminate.
      * injection Heq as -> _. rewrite backslash_is_special in Hc. discriminate.
      * injection Heq as -> Heq. now rewrite (IH _ Heq).
  - assert (Hlen : forall s, (String.length s <= String.length (escapeRegex s))%nat).
    { induction s as [|c s IH]; [cbn; lia|]. rewrite escapeRegex_cons.
      destruct (regexSpecial c); cbn [String.length]; lia. }
    induction s as [|c s IH]; [cbn; tauto|].
    rewrite escapeRegex_cons. cbn [String.units forallb].
    destruct (regexSpecial c) eqn:Hc; cbn [negb andb].
    + split; [|discriminate]. intros Heq. exfalso.
      apply (f_equal String.length) in Heq. cbn [String.length] in Heq.
      specialize (Hlen s). lia.
    + rewrite <- IH. split; [now intros [= ->] | now intros ->].
  - induction s as [|c s IH]; [reflexivity|].
    rewrite escapeRegex_cons. cbn [String.units filter].
    destruct (regexSpecial c); cbn [String.length List.length]; lia.
Qed.

(** ** File names of the configured adapters *)

Lemma string_app_empty_r (s : string) : s ++ "" = s.
Proof. induction s as [|c s IH]; cbn; congruence. Qed.

Lemma substitution_plain (matched before after replacement : string) :
  Js.includes replacement "$" = false ->
  JsReplace.substitution matched before after replacement = replacement.
Proof.
  induction replacement as [|c r IH]; [reflexivity|].
  cbn [Js.includes Js.startsWith JsReplace.substitution].
  rewrite andb_true_r, orb_false_iff. intros [Hc Hr].
  rewrite char_eqb_sym, Hc. now rewrite (IH Hr).
Qed.

Lemma substitution_app (matched before after plain rest : string) :
  Js.includes plain "$" = false ->
  JsReplace.substitution matched before after (plain ++ rest)
  = plain ++ JsReplace.substitution matched before after rest.
Proof.
  induction plain as [|c r IH]; [reflexivity|].
  cbn [Js.includes Js.startsWith String.append].
  rewrite andb_true_r, orb_false_iff. intros [Hc Hr].
  cbn [JsReplace.substitution]. rewrite char_eqb_sym, Hc. now rewrite (IH Hr).
Qed.

Lemma filenamePattern_split (pattern : string) :
  In pattern UniversalAdapter.filenamePatterns ->
  exists prefix,
    pattern = prefix ++ "{name}"
    /\ JsReplace.splitAtFirst "{name}" pattern = Some (prefix, "").
Proof.
  intros [<-|[<-|[<-|[]]]];
    [exists "" | exists "clavix-" | exists "clavix/"]; split; reflexivity.
Qed.

(** X19.  For each of the three [FilenamePattern] values and a command name
    without a dollar sign, the file name is the pattern's text before
    [{name}], the command name and the file extension. *)
Theorem X19_configured_filename_inserts_the_name :
  forall (config : UniversalAdapter.AdapterConfig) (commandName : string),
    In (UniversalAdapter.filenamePattern config) UniversalAdapter.filenamePatterns ->
    Js.includes commandName "$" = false ->
    exists prefix,
      UniversalAdapter.filenamePattern config = prefix ++ "{name}"
      /\ UniversalAdapter.getTargetFilename config commandName
         = prefix ++ commandName ++ UniversalAdapter.fileExtension config.
Proof.
  intros config commandName Hpattern Hplain.
  destruct (filenamePattern_split Hpattern) as (prefix & Hprefix & Hsplit).
  exists prefix. split; [exact Hprefix|].
  unfold UniversalAdapter.getTargetFilename, JsReplace.replace. cbv zeta.
  rewrite Hsplit, substitution_plain by exact Hplain.
  now rewrite string_app_empty_r, string_app_assoc.
Qed.

(** X20.  The command name is the replacement text of [String.replace], so
    its dollar patterns are expanded: [$&] becomes the placeholder [{name}]
    itself, [$$] a single dollar, and [$`] the text of the pattern before
    the placeholder. *)
Theorem X20_dollar_patterns_in_a_name_are_expanded :
  forall (config : UniversalAdapter.AdapterConfig) (left right : string),
    In (UniversalAdapter.filenamePattern config) UniversalAdapter.filenamePatterns ->
    Js.includes left "$" = false ->
    Js.includes right "$" = false ->
    exists prefix,
      UniversalAdapter.filenamePattern config = prefix ++ "{name}"
      /\ UniversalAdapter.getTargetFilename config (left ++ "$&" ++ right)
         = prefix ++ (left ++ "{name}" ++ right) ++ UniversalAdapter.fileExtension config
      /\ UniversalAdapter.getTargetFilename config (left ++ "$$" ++ right)
         = prefix ++ (left ++ "$" ++ right) ++ UniversalAdapter.fileExtension config
      /\ UniversalAdapter.getTargetFilename config (left ++ "$`" ++ right)
         = prefix ++ (left ++ prefix ++ right) ++ UniversalAdapter.fileExtension config.
Proof.
  intros config left right Hpattern Hleft Hright.
  destruct (filenamePattern_split Hpattern) as (prefix & Hprefix & Hsplit).
  exists prefix. split; [exact Hprefix|].
  unfold UniversalAdapter.getTargetFilename, JsReplace.replace. cbv zeta.
  rewrite Hsplit.
  repeat split;
    rewrite substitution_app by exact Hleft;
    cbn [String.append JsReplace.substitution Char.eqb Char.code N.eqb Pos.eqb];
    rewrite substitution_plain by exact Hright;
    rewrite ?string_app_empty_r, ?string_app_assoc; reflexivity.
Qed.

(** ** The loop as a whole *)

Lemma applied_keeps_text `{BasePattern} (k : PatternKind) (T : string)
    (ctx : PatternContext) :
  Js.includes (enhancedPrompt (applyKind k T ctx)) T = true.
Proof.
  destruct (applied (applyKind k T ctx)) eqn:Happ.
  2:{ rewrite unapplied_returns_input by exact Happ.
      apply includes_refl. }
  destruct k; cbn [applyKind] in *.
  - unfold ConversationSummarizer.apply in *.
    destruct (ConversationSummarizer.isAlreadyStructured T); [discriminate|].
    destruct (negb (ConversationSummarizer.isConversationalContent T)); [discriminate|].
    destruct (summarizer_keeps_text T) as [header Hdoc]. cbn [enhancedPrompt].
    rewrite Hdoc, <- !string_app_assoc. apply includes_suffix.
  - unfold RequirementPrioritizer.apply in *.
    destruct (negb (RequirementPrioritizer.hasFeatureContent T)); [discriminate|].
    destruct (RequirementPrioritizer.hasPrioritization T); [discriminate|].
    cbn [enhancedPrompt]. unfold RequirementPrioritizer.addPrioritization.
    destruct (RequirementPrioritizer.extractFeatureSection T) as [[|c s]|];
      apply includes_prefix.
  - unfold UserPersonaEnricher.apply in *.
    destruct (UserPersonaEnricher.hasUserContext T); [discriminate|].
    destruct (negb (UserPersonaEnricher.needsUserContext T)); [discriminate|].
    apply includes_prefix.
  - unfold ImplicitRequirementExtractor.apply in *.
    destruct (List.length _ =? 0)%nat; [discriminate|].
    apply includes_prefix.
  - unfold TopicCoherenceAnalyzer.apply in *.
    destruct (List.length _ <=? 1)%nat; [discriminate|].
    destruct (TopicCoherenceAnalyzer.hasTopicOrganization T); [discriminate|].
    destruct (topics_keep_text T (TopicCoherenceAnalyzer.detectTopics T)) as [header Hdoc].
    cbn [enhancedPrompt]. rewrite Hdoc, <- !string_app_assoc. apply includes_suffix.
Qed.

Lemma modelled_loop_keeps_text `{BasePattern} (ctx : PatternContext)
    (patterns : list Pattern) (st : LoopState) (prompt : string) :
  (forall p, In p patterns -> exists k, p = patternOf k) ->
  Js.includes (loop_enhanced st) prompt = true ->
  Js.includes (loop_enhanced (statesAfter ctx patterns st)) prompt = true
  /\ linesLogged ctx patterns st = [].
Proof.
  revert st. induction patterns as [|p ps IH]; intros st Hall Hst; [now split|].
  destruct (Hall p (or_introl eq_refl)) as [k ->].
  cbn [statesAfter linesLogged]. unfold lineLogged.
  rewrite registered_apply. cbn [List.app].
  apply IH; [intros q Hq; apply Hall; now right|].
  unfold stateAfter. rewrite registered_apply.
  destruct (applied (applyKind k (loop_enhanced st) ctx)); [|exact Hst].
  cbn [loop_enhanced].
  apply includes_trans with (b := loop_enhanced st); [apply applied_keeps_text | exact Hst].
Qed.

(** X21.  When every selected pattern is one of the five modelled patterns,
    [optimize] returns normally, writes nothing to the console, and the
    enhanced prompt contains the original prompt, however many of the
    patterns applied. *)
Theorem X21_modelled_patterns_keep_the_prompt `{BasePattern} :
  forall (o : UniversalOptimizer) (prompt : string) (mode : OptimizationMode)
         (ov : option OptimizationContextOverride) (w : World),
    (forall p, In p (selectFor o mode (resolveIntent o prompt ov) ov) ->
               exists k, p = patternOf k) ->
    exists result w',
      optimize o prompt mode ov w = (Normal result, w')
      /\ original result = prompt
      /\ Js.includes (enhanced result) prompt = true
      /\ console w' = console w.
Proof.
  intros o prompt mode ov w Hall.
  rewrite optimize_run. cbv zeta. eexists _, _. split; [reflexivity|].
  cbn [original enhanced console].
  destruct (modelled_loop_keeps_text
              (contextFor prompt mode (resolveIntent o prompt ov) ov)
              (selectFor o mode (resolveIntent o prompt ov) ov)
              (mkLoop prompt [] []) prompt Hall (includes_refl prompt))
    as [Hkeeps Hquiet].
  split; [reflexivity|]. split; [exact Hkeeps|].
  rewrite Hquiet. apply app_nil_r.
Qed.

Lemma loop_invariant (ctx : PatternContext) (patterns : list Pattern) (st : LoopState) :
  let final := statesAfter ctx patterns st in
  (exists newImprovements newSummaries,
     loop_improvements final = (loop_improvements st ++ newImprovements)%list
     /\ loop_appliedPatterns final = (loop_appliedPatterns st ++ newSummaries)%list
     /\ map impact newImprovements = map summary_impact newSummaries
     /\ (List.length newSummaries + List.length (linesLogged ctx patterns st)
         <= List.length patterns)%nat
     /\ Forall (fun s => exists p, In p patterns
                                   /\ summary_name s = name p
                                   /\ summary_description s = pattern_description p)
          newSummaries
     /\ (newSummaries = [] -> loop_enhanced final = loop_enhanced st)).
Proof.
  revert st. induction patterns as [|p ps IH]; intros st; cbv zeta.
  - exists [], []. cbn. rewrite !app_nil_r. repeat split; auto.
  - cbn [statesAfter linesLogged].
    destruct (IH (stateAfter ctx p st)) as (imps & sums & Himp & Hsum & Hpair & Hlen & Hnames & Hnone).
    assert (Hweaken : Forall (fun s => exists q, In q (p :: ps)
                                   /\ summary_name s = name q
                                   /\ summary_description s = pattern_description q) sums).
    { eapply Forall_impl; [|exact Hnames]. intros s (q & Hq & Hs). exists q. split; [now right | exact Hs]. }
    rewrite Himp, Hsum. unfold stateAfter, lineLogged in *.
    destruct (apply p (loop_enhanced st) ctx) as [result|error].
    + destruct (applied result).
      * cbn [loop_improvements loop_appliedPatterns loop_enhanced] in *.
        exists (improvement result :: imps),
               (mkSummary (name p) (pattern_description p) (impact (improvement result)) :: sums).
        rewrite <- !app_assoc. cbn [List.app map List.length summary_impact] in *.
        split; [reflexivity|]. split; [reflexivity|].
        split; [now rewrite Hpair|]. split; [lia|].
        split; [|discriminate].
        constructor; [|exact Hweaken]. exists p. cbn. auto.
      * exists imps, sums. cbn [List.app List.length] in *.
        split; [reflexivity|]. split; [reflexivity|].
        split; [exact Hpair|]. split; [lia|]. split; [exact Hweaken | exact Hnone].
    + exists imps, sums. cbn [List.app List.length] in *.
      split; [reflexivity|]. split; [reflexivity|].
      split; [exact Hpair|]. split; [lia|]. split; [exact Hweaken | exact Hnone].
Qed.

(** X22.  Whatever the collaborators and patterns do, [optimize] returns
    normally after exactly two clock readings; [improvements] and
    [appliedPatterns] pair up (same impacts, in the same order); every
    summary carries the name and description of a selected pattern; the
    applied patterns and the console lines written together number at most
    the selected patterns; and with no applied pattern the enhanced prompt is
    the prompt. *)
Theorem X22_improvements_pair_with_applied_patterns :
  forall (o : UniversalOptimizer) (prompt : string) (mode : OptimizationMode)
         (ov : option OptimizationContextOverride) (w : World),
    let selected := selectFor o mode (resolveIntent o prompt ov) ov in
    exists result w',
      optimize o prompt mode ov w = (Normal result, w')
      /\ map impact (improvements result) = map summary_impact (appliedPatterns result)
      /\ (List.length (appliedPatterns result) + List.length (console w')
          <= List.length selected + List.length (console w))%nat
      /\ Forall (fun s => exists p, In p selected
                                    /\ summary_name s = name p
                                    /\ summary_description s = pattern_description p)
           (appliedPatterns result)
      /\ (appliedPatterns result = [] -> enhanced result = prompt)
      /\ reads w' = S (S (reads w)).
Proof.
  intros o prompt mode ov w selected.
  rewrite optimize_run. cbv zeta. eexists _, _. split; [reflexivity|].
  cbn [improvements appliedPatterns console enhanced reads].
  destruct (loop_invariant (contextFor prompt mode (resolveIntent o prompt ov) ov)
              selected (mkLoop prompt [] []))
    as (imps & sums & Himp & Hsum & Hpair & Hlen & Hnames & Hnone).
  fold selected. rewrite Himp, Hsum. cbn [loop_improvements loop_appliedPatterns List.app].
  rewrite length_app.
  repeat split; auto. lia.
Qed.

(** ** The properties above, on sample inputs *)

Lemma X14_witness :
  applied
    (ConversationSummarizer.apply (H := KeywordBase.base)
       (enhancedPrompt
          (ConversationSummarizer.apply (H := KeywordBase.base) dashboardPrompt
             sampleContext))
       sampleContext)
  = false.
Proof.
  rewrite (@X14_summarizer_does_not_restructure_its_output KeywordBase.base
             dashboardPrompt sampleContext sampleContext).
  - reflexivity.
  - vm_compute. reflexivity.
  - vm_compute. discriminate.
Defined.

Lemma X17_witness :
  applied
    (TopicCoherenceAnalyzer.apply (H := KeywordBase.base)
       (enhancedPrompt
          (TopicCoherenceAnalyzer.apply (H := KeywordBase.base) loginPagePrompt
             sampleContext))
       sampleContext)
  = false.
Proof.
  rewrite (@X17_topic_analyzer_does_not_reorganise_its_output KeywordBase.base
             loginPagePrompt "Authentication" sampleContext sampleContext).
  - reflexivity.
  - vm_compute. reflexivity.
  - vm_compute. auto.
  - vm_compute. auto.
Defined.

Lemma X19_witness :
  exists prefix,
    UniversalAdapter.filenamePattern cursorConfig = prefix ++ "{name}"
    /\ UniversalAdapter.getTargetFilename cursorConfig "improve"
       = prefix ++ "improve" ++ UniversalAdapter.fileExtension cursorConfig.
Proof.
  apply (@X19_configured_filename_inserts_the_name cursorConfig "improve").
  - cbn. auto.
  - reflexivity.
Defined.

Lemma X20_witness :
  exists prefix,
    UniversalAdapter.filenamePattern cursorConfig = prefix ++ "{name}"
    /\ UniversalAdapter.getTargetFilename cursorConfig ("a" ++ "$&" ++ "b")
       = prefix ++ ("a" ++ "{name}" ++ "b") ++ UniversalAdapter.fileExtension cursorConfig
    /\ UniversalAdapter.getTargetFilename cursorConfig ("a" ++ "$$" ++ "b")
       = prefix ++ ("a" ++ "$" ++ "b") ++ UniversalAdapter.fileExtension cursorConfig
    /\ UniversalAdapter.getTargetFilename cursorConfig ("a" ++ "$`" ++ "b")
       = prefix ++ ("a" ++ prefix ++ "b") ++ UniversalAdapter.fileExtension cursorConfig.
Proof.
  apply (@X20_dollar_patterns_in_a_name_are_expanded cursorConfig "a" "b").
  - cbn. auto.
  - reflexivity.
  - reflexivity.
Defined.

Lemma X21_witness :
  exists result w',
    optimize
      (sampleOptimizer
         [patternOf (H := KeywordBase.base) UserPersonaEnricherK;
          patternOf (H := KeywordBase.base) ImplicitRequirementExtractorK]
         vagueQuality)
      "Build a shop" deep None sampleWorld
    = (Normal result, w')
    /\ original result = "Build a shop"
    /\ Js.includes (enhanced result) "Build a shop" = true
    /\ console w' = console sampleWorld.
Proof.
  apply (@X21_modelled_patterns_keep_the_prompt KeywordBase.base).
  intros p Hp. cbn in Hp. destruct Hp as [<-|[<-|[]]].
  - now exists UserPersonaEnricherK.
  - now exists ImplicitRequirementExtractorK.
Defined.
